(** * Tactical decision layer of the chronodivide bot

    A shallow embedding of the mission and squad logic of the bot
    (attack mission, naval mission, naval squad, scouting mission and
    its factory, ground-unit build rules, the production requests of
    the bot's tick), followed by the properties established about it.

    Conventions of the embedding.
    - Ticks, unit ids, counts and map sizes are integers ([Z]).
    - Coordinates, distances, scores and weights are JavaScript numbers;
      they are embedded as exact rationals ([Q]), and as the numbers of
      [Number], which add [Infinity], [-Infinity] and [NaN], where the
      code may divide by zero or read a property that an object does
      not have.  The rounding of floating-point arithmetic is not
      modelled; the statements about the choice of an attack target do
      not say how a tie between two weights is broken.  The
      transcendental and irrational library functions ([Math.sqrt],
      [Math.cos], [Math.sin], [Math.PI]) are not computed: they are
      the fields of the class [MathOps], and every statement holds for
      any implementation of them.
    - Queries to the engine and to the awareness collaborator
      ([getHostilesNearPoint], [getTile], [getUnitData], ...) are
      read-only oracles, passed as arguments or record fields.
    - Mutable objects become records that are threaded through the
      functions; the action batcher is the list of pushed orders. *)

From Stdlib Require Import ZArith QArith Qround Qabs Lia Lqa List Bool String.
From stdpp Require Import base gmap strings list.
Import ListNotations.
Open Scope Z_scope.

(* ================================================================== *)
(** * Part I.  The embedding                                           *)
(* ================================================================== *)

(** ** JavaScript numbers and geometry *)

Module JS.

(** [a < b] on numbers, as a boolean. *)
Definition Qltb (a b : Q) : bool := negb (Qle_bool b a).

(** [a <= b] on numbers, as a boolean. *)
Definition Qleb (a b : Q) : bool := Qle_bool a b.

(** [Math.round]: the nearest integer, halves rounded towards
    positive infinity. *)
Definition Math_round (q : Q) : Z := Qfloor (q + (1 # 2))%Q.

(** [Math.min] and [Math.max] on numbers. *)
Definition Math_min (a b : Q) : Q := if Qle_bool a b then a else b.
Definition Math_max (a b : Q) : Q := if Qle_bool a b then b else a.

(** The library functions that are not rational. *)
Class MathOps := {
  Math_sqrt : Q -> Q;
  Math_cos : Q -> Q;
  Math_sin : Q -> Q;
  Math_PI : Q
}.

(** [Vector2] of the game API. *)
Record Vector2 := mkVector2 { vx : Q; vy : Q }.

(** A number used as a condition: [0] is falsy. *)
Definition truthyZ (n : Z) : bool := negb (n =? 0).
Definition truthyQ (q : Q) : bool := negb (Qeq_bool q 0).

(** [Math.sqrt(Math.pow(ax - bx, 2) + Math.pow(ay - by, 2))]. *)
Definition euclid `{MathOps} (ax ay bx by_ : Q) : Q :=
  Math_sqrt ((ax - bx) * (ax - bx) + (ay - by_) * (ay - by_))%Q.

End JS.

Import JS.

(** ** Numbers that may be infinite or [NaN]

    A division by zero leaves the rationals: [x / 0] is [Infinity],
    [-Infinity] or [NaN].  The attack weights divide by a multiple of
    the weapon range, which the game data may give as [0]; they are
    computed on numbers extended with these three values.  The zero of
    the embedding is the positive zero. *)

Module Number.

Inductive t := Finite (q : Q) | PosInfinity | NegInfinity | NaN.

(** The sign of a number that is not [NaN]. *)
Definition sign (a : t) : Z :=
  match a with
  | Finite q => if Qeq_bool q 0 then 0 else if Qltb 0 q then 1 else -1
  | PosInfinity => 1
  | NegInfinity => -1
  | NaN => 0
  end.

Definition infinity (s : Z) : t := if 0 <? s then PosInfinity else NegInfinity.

(** [a * b]. *)
Definition mul (a b : t) : t :=
  match a, b with
  | NaN, _ | _, NaN => NaN
  | Finite x, Finite y => Finite (x * y)
  | _, _ => if sign a * sign b =? 0 then NaN else infinity (sign a * sign b)
  end.

(** [a - b]. *)
Definition sub (a b : t) : t :=
  match a, b with
  | NaN, _ | _, NaN => NaN
  | Finite x, Finite y => Finite (x - y)
  | Finite _, PosInfinity => NegInfinity
  | Finite _, NegInfinity => PosInfinity
  | PosInfinity, PosInfinity | NegInfinity, NegInfinity => NaN
  | PosInfinity, _ => PosInfinity
  | NegInfinity, _ => NegInfinity
  end.

(** [a / b]. *)
Definition div (a b : t) : t :=
  match a, b with
  | NaN, _ | _, NaN => NaN
  | Finite x, Finite y =>
      if Qeq_bool y 0
      then if Qeq_bool x 0 then NaN else infinity (sign a)
      else Finite (x / y)
  | Finite _, _ => Finite 0
  | _, Finite _ => infinity (sign a * (if sign b =? 0 then 1 else sign b))
  | _, _ => NaN
  end.

(** [a + b]. *)
Definition add (a b : t) : t :=
  match a, b with
  | NaN, _ | _, NaN => NaN
  | Finite x, Finite y => Finite (x + y)
  | PosInfinity, NegInfinity | NegInfinity, PosInfinity => NaN
  | PosInfinity, _ | _, PosInfinity => PosInfinity
  | NegInfinity, _ | _, NegInfinity => NegInfinity
  end.

(** [Math.sqrt(a)]. *)
Definition sqrt `{MathOps} (a : t) : t :=
  match a with
  | Finite q => if Qltb q 0 then NaN else Finite (Math_sqrt q)
  | PosInfinity => PosInfinity
  | NegInfinity | NaN => NaN
  end.

(** A value read from an object, used as a number: [undefined], the
    value of a property the object does not have, is [NaN]. *)
Definition ofProperty (v : option Q) : t :=
  match v with
  | Some q => Finite q
  | None => NaN
  end.

(** [a < b]: false as soon as one side is [NaN]. *)
Definition ltb (a b : t) : bool :=
  match a, b with
  | NaN, _ | _, NaN => false
  | Finite x, Finite y => Qltb x y
  | NegInfinity, NegInfinity => false
  | NegInfinity, _ => true
  | Finite _, PosInfinity => true
  | _, _ => false
  end.

(** The order of the numbers, as a proposition; [NaN] is comparable
    with nothing. *)
Definition le (a b : t) : Prop :=
  match a, b with
  | NaN, _ | _, NaN => False
  | Finite x, Finite y => (x <= y)%Q
  | NegInfinity, _ => True
  | _, PosInfinity => True
  | _, _ => False
  end.

End Number.

(** ** Build rules of ground units (basicGroundUnit.ts, buildingRules.ts) *)

Module BuildingRules.

(** The constructor arguments of [BasicGroundUnit]; [maxGlobalCount] is
    [null] ([None]) unless given. *)
Record BasicGroundUnit := mkBasicGroundUnit {
  basePriority : Q;
  baseAmount : Q;
  antiGroundPower : Q;
  antiAirPower : Q;
  maxGlobalCount : option Z
}.

(** [new BasicGroundUnit(basePriority, baseAmount, antiGroundPower = 1,
    antiAirPower = 0, maxGlobalCount = null)]. *)
Definition newBasicGroundUnit (bp ba : Q) (agp aap : option Q) : BasicGroundUnit :=
  {| basePriority := bp; baseAmount := ba;
     antiGroundPower := default 1%Q agp;
     antiAirPower := default 0%Q aap;
     maxGlobalCount := None |}.

(** [game.getVisibleUnits(player, "self", r => r.name === name).length]:
    the game is seen through the rule names of the player's own units. *)
Definition countOwned (selfUnits : list string) (name : string) : Z :=
  Z.of_nat (length (List.filter (fun n => String.eqb n name) selfUnits)).

(** [BasicGroundUnit.getPriority]. *)
Definition getPriority (u : BasicGroundUnit) (selfUnits : list string)
    (technoName : string) : Q :=
  match maxGlobalCount u with
  | Some cap =>
      let currentCount := countOwned selfUnits technoName in
      if cap <=? currentCount then 0%Q else 0%Q
  | None => 0%Q
  end.

(** [BasicGroundUnit.getMaxCount]. *)
Definition getMaxCount (u : BasicGroundUnit) : option Z := maxGlobalCount u.

(** [// Priority 0 = don't build.] *)
Definition DEFAULT_BUILDING_PRIORITY : Q := 0%Q.

(** The rule classes of [BUILDING_NAME_TO_RULES].  Only
    [BasicGroundUnit] is inspected here; the other classes keep their
    constructor arguments. *)
Inductive AiBuildingRules :=
| PowerPlant
| ResourceCollectionBuilding (a b : Q)
| BasicBuilding (a b : Q) (c : option Q)
| Harvester (a b c : Q)
| NavalYard (basePriority maxNeeded : Q)
| AntiGroundStaticDefence (a b c d : Q)
| AntiAirStaticDefence (a b c : Q)
| GroundUnit (u : BasicGroundUnit)
| BasicAirUnit (a b c d : Q)
| ArtilleryUnit (a b c d : Q).

(** [BUILDING_NAME_TO_RULES], in source order. *)
Definition BUILDING_NAME_TO_RULES : list (string * AiBuildingRules) :=
  [ ("GAPOWR", PowerPlant);
    ("GAREFN", ResourceCollectionBuilding 10 3);
    ("GAWEAP", BasicBuilding 15 1 None);
    ("GAPILE", BasicBuilding 12 1 None);
    ("CMIN", Harvester 15 4 2);
    ("GADEPT", BasicBuilding 1 1 (Some 10000%Q));
    ("GAAIRC", BasicBuilding 10 1 (Some 500%Q));
    ("AMRADR", BasicBuilding 10 1 (Some 500%Q));
    ("GATECH", BasicBuilding 20 1 (Some 4000%Q));
    ("GAYARD", NavalYard 25 1);
    ("GAPILL", AntiGroundStaticDefence 2 1 5 5);
    ("ATESLA", AntiGroundStaticDefence 2 1 10 3);
    ("NASAM", AntiAirStaticDefence 2 1 5);
    ("GAWALL", AntiGroundStaticDefence 0 0 0 0);
    ("E1", GroundUnit (newBasicGroundUnit 2 2 (Some (2 # 10)%Q) (Some 0%Q)));
    ("ENGINEER", GroundUnit (newBasicGroundUnit 1 0 (Some 0%Q) None));
    ("MTNK", GroundUnit (newBasicGroundUnit 10 3 (Some 2%Q) (Some 0%Q)));
    ("MGTK", GroundUnit (newBasicGroundUnit 10 1 (Some (25 # 10)%Q) (Some 0%Q)));
    ("FV", GroundUnit (newBasicGroundUnit 5 2 (Some (5 # 10)%Q) (Some 1%Q)));
    ("JUMPJET", BasicAirUnit 10 1 1 1);
    ("ORCA", BasicAirUnit 7 1 2 0);
    ("SREF", ArtilleryUnit 10 5 3 3);
    ("CLEG", GroundUnit (newBasicGroundUnit 0 0 None None));
    ("SHAD", GroundUnit (newBasicGroundUnit 0 0 None None));
    ("NAPOWR", PowerPlant);
    ("NAREFN", ResourceCollectionBuilding 10 3);
    ("NAWEAP", BasicBuilding 15 1 None);
    ("NAHAND", BasicBuilding 12 1 None);
    ("HARV", Harvester 15 4 2);
    ("NADEPT", BasicBuilding 1 1 (Some 10000%Q));
    ("NARADR", BasicBuilding 10 1 (Some 500%Q));
    ("NANRCT", PowerPlant);
    ("NAYARD", NavalYard 25 1);
    ("NATECH", BasicBuilding 20 1 (Some 4000%Q));
    ("NALASR", AntiGroundStaticDefence 2 1 5 5);
    ("NAFLAK", AntiAirStaticDefence 2 1 5);
    ("TESLA", AntiGroundStaticDefence 2 1 10 3);
    ("NAWALL", AntiGroundStaticDefence 0 0 0 0);
    ("E2", GroundUnit (newBasicGroundUnit 2 2 (Some (2 # 10)%Q) (Some 0%Q)));
    ("SENGINEER", GroundUnit (newBasicGroundUnit 1 0 (Some 0%Q) None));
    ("FLAKT", GroundUnit (newBasicGroundUnit 2 2 (Some (1 # 10)%Q) (Some (3 # 10)%Q)));
    ("YURI", GroundUnit (newBasicGroundUnit 1 1 (Some 1%Q) (Some 0%Q)));
    ("DOG", GroundUnit (newBasicGroundUnit 1 1 (Some 0%Q) (Some 0%Q)));
    ("HTNK", GroundUnit (newBasicGroundUnit 10 3 (Some 3%Q) (Some 0%Q)));
    ("APOC", GroundUnit (newBasicGroundUnit 6 1 (Some 5%Q) (Some 0%Q)));
    ("HTK", GroundUnit (newBasicGroundUnit 5 2 (Some (33 # 100)%Q) (Some (15 # 10)%Q)));
    ("ZEP", BasicAirUnit 5 1 5 1);
    ("V3", ArtilleryUnit 9 10 0 3) ]%string.

(** [BUILDING_NAME_TO_RULES.get(name)] (the keys are pairwise distinct). *)
Fixpoint rulesFor (table : list (string * AiBuildingRules)) (name : string)
    : option AiBuildingRules :=
  match table with
  | [] => None
  | (k, r) :: rest => if String.eqb k name then Some r else rulesFor rest name
  end.

(** The names governed by [BasicGroundUnit], with their rule. *)
Definition groundUnitEntries : list (string * BasicGroundUnit) :=
  omap (fun kr => match snd kr with
                  | GroundUnit u => Some (fst kr, u)
                  | _ => None
                  end) BUILDING_NAME_TO_RULES.

End BuildingRules.

(** ** The mission controller, as far as the factories use it *)

Module MissionController.

(** The kinds of mission a factory adds. *)
Inductive MissionKind := ScoutingMissionK | AttackMissionK | NavalMissionK | RetreatMissionK.

Record Mission := mkMission {
  uniqueName : string;
  missionPriority : Z;
  kind : MissionKind
}.

(** Modelled from the spec: the mission controller (missionController.ts
    is not among the sources).  It owns the list of active missions, in
    creation order; [addMission] fails (returns [false]) on a duplicate
    unique name and otherwise appends the mission. *)
Definition addMission (missions : list Mission) (m : Mission) : bool * list Mission :=
  if existsb (fun m' => String.eqb (uniqueName m') (uniqueName m)) missions
  then (false, missions)
  else (true, missions ++ [m]).

(** Modelled from the spec: a mission whose update returned a disband
    action is removed from the controller's list. *)
Definition removeMission (missions : list Mission) (name : string) : list Mission :=
  List.filter (fun m' => negb (String.eqb (uniqueName m') name)) missions.

End MissionController.

(** ** Scouting mission factory (scoutingMission.ts) *)

Module ScoutingMissionFactory.
Import MissionController.

Definition SCOUT_COOLDOWN_TICKS : Z := 300.

Record t := mkFactory { lastScoutAt : Z }.

(** [constructor(private lastScoutAt: number = -SCOUT_COOLDOWN_TICKS)]. *)
Definition new : t := {| lastScoutAt := - SCOUT_COOLDOWN_TICKS |}.

(** [new ScoutingMission("globalScout", 10, logger)]. *)
Definition globalScout : Mission :=
  {| uniqueName := "globalScout"; missionPriority := 10; kind := ScoutingMissionK |}.

(** [ScoutingMissionFactory.maybeCreateMissions]: [hasScoutTargets] is
    [matchAwareness.getScoutingManager().hasScoutTargets()]. *)
Definition maybeCreateMissions (f : t) (currentTick : Z) (hasScoutTargets : bool)
    (missions : list Mission) : t * list Mission :=
  if currentTick <? lastScoutAt f + SCOUT_COOLDOWN_TICKS then (f, missions)
  else if negb hasScoutTargets then (f, missions)
  else
    let '(added, missions') := addMission missions globalScout in
    if negb added
    then ({| lastScoutAt := currentTick |}, missions')
    else (f, missions').

(** [ScoutingMissionFactory.onMissionFailed]. *)
Definition onMissionFailed (f : t) (currentTick : Z) (hasScoutTargets : bool)
    (failedMission : Mission) (missions : list Mission) : t * list Mission :=
  if currentTick <? lastScoutAt f + SCOUT_COOLDOWN_TICKS then (f, missions)
  else if negb hasScoutTargets then (f, missions)
  else
    match kind failedMission with
    | AttackMissionK =>
        ({| lastScoutAt := currentTick |}, snd (addMission missions globalScout))
    | _ => (f, missions)
    end.

(** Whether the controller holds the scouting mission. *)
Definition hasGlobalScout (missions : list Mission) : bool :=
  existsb (fun m => String.eqb (uniqueName m) "globalScout") missions.

End ScoutingMissionFactory.

(** ** Unit data of the game API *)

Module Game.

Inductive ObjectType := Building | Infantry | Vehicle | Aircraft.

Inductive MovementZone := Water | AmphibiousDestroyer | OtherZone.

Inductive TerrainType := WaterTerrain | LandTerrain.

(** The fields of [UnitData] (and of its [rules]) that the tactical
    code reads.  [ownedByNeutral] is the result of [isOwnedByNeutral]. *)
Record UnitData := mkUnitData {
  id : Z;
  name : string;
  tile_rx : Z;
  tile_ry : Z;
  rules_type : ObjectType;
  rules_name : string;
  rules_isSelectableCombatant : bool;
  rules_movementZone : MovementZone;
  rules_naval : bool;
  rules_strength : Q;
  rules_points : Q;
  ownedByNeutral : bool;
  primaryWeapon_maxRange : option Q;
  secondaryWeapon_maxRange : option Q;
  stance_deployed : bool;
  attackState_justFired : bool
}.

Definition eqObjectType (a b : ObjectType) : bool :=
  match a, b with
  | Building, Building | Infantry, Infantry
  | Vehicle, Vehicle | Aircraft, Aircraft => true
  | _, _ => false
  end.

Definition eqMovementZone (a b : MovementZone) : bool :=
  match a, b with
  | Water, Water | AmphibiousDestroyer, AmphibiousDestroyer
  | OtherZone, OtherZone => true
  | _, _ => false
  end.

(** [new Vector2(unit.tile.rx, unit.tile.ry)]. *)
Definition tilePoint (u : UnitData) : Vector2 :=
  {| vx := inject_Z (tile_rx u); vy := inject_Z (tile_ry u) |}.

(** The size returned by [mapApi.getRealMapSize()]. *)
Record MapSize := mkMapSize { width : Z; height : Z }.

(** The distance helpers of map.ts, which is not among the sources: they
    are parameters of the embedding. *)
Class MapOps := {
  getDistanceBetweenPoints : Vector2 -> Vector2 -> Q;
  getDistanceBetweenUnits : UnitData -> UnitData -> Q;
  getDistanceBetweenTileAndPoint : Z * Z -> Z * Z -> Q
}.

End Game.

Import Game.

(** ** Mission actions (mission.ts, as used by the missions and squads) *)

Module MissionAction.

(** The tagged variant returned by an update. *)
Inductive t :=
| Noop
| RequestUnits (unitNames : list string) (priority : Q)
| Disband (reason : option Z)
| RequestNavalMission (target : Vector2)
| SearchBuildings (center : Vector2) (searchRadius : Q).

Definition noop : t := Noop.
Definition requestUnits (unitNames : list string) (priority : Q) : t :=
  RequestUnits unitNames priority.
Definition disbandMission (reason : option Z) : t := Disband reason.

End MissionAction.

(** ** Attack mission: target scoring, target switching and the
       Attacking state (second document of navalMission.ts) *)

Module AttackMission.

Definition TARGET_LOCK_DURATION : Z := 150.
Definition TARGET_SWITCH_MIN_IMPROVEMENT : Q := 3 # 10.
Definition TARGET_MEMORY_SIZE : nat := 3.
Definition NAVAL_YARD_SCORE_MULTIPLIER : Q := 3.
Definition MAX_SEARCH_RADIUS : Q := 100.
Definition SEARCH_RADIUS_INCREMENT : Q := 10.
Definition SEARCH_EXPAND_INTERVAL : Z := 60.
Definition BUILDING_SEARCH_COOLDOWN : Z := 30.

(** The part of the mission object that target switching and the
    Attacking state read and write.  [attackArea] is the attack area
    held by the combat squad ([squad.getAttackArea()] /
    [squad.setAttackArea]); [units] are the mission's units and
    [hasGameApi] tells whether [currentGameApi] has been set. *)
Record t := mkAttackMission {
  radius : Q;
  attackArea : Vector2;
  hasGameApi : bool;
  units : list UnitData;
  lastTargetSeenAt : Z;
  lastTargetUpdateTime : Z;
  currentTargetLockTime : Z;
  recentTargets : list Vector2;
  currentTargetScore : Q;
  lastBuildingSearchTime : Z;
  currentSearchRadius : Q
}.

(** [this.squad.setAttackArea(v)], and the squad's own writes to its
    attack area. *)
Definition set_attackArea (v : Vector2) (m : t) : t :=
  mkAttackMission (radius m) v (hasGameApi m) (units m) (lastTargetSeenAt m)
    (lastTargetUpdateTime m) (currentTargetLockTime m) (recentTargets m)
    (currentTargetScore m) (lastBuildingSearchTime m) (currentSearchRadius m).

(** [this.lastTargetSeenAt = this.lastTargetUpdateTime =
    this.currentTargetLockTime = tick]. *)
Definition set_lock (tick : Z) (m : t) : t :=
  mkAttackMission (radius m) (attackArea m) (hasGameApi m) (units m) tick tick tick
    (recentTargets m) (currentTargetScore m) (lastBuildingSearchTime m)
    (currentSearchRadius m).

Definition set_recentTargets (v : list Vector2) (m : t) : t :=
  mkAttackMission (radius m) (attackArea m) (hasGameApi m) (units m) (lastTargetSeenAt m)
    (lastTargetUpdateTime m) (currentTargetLockTime m) v
    (currentTargetScore m) (lastBuildingSearchTime m) (currentSearchRadius m).

Definition set_currentTargetScore (v : Q) (m : t) : t :=
  mkAttackMission (radius m) (attackArea m) (hasGameApi m) (units m) (lastTargetSeenAt m)
    (lastTargetUpdateTime m) (currentTargetLockTime m) (recentTargets m)
    v (lastBuildingSearchTime m) (currentSearchRadius m).

Definition set_search (searchRadius : Q) (searchedAt : Z) (m : t) : t :=
  mkAttackMission (radius m) (attackArea m) (hasGameApi m) (units m) (lastTargetSeenAt m)
    (lastTargetUpdateTime m) (currentTargetLockTime m) (recentTargets m)
    (currentTargetScore m) searchedAt searchRadius.

(** [matchAwareness.getHostilesNearPoint2d(point, radius)]: for each
    hit, the result of [gameApi.getUnitData(hit.unitId)] — [None] when
    the engine has no data for the id. *)
Definition Awareness := Vector2 -> Q -> list (option UnitData).

(** What an update in the Attacking state reads.  The combat squad
    (combatSquad.ts) is not among the sources: [squad_onAiUpdate] is the
    result of [this.squad.onAiUpdate(...)] on this update — given the
    attack area that the squad holds, the action it returns and the
    attack area it holds afterwards. *)
Record Env := mkEnv {
  currentTick : Z;
  hostilesNearPoint2d : Awareness;
  squad_onAiUpdate : Vector2 -> MissionAction.t * Vector2
}.

(** [update.type === "noop"]. *)
Definition isNoop (action : MissionAction.t) : bool :=
  match action with
  | MissionAction.Noop => true
  | _ => false
  end.

(** [AttackMission.getCenterOfMass]. *)
Definition getCenterOfMass (m : t) : option Vector2 :=
  if negb (hasGameApi m) then None
  else match units m with
       | [] => None
       | us =>
           let sumX := fold_left (fun s u => (s + inject_Z (tile_rx u))%Q) us 0%Q in
           let sumY := fold_left (fun s u => (s + inject_Z (tile_ry u))%Q) us 0%Q in
           let n := inject_Z (Z.of_nat (length us)) in
           Some {| vx := (sumX / n)%Q; vy := (sumY / n)%Q |}
       end.

(** The loop of [evaluateTarget]: the accumulated score and whether a
    naval yard was seen. *)
Definition scoreHostile (acc : Q * bool) (hostile : UnitData) : Q * bool :=
  let '(score, hasNavalYard) := acc in
  if eqObjectType (rules_type hostile) Building then
    if String.eqb (name hostile) "NAYARD"
    then ((score + 15 * NAVAL_YARD_SCORE_MULTIPLIER)%Q, true)
    else ((score + 10)%Q, hasNavalYard)
  else if rules_isSelectableCombatant hostile then ((score + 5)%Q, hasNavalYard)
  else ((score + 1)%Q, hasNavalYard).

(** [.filter((unit) => !isOwnedByNeutral(unit))] in [evaluateTarget]:
    unlike the other scans of the file, this filter has no [!!unit], so
    a hit without unit data is kept. *)
Definition keptByFilter (hit : option UnitData) : bool :=
  match hit with
  | Some unit => negb (ownedByNeutral unit)
  | None => true
  end.

(** The hostiles as the loop reads them: reading [hostile.rules] of a
    hit without unit data is a [TypeError] ([None]). *)
Fixpoint resolved (hits : list (option UnitData)) : option (list UnitData) :=
  match hits with
  | [] => Some []
  | Some unit :: rest => option_map (cons unit) (resolved rest)
  | None :: _ => None
  end.

Section WithMath.
Context `{MathOps}.

(** [AttackMission.evaluateTarget]; [None] when it throws. *)
Definition evaluateTarget (m : t) (target : Vector2) (aw : Awareness) : option Q :=
  match resolved (List.filter keptByFilter (aw target (radius m))) with
  | None => None
  | Some hostiles =>
      let '(score, hasNavalYard) := fold_left scoreHostile hostiles (0%Q, false) in
      match getCenterOfMass m with
      | Some centerOfMass =>
          let distance :=
            euclid (vx centerOfMass) (vy centerOfMass) (vx target) (vy target) in
          if hasNavalYard
          then Some (score / (1 + distance * (5 # 1000)))%Q
          else Some (score / (1 + distance * (1 # 100)))%Q
      | None => Some score
      end
  end.

(** The test of the anti-oscillation memory: the new target lies within
    the exclusion box of a remembered target. *)
Definition nearRecent (newTarget target : Vector2) : bool :=
  Qltb (Qabs (vx target - vx newTarget)) 5 &&
  Qltb (Qabs (vy target - vy newTarget)) 5.

(** [AttackMission.shouldSwitchTarget]; [None] when [evaluateTarget]
    throws.  The method is private and no method of the class calls
    it. *)
Definition shouldSwitchTarget (m : t) (newTarget : Vector2) (aw : Awareness)
    (currentTick : Z) : option bool :=
  if (currentTick - currentTargetLockTime m <? TARGET_LOCK_DURATION)
     && (0 <? Z.of_nat (length (aw (attackArea m) (radius m))))
  then Some false
  else
    match evaluateTarget m newTarget aw with
    | None => None
    | Some newScore =>
        if existsb (nearRecent newTarget) (recentTargets m) then Some false
        else Some (Qltb (currentTargetScore m * (1 + TARGET_SWITCH_MIN_IMPROVEMENT))%Q
                        newScore)
    end.

(** [push] followed by [shift] when the memory is over its size. *)
Definition remember (recent : list Vector2) (newTarget : Vector2) : list Vector2 :=
  let pushed := recent ++ [newTarget] in
  if (TARGET_MEMORY_SIZE <? length pushed)%nat then tl pushed else pushed.

(** How a method that may throw leaves the mission. *)
Inductive Outcome := Done (m : t) | Threw (m : t).

(** [AttackMission.updateTarget]: the only writer of the lock time, of
    the score and of the memory.  The method is private and no method
    of the class calls it. *)
Definition updateTarget (m : t) (newTarget : Vector2) (aw : Awareness)
    (currentTick : Z) : Outcome :=
  let m1 := set_lock currentTick (set_attackArea newTarget m) in
  match evaluateTarget m1 newTarget aw with
  | None => Threw m1
  | Some score =>
      let m2 := set_currentTargetScore score m1 in
      Done (set_recentTargets (remember (recentTargets m2) newTarget) m2)
  end.

End WithMath.

(** The method [AttackMission.searchEnemyBuildings]. *)
Definition searchEnemyBuildings (m : t) (env : Env) : MissionAction.t * t :=
  let m1 :=
    if SEARCH_EXPAND_INTERVAL <=? currentTick env - lastBuildingSearchTime m
    then set_search (Math_min (currentSearchRadius m + SEARCH_RADIUS_INCREMENT)%Q
                              MAX_SEARCH_RADIUS)
                    (currentTick env) m
    else m in
  match getCenterOfMass m1 with
  | None => (MissionAction.noop, m1)
  | Some centerOfMass =>
      (MissionAction.SearchBuildings centerOfMass (currentSearchRadius m1), m1)
  end.

(** [AttackMission.handleAttackingState], the handler that
    [_onAiUpdate] runs in the Attacking state.  The orders that the
    squad pushes to the batcher are left out. *)
Definition handleAttackingState (m : t) (env : Env) : MissionAction.t * t :=
  let '(update, area) := squad_onAiUpdate env (attackArea m) in
  let m1 := set_attackArea area m in
  if negb (isNoop update) then (update, m1)
  else
    let currentTargetStillValid :=
      0 <? Z.of_nat (length (hostilesNearPoint2d env (attackArea m1) (radius m1))) in
    if negb currentTargetStillValid
       && (BUILDING_SEARCH_COOLDOWN <=? currentTick env - lastBuildingSearchTime m1)
    then searchEnemyBuildings m1 env
    else (MissionAction.noop, m1).

(** The switching rule in the words of the specification: the lock
    duration has elapsed, the candidate's score exceeds the current
    score times [1 + 0.3], and the candidate lies outside the exclusion
    box of every remembered target. *)
Definition specSwitchRule `{MathOps} (m : t) (newTarget : Vector2) (aw : Awareness)
    (currentTick : Z) : Prop :=
  TARGET_LOCK_DURATION <= currentTick - currentTargetLockTime m
  /\ (exists newScore,
        evaluateTarget m newTarget aw = Some newScore
        /\ (currentTargetScore m * (13 # 10) < newScore)%Q)
  /\ Forall (fun target => nearRecent newTarget target = false) (recentTargets m).

(** The claim about the Attacking state in the words of the
    specification: after an update, the candidate is the locked target
    exactly when the switching rule holds for it. *)
Definition specTargetSwitch `{MathOps} (m : t) (env : Env) (candidate : Vector2) : Prop :=
  attackArea (snd (handleAttackingState m env)) = candidate
  <-> specSwitchRule m candidate (hostilesNearPoint2d env) (currentTick env).

End AttackMission.

(** ** Batchable actions and unit micro (common.ts) *)

Module Batcher.

Inductive OrderType := Move | Attack | DeploySelected.

(** [BatchableAction]: [{ unitId, orderType, point?, targetId? }]. *)
Record BatchableAction := mkAction {
  unitId : Z;
  orderType : OrderType;
  point : option Vector2;
  targetId : option Z
}.

Definition eqOrderType (a b : OrderType) : bool :=
  match a, b with
  | Move, Move | Attack, Attack | DeploySelected, DeploySelected => true
  | _, _ => false
  end.

Definition eqPoint (a b : option Vector2) : bool :=
  match a, b with
  | None, None => true
  | Some p, Some q => Qeq_bool (vx p) (vx q) && Qeq_bool (vy p) (vy q)
  | _, _ => false
  end.

Definition eqTargetId (a b : option Z) : bool :=
  match a, b with
  | None, None => true
  | Some i, Some j => i =? j
  | _, _ => false
  end.

(** Modelled from the spec: [BatchableAction.isSameAs] (actionBatcher.ts
    is not among the sources).  Two orders are the same when they agree
    on the unit, the order kind, the target point and the target unit. *)
Definition isSameAs (a b : BatchableAction) : bool :=
  (unitId a =? unitId b) && eqOrderType (orderType a) (orderType b)
  && eqPoint (point a) (point b) && eqTargetId (targetId a) (targetId b).

(** The action batcher, seen as the list of orders pushed to it. *)
Definition ActionBatcher := list BatchableAction.

Definition push (batcher : ActionBatcher) (action : BatchableAction) : ActionBatcher :=
  batcher ++ [action].

(** [manageMoveMicro]. *)
Definition manageMoveMicro (attacker : UnitData) (attackPoint : Vector2) : BatchableAction :=
  if String.eqb (name attacker) "E1" && stance_deployed attacker
  then {| unitId := id attacker; orderType := DeploySelected;
          point := None; targetId := None |}
  else {| unitId := id attacker; orderType := Move;
          point := Some attackPoint; targetId := None |}.

(** [x || 5] on an optional number: a missing or zero value gives 5. *)
Definition orFive (r : option Q) : Q :=
  match r with
  | Some v => if truthyQ v then v else 5%Q
  | None => 5%Q
  end.

(** [manageAttackMicro]: both branches of the final test leave
    [OrderType.Attack]. *)
Definition manageAttackMicro `{MapOps} (attacker target : UnitData) : BatchableAction :=
  let distance := getDistanceBetweenUnits attacker target in
  let deployedWeaponRange := orFive (secondaryWeapon_maxRange attacker) in
  let isDeployed := stance_deployed attacker in
  if String.eqb (name attacker) "E1"
     && ((negb isDeployed
          && (Qleb distance deployedWeaponRange || attackState_justFired attacker))
         || (isDeployed && Qltb deployedWeaponRange distance))
  then {| unitId := id attacker; orderType := DeploySelected;
          point := None; targetId := None |}
  else {| unitId := id attacker; orderType := Attack;
          point := None; targetId := Some (id target) |}.

(** The orders of a list were each new when pushed: none repeats the
    order last submitted for its unit. *)
Fixpoint eachNew (last : gmap Z BatchableAction) (pushed : list BatchableAction) : Prop :=
  match pushed with
  | [] => True
  | a :: rest =>
      match last !! unitId a with
      | Some prev => isSameAs prev a = false
      | None => True
      end /\ eachNew (<[unitId a := a]> last) rest
  end.

(** [lastOrderGiven] after the orders of a list were submitted. *)
Definition record (last : gmap Z BatchableAction) (pushed : list BatchableAction)
    : gmap Z BatchableAction :=
  fold_left (fun m a => <[unitId a := a]> m) pushed last.

(** *** The order channel of a squad

    A squad keeps [lastOrderGiven], the last order it submitted for each
    unit, and pushes to the batcher through [submitActionIfNew] only.
    The squad code is written in a state monad over the squad object and
    the batcher. *)

Section Channel.
Context {S : Type}.
Variable getLast : S -> gmap Z BatchableAction.
Variable setLast : gmap Z BatchableAction -> S -> S.

Definition M (A : Type) : Type := S -> ActionBatcher -> A * S * ActionBatcher.

Definition ret {A} (a : A) : M A := fun s b => (a, s, b).

Definition bind {A B} (c : M A) (k : A -> M B) : M B :=
  fun s b => let '(a, s1, b1) := c s b in k a s1 b1.

Definition gets {A} (f : S -> A) : M A := fun s b => (f s, s, b).

Definition modify (f : S -> S) : M unit := fun s b => (tt, f s, b).

(** [for (const x of xs) body(x)] / [xs.forEach(body)]. *)
Fixpoint forEach {A} (xs : list A) (body : A -> M unit) : M unit :=
  match xs with
  | [] => ret tt
  | x :: rest => bind (body x) (fun _ => forEach rest body)
  end.

(** [submitActionIfNew]. *)
Definition submitIfNew (action : BatchableAction) : M unit :=
  fun s b =>
    match getLast s !! unitId action with
    | Some lastAction =>
        if isSameAs lastAction action then (tt, s, b)
        else (tt, setLast (<[unitId action := action]> (getLast s)) s, push b action)
    | None => (tt, setLast (<[unitId action := action]> (getLast s)) s, push b action)
    end.

(** The squad and the batcher after a command. *)
Definition after {A} (c : M A) (s : S) (b : ActionBatcher) : S * ActionBatcher :=
  (snd (fst (c s b)), snd (c s b)).

(** A command respects a relation when the relation holds between what
    it starts from and what it leaves. *)
Definition respects (R : S * ActionBatcher -> S * ActionBatcher -> Prop) {A} (c : M A)
    : Prop :=
  forall s b, R (s, b) (after c s b).

(** Everything pushed in between went through the order channel: the
    batcher grew by orders that were each new for their unit, and
    [lastOrderGiven] recorded exactly them. *)
Definition pushesNew (x y : S * ActionBatcher) : Prop :=
  exists pushed,
    snd y = snd x ++ pushed
    /\ eachNew (getLast (fst x)) pushed
    /\ getLast (fst y) = record (getLast (fst x)) pushed.

End Channel.

End Batcher.

(** ** What a squad update reads from the engine, the mission and the
       awareness collaborator *)

Module SquadEnv.

Record t := mkEnv {
  (** [gameApi.getCurrentTick()] *)
  currentTick : Z;
  (** [gameApi.mapApi.getRealMapSize()] *)
  mapSize : MapSize;
  (** [gameApi.mapApi.getTile(x, y)]: the terrain of the tile, or
      [undefined] *)
  getTile : Q -> Q -> option TerrainType;
  (** [mission.getUnitIds()] *)
  missionUnitIds : list Z;
  (** [mission.getUnitsMatchingByRule(...)]: the selectable combatants
      of the mission that move on water *)
  navalUnitIds : list Z;
  (** [gameApi.getUnitData(unitId)] *)
  getUnitData : Z -> option UnitData;
  (** [mission.getCenterOfMass()] *)
  centerOfMass : option Vector2;
  (** [mission.getMaxDistanceToCenterOfMass()] *)
  maxDistance : option Q;
  (** [matchAwareness.getHostilesNearPoint(x, y, radius)], each hit
      resolved with [getUnitData] and the missing ones dropped *)
  hostilesNearPoint : Q -> Q -> Q -> list UnitData;
  (** [playerData.startLocation] *)
  startLocation : Vector2;
  (** the draws of [Math.random()], by unit id and draw number *)
  random : Z -> nat -> Q
}.

(** [units = unitIds.map(getUnitData).filter(unit => !!unit)]. *)
Definition navalUnits (env : t) : list UnitData :=
  omap (getUnitData env) (navalUnitIds env).

(** [centerOfMass && maxDistance &&
     getTile(centerOfMass.x, centerOfMass.y) !== undefined &&
     maxDistance > requiredGatherRadius]: the centre of mass when the
    whole condition holds. *)
Definition spreadBeyond (env : t) (requiredGatherRadius : Q) : option Vector2 :=
  match centerOfMass env, maxDistance env with
  | Some c, Some d =>
      if truthyQ d
         && match getTile env (vx c) (vy c) with Some _ => true | None => false end
         && Qltb requiredGatherRadius d
      then Some c else None
  | _, _ => None
  end.

(** The spread of the squad can be measured: the centre of mass [c] is
    known and lies on a tile of the map, and the greatest distance [d]
    to it is known and not zero. *)
Definition measurable (env : t) (c : Vector2) (d : Q) : Prop :=
  centerOfMass env = Some c /\ maxDistance env = Some d
  /\ ~ (d == 0)%Q /\ getTile env (vx c) (vy c) <> None.

(** [.filter(unit => !!unit && !isOwnedByNeutral(unit))]. *)
Definition hostilesNear (env : t) (x y r : Q) : list UnitData :=
  List.filter (fun u => negb (ownedByNeutral u)) (hostilesNearPoint env x y r).

End SquadEnv.

(** ** The basic naval squad (second document of navalSquad.ts) *)

Module NavalSquadBasic.
Import Batcher SquadEnv.

Definition TARGET_UPDATE_INTERVAL_TICKS : Z := 15.
Definition GATHER_RATIO : Q := 2.
Definition MIN_GATHER_RADIUS : Q := 3.
Definition MAX_GATHER_RADIUS : Q := 6.
Definition ATTACK_SCAN_AREA : Q := 15.

Inductive SquadState := Gathering | Attacking.

(** The squad object ([debugLastTarget], a debug text, is left out). *)
Record t := mkSquad {
  lastCommand : Z;
  state : SquadState;
  targetArea : option Vector2;
  lastOrderGiven : gmap Z BatchableAction
}.

(** [new NavalSquad(targetArea)]. *)
Definition new (target : option Vector2) : t :=
  {| lastCommand := 0; state := Gathering; targetArea := target;
     lastOrderGiven := ∅ |}.

Definition set_lastCommand (v : Z) (s : t) : t :=
  {| lastCommand := v; state := state s; targetArea := targetArea s;
     lastOrderGiven := lastOrderGiven s |}.

Definition set_state (v : SquadState) (s : t) : t :=
  {| lastCommand := lastCommand s; state := v; targetArea := targetArea s;
     lastOrderGiven := lastOrderGiven s |}.

Definition set_lastOrderGiven (v : gmap Z BatchableAction) (s : t) : t :=
  {| lastCommand := lastCommand s; state := state s; targetArea := targetArea s;
     lastOrderGiven := v |}.

(** [setTargetArea]. *)
Definition setTargetArea (target : Vector2) (s : t) : t :=
  {| lastCommand := lastCommand s; state := state s; targetArea := Some target;
     lastOrderGiven := lastOrderGiven s |}.

Definition submitActionIfNew (action : BatchableAction) : M (S:=t) unit :=
  submitIfNew lastOrderGiven set_lastOrderGiven action.

(** The phase, the command stamp and the target area are the same on
    both sides. *)
Definition sameControl (x y : t * ActionBatcher) : Prop :=
  state (fst y) = state (fst x)
  /\ lastCommand (fst y) = lastCommand (fst x)
  /\ targetArea (fst y) = targetArea (fst x).

(** Everything pushed in between went through [submitActionIfNew], and
    the command stamp is the same on both sides. *)
Definition throttled (x y : t * ActionBatcher) : Prop :=
  pushesNew lastOrderGiven x y /\ lastCommand (fst y) = lastCommand (fst x).

(** The guard of the command block of [onAiUpdate]. *)
Definition isCommandTick (s : t) (env : SquadEnv.t) : bool :=
  (0 <? Z.of_nat (length (missionUnitIds env)))
  && (negb (truthyZ (lastCommand s))
      || (lastCommand s + TARGET_UPDATE_INTERVAL_TICKS <? currentTick env)).

Section WithOps.
Context `{MathOps} `{MapOps}.

(** [primaryWeapon?.maxRange ?? secondaryWeapon?.maxRange ?? 5]. *)
Definition getRangeForUnit (unit : UnitData) : Q :=
  match primaryWeapon_maxRange unit with
  | Some r => r
  | None => default 5%Q (secondaryWeapon_maxRange unit)
  end.

(** [getNavalAttackWeight]. *)
Definition getNavalAttackWeight (attacker target : UnitData) : Number.t :=
  let distance := getDistanceBetweenUnits attacker target in
  let maxRange := getRangeForUnit attacker in
  let w0 := 1%Q in
  let w1 := if eqMovementZone (rules_movementZone target) Water
            then (w0 * (15 # 10))%Q else w0 in
  let w2 := if eqMovementZone (rules_movementZone target) AmphibiousDestroyer
            then (w1 * (13 # 10))%Q else w1 in
  let w3 := if Qleb distance maxRange then (w2 * (12 # 10))%Q else w2 in
  let healthPercentage :=
    if Qltb 0 (rules_strength target)
    then (rules_points target / rules_strength target)%Q else 1%Q in
  let w4 := (w3 * (2 - healthPercentage))%Q in
  Number.mul (Number.Finite w4)
    (Number.sub (Number.Finite 1)
       (Number.div (Number.Finite distance) (Number.Finite (maxRange * 2)))).

(** [hostiles.reduce((best, current) => weight(current) >
     (best ? weight(best) : -1) ? current : best, null)]. *)
Definition pickBest (weight : UnitData -> Number.t) (hostiles : list UnitData)
    : option UnitData :=
  fold_left
    (fun best current =>
       let currentWeight := weight current in
       let bestWeight :=
         match best with Some b => weight b | None => Number.Finite (-1) end in
       if Number.ltb bestWeight currentWeight then Some current else best)
    hostiles None.

(** [units.reduce((a, b) => range(a) < range(b) ? a : b)]; [None] when
    the array is empty, where [reduce] throws a [TypeError]. *)
Definition reduceLeader (range : UnitData -> Q) (units : list UnitData)
    : option UnitData :=
  match units with
  | [] => None
  | first :: rest =>
      Some (fold_left (fun a b => if Qltb (range a) (range b) then a else b) rest first)
  end.

(** [Math.sqrt(n) * GATHER_RATIO + radius]. *)
Definition requiredGatherRadius (n : nat) (radius : Q) : Q :=
  (Math_sqrt (inject_Z (Z.of_nat n)) * GATHER_RATIO + radius)%Q.

(** The phases of the command block of [onAiUpdate]; [s] is the squad
    as the block found it. *)
Definition commandPhases (env : SquadEnv.t) (s : t) : M (S:=t) (option MissionAction.t) :=
  let unitIds := navalUnitIds env in
  let units := navalUnits env in
  match state s with
  | Gathering =>
      match spreadBeyond env (requiredGatherRadius (length unitIds) MIN_GATHER_RADIUS) with
      | Some centerOfMass =>
          bind (forEach units (fun unit =>
                  submitActionIfNew (manageMoveMicro unit centerOfMass)))
               (fun _ => ret (Some MissionAction.noop))
      | None =>
          bind (modify (set_state Attacking)) (fun _ => ret (Some MissionAction.noop))
      end
  | Attacking =>
      let targetPoint := default (startLocation env) (targetArea s) in
      match spreadBeyond env (requiredGatherRadius (length unitIds) MAX_GATHER_RADIUS) with
      | Some _ =>
          bind (modify (set_state Gathering)) (fun _ => ret (Some MissionAction.noop))
      | None =>
          match reduceLeader getRangeForUnit units with
          | None => ret None
          | Some attackLeader =>
              let nearbyHostiles :=
                hostilesNear env (inject_Z (tile_rx attackLeader))
                  (inject_Z (tile_ry attackLeader)) ATTACK_SCAN_AREA in
              bind (forEach units (fun unit =>
                      match pickBest (getNavalAttackWeight unit) nearbyHostiles with
                      | Some bestTarget =>
                          submitActionIfNew (manageAttackMicro unit bestTarget)
                      | None =>
                          submitActionIfNew (manageMoveMicro unit targetPoint)
                      end))
                   (fun _ => ret (Some MissionAction.noop))
          end
      end
  end.

(** [NavalSquad.onAiUpdate]; the result is [None] when the update
    throws. *)
Definition onAiUpdate (env : SquadEnv.t) : M (S:=t) (option MissionAction.t) :=
  bind (gets (fun s => s)) (fun s =>
  if isCommandTick s env then
    bind (modify (set_lastCommand (currentTick env))) (fun _ => commandPhases env s)
  else ret (Some MissionAction.noop)).

(** The phase rule in the words of the specification: with [d] the
    greatest distance from the centre of mass to a unit and [n] the
    number of units, a gathering squad turns to attacking exactly when
    [d <= sqrt n * 2 + 3], an attacking squad back to gathering exactly
    when [d > sqrt n * 2 + 6]. *)
Definition specPhaseRule (env : SquadEnv.t) (s s' : t) : Prop :=
  forall d, maxDistance env = Some d ->
    (state s = Gathering ->
     (state s' = Attacking
      <-> (d <= requiredGatherRadius (length (navalUnitIds env)) MIN_GATHER_RADIUS)%Q))
    /\ (state s = Attacking ->
        (state s' = Gathering
         <-> (requiredGatherRadius (length (navalUnitIds env)) MAX_GATHER_RADIUS < d)%Q)).

End WithOps.

End NavalSquadBasic.

(** ** The naval squad (first document of navalSquad.ts) *)

Module NavalSquad.
Import Batcher SquadEnv.

Definition TARGET_UPDATE_INTERVAL_TICKS : Z := 15.
Definition GATHER_RATIO : Q := 2.
Definition MIN_GATHER_RADIUS : Q := 3.
Definition MAX_GATHER_RADIUS : Q := 6.
Definition ATTACK_SCAN_AREA : Q := 25.
Definition STUCK_CHECK_INTERVAL : Z := 60.
Definition STUCK_THRESHOLD : nat := 3.
Definition STUCK_DISTANCE_THRESHOLD : Q := 1 # 2.
Definition RETREAT_DISTANCE : Q := 8.
Definition EXPLORATION_RANGE : Q := 30.
Definition EXPLORATION_ANGLE_CHANGE : Q := 45.
Definition EXPLORATION_INTERVAL_TICKS : Z := 150.
Definition MAX_IDLE_COMBAT_TICKS : Z := 150.
Definition PATHFINDING_WAIT_TICKS : Z := 45.
Definition MAX_STUCK_ATTEMPTS : Z := 3.
Definition WATER_SEARCH_RADIUS : Z := 15.
Definition MIN_WATER_OPENNESS : Q := 5.
Definition PREFER_OPEN_WATER_WEIGHT : Q := 2.
Definition MAJOR_BATTLE_SUPPORT_RANGE : Q := 40.
Definition MIN_UNITS_FOR_MAJOR_BATTLE : Z := 3.
Definition BUILDING_ATTACK_PRIORITY : Q := 8 # 10.
Definition SUPPORT_ATTACK_RANGE : Q := 25.
Definition COMBAT_UNIT_PRIORITY : Q := 2.
Definition LOW_HEALTH_PRIORITY : Q := 15 # 10.
Definition NAVAL_UNIT_PRIORITY : Q := 18 # 10.
Definition NEARBY_TARGET_BONUS : Q := 13 # 10.
Definition NAVAL_YARD_PRIORITY : Q := 2.
Definition NAVAL_YARD_SCAN_RANGE : Q := 40.

Inductive SquadState := Gathering | Attacking | Retreating | Exploring.

Record UnitPosition := mkUnitPosition { pos_x : Q; pos_y : Q; timestamp : Z }.

Record CombatState := mkCombatState {
  lastEngageTime : Z;
  combatLastPosition : option Vector2
}.

Record StuckState := mkStuckState {
  attempts : Z;
  lastAttemptTime : Z;
  stuckLastPosition : Vector2
}.

Record WaterAreaScore := mkWaterAreaScore {
  position : Vector2;
  openness : Q;
  distanceScore : Q;
  totalScore : Q
}.

Record BattleInfo := mkBattleInfo {
  battlePosition : Vector2;
  unitCount : Z;
  hasBuildings : bool;
  targets : list UnitData
}.

(** The squad object ([debugLastTarget], a debug text, and
    [retreatStartTime], never read, are left out). *)
Record t := mkSquad {
  lastCommand : Z;
  state : SquadState;
  targetArea : option Vector2;
  lastOrderGiven : gmap Z BatchableAction;
  unitPositionHistory : gmap Z (list UnitPosition);
  lastStuckCheck : Z;
  lastExplorationChange : Z;
  currentExplorationAngle : Q;
  unitCombatStates : gmap Z CombatState;
  stuckStates : gmap Z StuckState;
  lastPathfindingTime : gmap Z Z
}.

(** [new NavalSquad(targetArea)]. *)
Definition new (target : option Vector2) : t :=
  mkSquad 0 Gathering target ∅ ∅ 0 0 0%Q ∅ ∅ ∅.

Definition set_lastCommand (v : Z) (s : t) : t :=
  mkSquad v (state s) (targetArea s) (lastOrderGiven s) (unitPositionHistory s)
    (lastStuckCheck s) (lastExplorationChange s) (currentExplorationAngle s)
    (unitCombatStates s) (stuckStates s) (lastPathfindingTime s).

Definition set_state (v : SquadState) (s : t) : t :=
  mkSquad (lastCommand s) v (targetArea s) (lastOrderGiven s) (unitPositionHistory s)
    (lastStuckCheck s) (lastExplorationChange s) (currentExplorationAngle s)
    (unitCombatStates s) (stuckStates s) (lastPathfindingTime s).

(** [setTargetArea]. *)
Definition setTargetArea (target : Vector2) (s : t) : t :=
  mkSquad (lastCommand s) (state s) (Some target) (lastOrderGiven s)
    (unitPositionHistory s) (lastStuckCheck s) (lastExplorationChange s)
    (currentExplorationAngle s) (unitCombatStates s) (stuckStates s)
    (lastPathfindingTime s).

Definition set_lastOrderGiven (v : gmap Z BatchableAction) (s : t) : t :=
  mkSquad (lastCommand s) (state s) (targetArea s) v (unitPositionHistory s)
    (lastStuckCheck s) (lastExplorationChange s) (currentExplorationAngle s)
    (unitCombatStates s) (stuckStates s) (lastPathfindingTime s).

Definition set_unitPositionHistory (v : gmap Z (list UnitPosition)) (s : t) : t :=
  mkSquad (lastCommand s) (state s) (targetArea s) (lastOrderGiven s) v
    (lastStuckCheck s) (lastExplorationChange s) (currentExplorationAngle s)
    (unitCombatStates s) (stuckStates s) (lastPathfindingTime s).

Definition set_lastStuckCheck (v : Z) (s : t) : t :=
  mkSquad (lastCommand s) (state s) (targetArea s) (lastOrderGiven s)
    (unitPositionHistory s) v (lastExplorationChange s) (currentExplorationAngle s)
    (unitCombatStates s) (stuckStates s) (lastPathfindingTime s).

Definition set_exploration (changedAt : Z) (angle : Q) (s : t) : t :=
  mkSquad (lastCommand s) (state s) (targetArea s) (lastOrderGiven s)
    (unitPositionHistory s) (lastStuckCheck s) changedAt angle
    (unitCombatStates s) (stuckStates s) (lastPathfindingTime s).

Definition set_unitCombatStates (v : gmap Z CombatState) (s : t) : t :=
  mkSquad (lastCommand s) (state s) (targetArea s) (lastOrderGiven s)
    (unitPositionHistory s) (lastStuckCheck s) (lastExplorationChange s)
    (currentExplorationAngle s) v (stuckStates s) (lastPathfindingTime s).

Definition set_stuckStates (v : gmap Z StuckState) (s : t) : t :=
  mkSquad (lastCommand s) (state s) (targetArea s) (lastOrderGiven s)
    (unitPositionHistory s) (lastStuckCheck s) (lastExplorationChange s)
    (currentExplorationAngle s) (unitCombatStates s) v (lastPathfindingTime s).

Definition set_lastPathfindingTime (v : gmap Z Z) (s : t) : t :=
  mkSquad (lastCommand s) (state s) (targetArea s) (lastOrderGiven s)
    (unitPositionHistory s) (lastStuckCheck s) (lastExplorationChange s)
    (currentExplorationAngle s) (unitCombatStates s) (stuckStates s) v.

Notation "'let!' x ':=' c 'in' k" := (bind c (fun x => k))
  (at level 10, x name, c at level 100, k at level 200, only parsing).

(** A statement of the squad code: it may change the squad and push
    orders. *)
Definition Cmd : Type := M (S:=t) Datatypes.unit.

Definition submitActionIfNew (action : BatchableAction) : Cmd :=
  submitIfNew lastOrderGiven set_lastOrderGiven action.

(** The phase, the command stamp and the target area are the same on
    both sides. *)
Definition sameControl (x y : t * ActionBatcher) : Prop :=
  state (fst y) = state (fst x)
  /\ lastCommand (fst y) = lastCommand (fst x)
  /\ targetArea (fst y) = targetArea (fst x).

(** Everything pushed in between went through [submitActionIfNew], and
    the command stamp is the same on both sides. *)
Definition throttled (x y : t * ActionBatcher) : Prop :=
  pushesNew lastOrderGiven x y /\ lastCommand (fst y) = lastCommand (fst x).

(** The guard of the stuck-check block of [onAiUpdate]. *)
Definition isStuckCheckTick (s : t) (env : SquadEnv.t) : bool :=
  lastStuckCheck s + STUCK_CHECK_INTERVAL <? currentTick env.

(** The guard of the command block of [onAiUpdate]. *)
Definition isCommandTick (s : t) (env : SquadEnv.t) : bool :=
  (0 <? Z.of_nat (length (missionUnitIds env)))
  && (negb (truthyZ (lastCommand s))
      || (lastCommand s + TARGET_UPDATE_INTERVAL_TICKS <? currentTick env)).

(** [array.slice(-n)]: the last [n] elements. *)
Definition lastN {A} (n : nat) (l : list A) : list A := drop (length l - n)%nat l.

(** [startPathfinding]. *)
Definition startPathfinding (unit : UnitData) (tick : Z) : Cmd :=
  modify (fun s => set_lastPathfindingTime (<[id unit := tick]> (lastPathfindingTime s)) s).

(** [isPathfindingInProgress]. *)
Definition isPathfindingInProgress (s : t) (unit : UnitData) (tick : Z) : bool :=
  match lastPathfindingTime s !! id unit with
  | Some lastTime =>
      if truthyZ lastTime then tick - lastTime <? PATHFINDING_WAIT_TICKS else false
  | None => false
  end.

(** [updateUnitPosition]. *)
Definition updateUnitPosition (unit : UnitData) (tick : Z) : Cmd :=
  modify (fun s =>
    let history := default [] (unitPositionHistory s !! id unit) in
    let pushed := history ++ [ {| pos_x := inject_Z (tile_rx unit);
                                  pos_y := inject_Z (tile_ry unit);
                                  timestamp := tick |} ] in
    set_unitPositionHistory
      (<[id unit := lastN STUCK_THRESHOLD pushed]> (unitPositionHistory s)) s).

(** [updateCombatState]. *)
Definition updateCombatState (unit : UnitData) (tick : Z) (hasTarget : bool)
    : Cmd :=
  modify (fun s =>
    let state0 := default {| lastEngageTime := tick; combatLastPosition := None |}
                          (unitCombatStates s !! id unit) in
    let engaged := if hasTarget then tick else lastEngageTime state0 in
    set_unitCombatStates
      (<[id unit := {| lastEngageTime := engaged;
                       combatLastPosition := Some (tilePoint unit) |}]>
         (unitCombatStates s)) s).

(** [clampToMapBoundaries]. *)
Definition clampToMapBoundaries (env : SquadEnv.t) (p : Vector2) : Vector2 :=
  let x := Z.max 1 (Z.min (Math_round (vx p)) (width (mapSize env) - 2)) in
  let y := Z.max 1 (Z.min (Math_round (vy p)) (height (mapSize env) - 2)) in
  {| vx := inject_Z x; vy := inject_Z y |}.

(** [isValidMapPosition]. *)
Definition isValidMapPosition (env : SquadEnv.t) (p : Vector2) : bool :=
  match getTile env (inject_Z (Math_round (vx p))) (inject_Z (Math_round (vy p))) with
  | Some WaterTerrain => true
  | _ => false
  end.

(** [for (dx = -r; dx <= r; dx++) for (dy = -r; dy <= r; dy++)]. *)
Definition square (r : Z) : list (Z * Z) :=
  flat_map (fun dx => List.map (fun dy => (dx, dy)) (seqZ (- r) (2 * r + 1)))
           (seqZ (- r) (2 * r + 1)).

(** The element of greatest score, the first one among equals: the head
    of the array after the stable descending [sort]. *)
Definition firstMax {A} (score : A -> Q) (l : list A) : option A :=
  fold_left
    (fun best a =>
       match best with
       | Some b => if Qltb (score b) (score a) then Some a else best
       | None => Some a
       end) l None.

Section WithOps.
Context `{MathOps} `{MapOps}.

(** [evaluateWaterArea]. *)
Definition evaluateWaterArea (env : SquadEnv.t) (p : Vector2) : Q :=
  fold_left
    (fun acc d =>
       let '(dx, dy) := d in
       if (dx =? 0) && (dy =? 0) then acc
       else
         let checkPos := clampToMapBoundaries env
                           {| vx := (vx p + inject_Z dx)%Q; vy := (vy p + inject_Z dy)%Q |} in
         match getTile env (vx checkPos) (vy checkPos) with
         | Some WaterTerrain =>
             let distance := Math_sqrt (inject_Z (dx * dx + dy * dy)) in
             (acc + 1 / (distance + (1 # 2)))%Q
         | _ => acc
         end)
    (square 3) 0%Q.

(** The candidates collected by the loops of [findBestWaterPosition]. *)
Definition waterPositions (env : SquadEnv.t) (currentPos targetPos : Vector2)
    (preferOpenWater : bool) : list WaterAreaScore :=
  let searchRadius := WATER_SEARCH_RADIUS in
  omap
    (fun d : Z * Z =>
       let '(dx, dy) := d in
       let checkPos := clampToMapBoundaries env
                         {| vx := (vx currentPos + inject_Z dx)%Q;
                            vy := (vy currentPos + inject_Z dy)%Q |} in
       if negb (isValidMapPosition env checkPos) then None
       else
         let open := evaluateWaterArea env checkPos in
         if Qltb open MIN_WATER_OPENNESS && preferOpenWater then None
         else
           let distanceToTarget := getDistanceBetweenPoints checkPos targetPos in
           let dScore := (1 - distanceToTarget / (inject_Z searchRadius * 2))%Q in
           let total := if preferOpenWater
                        then (open * PREFER_OPEN_WATER_WEIGHT + dScore)%Q
                        else (open + dScore * 2)%Q in
           Some {| position := checkPos; openness := open;
                   distanceScore := dScore; totalScore := total |})
    (flat_map square (seqZ 1 searchRadius)).

(** [findBestWaterPosition]: the search is repeated once, without the
    openness filter, when it finds nothing. *)
Definition findBestWaterPosition (env : SquadEnv.t) (currentPos targetPos : Vector2)
    (preferOpenWater : bool) : Vector2 :=
  let found := waterPositions env currentPos targetPos preferOpenWater in
  let candidates :=
    match found with
    | [] => if preferOpenWater then waterPositions env currentPos targetPos false else []
    | _ => found
    end in
  match firstMax totalScore candidates with
  | Some best => position best
  | None => currentPos
  end.

(** [findValidWaterPosition]. *)
Definition findValidWaterPosition (env : SquadEnv.t) (target currentPos : Vector2)
    (avoidDeadEnds : bool) : Vector2 :=
  let target' := clampToMapBoundaries env target in
  let currentPos' := clampToMapBoundaries env currentPos in
  findBestWaterPosition env currentPos' target' avoidDeadEnds.

(** [getFormationOffset]. *)
Definition getFormationOffset (index : Z) (totalUnits : nat) : Vector2 :=
  let total := inject_Z (Z.of_nat totalUnits) in
  let radius_ := Math_min 3 (Math_max 1 (total / 3)) in
  let angle := (inject_Z index * 2 * Math_PI / total)%Q in
  {| vx := (Math_cos angle * radius_)%Q; vy := (Math_sin angle * radius_)%Q |}.

(** The loop of [isUnitStuck] over the recent positions. *)
Fixpoint allWithinThreshold (recent : list UnitPosition) : bool :=
  match recent with
  | prev :: (cur :: _) as rest =>
      let pos1 := {| vx := pos_x cur; vy := pos_y cur |} in
      let pos2 := {| vx := pos_x prev; vy := pos_y prev |} in
      if Qltb STUCK_DISTANCE_THRESHOLD (getDistanceBetweenPoints pos1 pos2)
      then false else allWithinThreshold rest
  | _ => true
  end.

(** [isUnitStuck]. *)
Definition isUnitStuck (s : t) (unit : UnitData) : bool :=
  match unitPositionHistory s !! id unit with
  | None => false
  | Some history =>
      if (length history <? STUCK_THRESHOLD)%nat then false
      else allWithinThreshold (lastN STUCK_THRESHOLD history)
  end.

(** [handleStuckUnit]. *)
Definition handleStuckUnit (env : SquadEnv.t) (unit : UnitData) : Cmd :=
  let tick := currentTick env in
  let unitPos := tilePoint unit in
  let! s := gets (fun s => s) in
  let stuck0 := default {| attempts := 0; lastAttemptTime := tick;
                           stuckLastPosition := unitPos |}
                        (stuckStates s !! id unit) in
  let stuck1 :=
    if STUCK_CHECK_INTERVAL * 2 <? tick - lastAttemptTime stuck0 then
      {| attempts :=
           if Qltb (getDistanceBetweenPoints unitPos (stuckLastPosition stuck0))
                   STUCK_DISTANCE_THRESHOLD
           then attempts stuck0 + 1 else attempts stuck0;
         lastAttemptTime := tick;
         stuckLastPosition := unitPos |}
    else stuck0 in
  let! _ := modify (fun s => set_stuckStates (<[id unit := stuck1]> (stuckStates s)) s) in
  let shouldFindOpenWater := MAX_STUCK_ATTEMPTS <=? attempts stuck1 in
  let target0 := findValidWaterPosition env unitPos unitPos shouldFindOpenWater in
  let dirX := (vx target0 - vx unitPos)%Q in
  let dirY := (vy target0 - vy unitPos)%Q in
  let len := Math_sqrt (dirX * dirX + dirY * dirY)%Q in
  let target1 :=
    if Qltb 0 len then
      let steps := inject_Z (attempts stuck1 + 1) in
      clampToMapBoundaries env
        {| vx := (vx target0 + dirX / len * RETREAT_DISTANCE * steps)%Q;
           vy := (vy target0 + dirY / len * RETREAT_DISTANCE * steps)%Q |}
    else target0 in
  let target2 :=
    if negb (isValidMapPosition env target1)
    then findValidWaterPosition env target1 unitPos true
    else target1 in
  let! _ := submitActionIfNew (manageMoveMicro unit target2) in
  startPathfinding unit tick.

(** [array.forEach((unit, index) => ...)]: the elements with their
    indices. *)
Definition indexed {A} (l : list A) : list (Z * A) :=
  combine (seqZ 0 (Z.of_nat (length l))) l.

(** [moveUnitsInFormation]. *)
Definition moveUnitsInFormation (env : SquadEnv.t) (units : list UnitData)
    (targetPoint : Vector2) : Cmd :=
  let tick := currentTick env in
  let targetOpenness := evaluateWaterArea env targetPoint in
  let target1 := if Qltb targetOpenness MIN_WATER_OPENNESS
                 then findBestWaterPosition env targetPoint targetPoint true
                 else targetPoint in
  let target2 := clampToMapBoundaries env target1 in
  forEach (indexed units) (fun iu =>
    let index := fst iu in
    let unit := snd iu in
    let! s := gets (fun s => s) in
    if isPathfindingInProgress s unit tick then ret tt
    else
      let offset := getFormationOffset index (length units) in
      let unitTarget0 := clampToMapBoundaries env
                           {| vx := (vx target2 + vx offset)%Q;
                              vy := (vy target2 + vy offset)%Q |} in
      let unitTarget :=
        if negb (isValidMapPosition env unitTarget0)
        then findBestWaterPosition env unitTarget0 target2 true
        else unitTarget0 in
      let! _ := submitActionIfNew (manageMoveMicro unit unitTarget) in
      startPathfinding unit tick).

(** [primaryWeapon?.maxRange ?? secondaryWeapon?.maxRange ?? 5]. *)
Definition weaponRange (unit : UnitData) : Q :=
  match primaryWeapon_maxRange unit with
  | Some r => r
  | None => default 5%Q (secondaryWeapon_maxRange unit)
  end.

(** [calculateTargetWeight] ([inMajorBattle] is not read by the body). *)
Definition calculateTargetWeight (attacker target : UnitData) (inMajorBattle : bool)
    : Number.t :=
  let distance := getDistanceBetweenUnits attacker target in
  let maxRange := weaponRange attacker in
  let w0 := 1%Q in
  let w1 :=
    if rules_isSelectableCombatant target then
      let a := (w0 * COMBAT_UNIT_PRIORITY)%Q in
      let b := if eqMovementZone (rules_movementZone target) Water
               then (a * NAVAL_UNIT_PRIORITY)%Q else a in
      let c := if eqMovementZone (rules_movementZone target) AmphibiousDestroyer
               then (b * (NAVAL_UNIT_PRIORITY * (8 # 10)))%Q else b in
      let healthPercentage :=
        if Qltb 0 (rules_strength target)
        then (rules_points target / rules_strength target)%Q else 1%Q in
      (c * (1 + (1 - healthPercentage) * LOW_HEALTH_PRIORITY))%Q
    else
      let a := (w0 * BUILDING_ATTACK_PRIORITY)%Q in
      if String.eqb (rules_name target) "NAYARD"
      then (a * NAVAL_YARD_PRIORITY)%Q else a in
  let w2 := if Qleb distance maxRange then (w1 * NEARBY_TARGET_BONUS)%Q else w1 in
  Number.mul (Number.Finite w2)
    (Number.sub (Number.Finite 1)
       (Number.div (Number.Finite distance) (Number.Finite (maxRange * (25 # 10))))).

(** [targets.reduce((best, current) => weight(current) >
     (best ? weight(best) : -1) ? current : best, null)]. *)
Definition reduceBest (weight : UnitData -> Number.t) (candidates : list UnitData)
    : option UnitData :=
  fold_left
    (fun best current =>
       let currentWeight := weight current in
       let bestWeight :=
         match best with Some b => weight b | None => Number.Finite (-1) end in
       if Number.ltb bestWeight currentWeight then Some current else best)
    candidates None.

(** [findBestTarget]. *)
Definition findBestTarget (unit : UnitData) (targets : list UnitData)
    (inMajorBattle : bool) : option UnitData :=
  let combatTargets := List.filter rules_isSelectableCombatant targets in
  let buildingTargets :=
    List.filter (fun t => negb (rules_isSelectableCombatant t)) targets in
  let weight := fun target => calculateTargetWeight unit target inMajorBattle in
  let maxRange := weaponRange unit in
  match combatTargets with
  | _ :: _ =>
      let bestCombatTarget := reduceBest weight combatTargets in
      let nearbyBuilding :=
        List.find (fun building =>
                     Qleb (getDistanceBetweenUnits unit building) maxRange
                     && String.eqb (rules_name building) "NAYARD")
                  buildingTargets in
      match nearbyBuilding, bestCombatTarget with
      | Some building, Some combat =>
          let combatDistance := getDistanceBetweenUnits unit combat in
          let buildingDistance := getDistanceBetweenUnits unit building in
          if Qleb buildingDistance maxRange && Qltb (maxRange * (15 # 10))%Q combatDistance
          then Some building else bestCombatTarget
      | _, _ => bestCombatTarget
      end
  | [] => reduceBest weight buildingTargets
  end.

(** [findNearbyNavalYard]. *)
Definition findNearbyNavalYard (env : SquadEnv.t) (p : Vector2) : option UnitData :=
  let nearbyBuildings :=
    List.filter (fun unit => String.eqb (rules_name unit) "NAYARD")
                (hostilesNear env (vx p) (vy p) NAVAL_YARD_SCAN_RANGE) in
  match nearbyBuildings with
  | [] => None
  | first :: rest =>
      Some (fold_left
              (fun nearest current =>
                 if Qltb (getDistanceBetweenPoints p (tilePoint current))
                         (getDistanceBetweenPoints p (tilePoint nearest))
                 then current else nearest)
              rest first)
  end.

(** [findNearestEngagedAlly]; the running minimum starts at
    [Number.MAX_VALUE], written [None]. *)
Definition findNearestEngagedAlly (s : t) (unit : UnitData) (units : list UnitData)
    (tick : Z) : option UnitData :=
  fst (fold_left
         (fun (acc : option UnitData * option Q) ally =>
            if id ally =? id unit then acc
            else match unitCombatStates s !! id ally with
                 | None => acc
                 | Some allyState =>
                     if negb (tick - lastEngageTime allyState <? MAX_IDLE_COMBAT_TICKS)
                     then acc
                     else
                       let distance := getDistanceBetweenUnits unit ally in
                       match snd acc with
                       | Some minDistance =>
                           if Qltb distance minDistance
                           then (Some ally, Some distance) else acc
                       | None => (Some ally, Some distance)
                       end
                 end)
         units (None, None)).

(** The mean of a coordinate over a non-empty list of units. *)
Definition meanOf (coord : UnitData -> Z) (us : list UnitData) : Q :=
  (fold_left (fun sum target => (sum + inject_Z (coord target))%Q) us 0%Q
   / inject_Z (Z.of_nat (length us)))%Q.

(** One round of the loop of [findMajorBattles]: the battles are kept
    in insertion order, keyed by their rounded centre. *)
Definition recordBattle (env : SquadEnv.t) (battles : list (Z * Z * BattleInfo))
    (unit : UnitData) : list (Z * Z * BattleInfo) :=
  let nearbyHostiles :=
    hostilesNear env (inject_Z (tile_rx unit)) (inject_Z (tile_ry unit)) ATTACK_SCAN_AREA in
  match nearbyHostiles with
  | [] => battles
  | _ =>
      let centerX := meanOf tile_rx nearbyHostiles in
      let centerY := meanOf tile_ry nearbyHostiles in
      let battleKey := (Math_round centerX, Math_round centerY) in
      let sameKey := fun k : Z * Z => (fst k =? fst battleKey) && (snd k =? snd battleKey) in
      let hasB := existsb (fun target => negb (rules_isSelectableCombatant target))
                          nearbyHostiles in
      if existsb (fun kb => sameKey (fst kb)) battles then
        List.map
          (fun kb =>
             if sameKey (fst kb) then
               let battle := snd kb in
               let existingIds := List.map id (targets battle) in
               (fst kb,
                {| battlePosition := battlePosition battle;
                   unitCount := unitCount battle + 1;
                   hasBuildings := hasBuildings battle || hasB;
                   targets :=
                     targets battle
                     ++ List.filter
                          (fun target => negb (existsb (Z.eqb (id target)) existingIds))
                          nearbyHostiles |})
             else kb)
          battles
      else
        battles ++ [ (battleKey,
                      {| battlePosition := {| vx := centerX; vy := centerY |};
                         unitCount := 1; hasBuildings := hasB;
                         targets := nearbyHostiles |}) ]
  end.

(** [findMajorBattles]. *)
Definition findMajorBattles (env : SquadEnv.t) (units : list UnitData) : list BattleInfo :=
  List.filter
    (fun battle => (MIN_UNITS_FOR_MAJOR_BATTLE <=? unitCount battle) || hasBuildings battle)
    (List.map snd (fold_left (recordBattle env) units [])).

(** [units.indexOf(unit)]. *)
Fixpoint indexOf (unit : UnitData) (units : list UnitData) (from : Z) : Z :=
  match units with
  | [] => -1
  | u :: rest => if id u =? id unit then from else indexOf unit rest (from + 1)
  end.

(** The battle a unit without hostiles in sight joins, in [handleCombat]:
    the target picked in the nearest major battle within support range. *)
Definition joinedBattleTarget (env : SquadEnv.t) (unit : UnitData)
    (nearbyHostiles units : list UnitData) : option UnitData :=
  let majorBattles := findMajorBattles env units in
  match majorBattles, nearbyHostiles with
  | _ :: _, [] =>
      let nearestBattle :=
        fold_left
          (fun (nearest : option (BattleInfo * Q)) battle =>
             let distance := getDistanceBetweenPoints (tilePoint unit) (battlePosition battle) in
             match nearest with
             | None => Some (battle, distance)
             | Some (_, nearestDistance) =>
                 if Qltb distance nearestDistance then Some (battle, distance) else nearest
             end)
          majorBattles None in
      match nearestBattle with
      | Some (battle, distance) =>
          if Qleb distance MAJOR_BATTLE_SUPPORT_RANGE
          then findBestTarget unit (targets battle) true else None
      | None => None
      end
  | _, _ => None
  end.

(** The autonomous search move of [handleCombat]. *)
Definition searchTarget (unit : UnitData) : Vector2 :=
  let searchAngle := (inject_Z (Z.rem (id unit) 360) * (Math_PI / 180))%Q in
  {| vx := (inject_Z (tile_rx unit) + Math_cos searchAngle * SUPPORT_ATTACK_RANGE)%Q;
     vy := (inject_Z (tile_ry unit) + Math_sin searchAngle * SUPPORT_ATTACK_RANGE)%Q |}.

(** [handleCombat]. *)
Definition handleCombat (env : SquadEnv.t) (unit : UnitData)
    (nearbyHostiles units : list UnitData) (targetPoint : Vector2) : Cmd :=
  let tick := currentTick env in
  let attack := fun target =>
    let! _ := submitActionIfNew (manageAttackMicro unit target) in
    updateCombatState unit tick true in
  match findNearbyNavalYard env (tilePoint unit),
        List.filter rules_isSelectableCombatant nearbyHostiles with
  | Some nearbyNavalYard, [] => attack nearbyNavalYard
  | _, _ =>
      match joinedBattleTarget env unit nearbyHostiles units with
      | Some bestTarget => attack bestTarget
      | None =>
          match findBestTarget unit nearbyHostiles false with
          | Some bestTarget => attack bestTarget
          | None =>
              let! s := gets (fun s => s) in
              let! _ :=
                match findNearestEngagedAlly s unit units tick with
                | Some nearestEngagedAlly =>
                    submitActionIfNew (manageMoveMicro unit (tilePoint nearestEngagedAlly))
                | None =>
                    let idle :=
                      match unitCombatStates s !! id unit with
                      | Some st => MAX_IDLE_COMBAT_TICKS <? tick - lastEngageTime st
                      | None => false
                      end in
                    if idle then submitActionIfNew (manageMoveMicro unit (searchTarget unit))
                    else
                      let offset := getFormationOffset (indexOf unit units 0) (length units) in
                      submitActionIfNew
                        (manageMoveMicro unit
                           {| vx := (vx targetPoint + vx offset)%Q;
                              vy := (vy targetPoint + vy offset)%Q |})
                end in
              updateCombatState unit tick false
          end
      end
  end.

(** [updateExplorationTarget]. *)
Definition updateExplorationTarget (env : SquadEnv.t) (unit : UnitData)
    : M (S:=t) Vector2 :=
  let tick := currentTick env in
  let! s := gets (fun s => s) in
  let! _ :=
    if lastExplorationChange s + EXPLORATION_INTERVAL_TICKS <? tick then
      let turned := (currentExplorationAngle s
                     + EXPLORATION_ANGLE_CHANGE * (1 + random env (id unit) 0))%Q in
      modify (set_exploration tick (if Qleb 360 turned then 0%Q else turned))
    else ret tt in
  let! s1 := gets (fun s => s) in
  let angleInRadians := (currentExplorationAngle s1 * Math_PI / 180)%Q in
  let explorationDistance :=
    (EXPLORATION_RANGE * ((8 # 10) + random env (id unit) 1 * (4 # 10)))%Q in
  let rawTarget :=
    {| vx := (inject_Z (tile_rx unit) + Math_cos angleInRadians * explorationDistance)%Q;
       vy := (inject_Z (tile_ry unit) + Math_sin angleInRadians * explorationDistance)%Q |} in
  ret (findValidWaterPosition env rawTarget (tilePoint unit) true).

(** [units.reduce((a, b) => range(a) < range(b) ? a : b)] with
    [range(u) = u.primaryWeapon?.maxRange ?? 5]; [None] when the array
    is empty, where [reduce] throws a [TypeError]. *)
Definition attackLeaderOf (units : list UnitData) : option UnitData :=
  let range := fun u => default 5%Q (primaryWeapon_maxRange u) in
  match units with
  | [] => None
  | first :: rest =>
      Some (fold_left (fun a b => if Qltb (range a) (range b) then a else b) rest first)
  end.

(** [Math.sqrt(n) * GATHER_RATIO + radius]. *)
Definition requiredGatherRadius (n : nat) (radius : Q) : Q :=
  (Math_sqrt (inject_Z (Z.of_nat n)) * GATHER_RATIO + radius)%Q.

(** The stuck-check block of [onAiUpdate]. *)
Definition stuckCheckBlock (env : SquadEnv.t) : Cmd :=
  let tick := currentTick env in
  let! s := gets (fun s => s) in
  if isStuckCheckTick s env then
    let! _ := modify (set_lastStuckCheck tick) in
    forEach (navalUnits env) (fun unit =>
      let! _ := updateUnitPosition unit tick in
      let! s1 := gets (fun s => s) in
      if isUnitStuck s1 unit then handleStuckUnit env unit else ret tt)
  else ret tt.

(** The attack phase of the command block of [onAiUpdate]. *)
Definition attackPhase (env : SquadEnv.t) (units : list UnitData)
    (targetPoint : Vector2) : M (S:=t) (option MissionAction.t) :=
  match attackLeaderOf units with
  | None => ret None
  | Some attackLeader =>
      let leaderPos := tilePoint attackLeader in
      let nearbyHostiles := hostilesNear env (vx leaderPos) (vy leaderPos) ATTACK_SCAN_AREA in
      let onlyBuildingsLeft :=
        (0 <? Z.of_nat (length nearbyHostiles))
        && forallb (fun unit => negb (rules_isSelectableCombatant unit)) nearbyHostiles in
      let! _ :=
        match nearbyHostiles with
        | [] =>
            match findNearbyNavalYard env leaderPos with
            | Some nearbyNavalYard =>
                moveUnitsInFormation env units (tilePoint nearbyNavalYard)
            | None => moveUnitsInFormation env units targetPoint
            end
        | buildingTarget :: _ =>
            if onlyBuildingsLeft
            then moveUnitsInFormation env units (tilePoint buildingTarget)
            else forEach units (fun unit =>
                   handleCombat env unit nearbyHostiles units targetPoint)
        end in
      ret (Some MissionAction.noop)
  end.

(** The exploration phase of the command block of [onAiUpdate]. *)
Definition explorePhase (env : SquadEnv.t) (units : list UnitData) : Cmd :=
  forEach (indexed units) (fun iu =>
    let index := fst iu in
    let unit := snd iu in
    let! s := gets (fun s => s) in
    let! _ := modify (set_exploration (lastExplorationChange s)
                        (360 / inject_Z (Z.of_nat (length units)) * inject_Z index)%Q) in
    let! baseTarget := updateExplorationTarget env unit in
    let offset := getFormationOffset index (length units) in
    let explorationTarget := {| vx := (vx baseTarget + vx offset)%Q;
                                vy := (vy baseTarget + vy offset)%Q |} in
    let! _ :=
      match getTile env (vx explorationTarget) (vy explorationTarget) with
      | Some _ => submitActionIfNew (manageMoveMicro unit explorationTarget)
      | None => ret tt
      end in
    match hostilesNear env (inject_Z (tile_rx unit)) (inject_Z (tile_ry unit))
                       ATTACK_SCAN_AREA with
    | _ :: _ => modify (set_state Attacking)
    | [] => ret tt
    end).

(** The phases of the command block of [onAiUpdate]; [s] is the squad
    as the block found it. *)
Definition commandPhases (env : SquadEnv.t) (s : t) : M (S:=t) (option MissionAction.t) :=
  let unitIds := navalUnitIds env in
  let units := navalUnits env in
  match state s with
  | Gathering =>
      match spreadBeyond env (requiredGatherRadius (length unitIds) MIN_GATHER_RADIUS) with
      | Some centerOfMass =>
          let! _ := moveUnitsInFormation env units centerOfMass in
          ret (Some MissionAction.noop)
      | None =>
          let! _ := modify (set_state Attacking) in
          ret (Some MissionAction.noop)
      end
  | Attacking =>
      let targetPoint := default (startLocation env) (targetArea s) in
      match spreadBeyond env (requiredGatherRadius (length units) MAX_GATHER_RADIUS) with
      | Some _ =>
          let! _ := modify (set_state Gathering) in
          ret (Some MissionAction.noop)
      | None => attackPhase env units targetPoint
      end
  | Exploring =>
      let! _ := explorePhase env units in
      ret (Some MissionAction.noop)
  | Retreating => ret (Some MissionAction.noop)
  end.

(** The command block of [onAiUpdate]. *)
Definition commandBlock (env : SquadEnv.t) : M (S:=t) (option MissionAction.t) :=
  let! s := gets (fun s => s) in
  if isCommandTick s env then
    let! _ := modify (set_lastCommand (currentTick env)) in
    commandPhases env s
  else ret (Some MissionAction.noop).

(** [NavalSquad.onAiUpdate]; the result is [None] when the update
    throws. *)
Definition onAiUpdate (env : SquadEnv.t) : M (S:=t) (option MissionAction.t) :=
  let! _ := stuckCheckBlock env in
  commandBlock env.

(** The phase rule in the words of the specification: with [d] the
    greatest distance from the centre of mass to a unit and [n] the
    number of units, a gathering squad turns to attacking exactly when
    [d <= sqrt n * 2 + 3], an attacking squad back to gathering exactly
    when [d > sqrt n * 2 + 6]. *)
Definition specPhaseRule (env : SquadEnv.t) (s s' : t) : Prop :=
  forall d, maxDistance env = Some d ->
    (state s = Gathering ->
     (state s' = Attacking
      <-> (d <= requiredGatherRadius (length (navalUnitIds env)) MIN_GATHER_RADIUS)%Q))
    /\ (state s = Attacking ->
        (state s' = Gathering
         <-> (requiredGatherRadius (length (navalUnits env)) MAX_GATHER_RADIUS < d)%Q)).

(** The factors of [calculateTargetWeight], named: the class of the
    target (combatant or structure, with the naval and low-health
    bonuses of a combatant and the naval-yard bonus of a structure), the
    in-range bonus and the distance decay. *)
Definition healthPercentage (target : UnitData) : Q :=
  if Qltb 0 (rules_strength target)
  then (rules_points target / rules_strength target)%Q else 1%Q.

Definition classFactor (target : UnitData) : Q :=
  if rules_isSelectableCombatant target then
    (COMBAT_UNIT_PRIORITY
     * (if eqMovementZone (rules_movementZone target) Water
        then NAVAL_UNIT_PRIORITY else 1)
     * (if eqMovementZone (rules_movementZone target) AmphibiousDestroyer
        then NAVAL_UNIT_PRIORITY * (8 # 10) else 1)
     * (1 + (1 - healthPercentage target) * LOW_HEALTH_PRIORITY))%Q
  else
    (BUILDING_ATTACK_PRIORITY
     * (if String.eqb (rules_name target) "NAYARD" then NAVAL_YARD_PRIORITY else 1))%Q.

Definition inRangeFactor (attacker target : UnitData) : Q :=
  if Qleb (getDistanceBetweenUnits attacker target) (weaponRange attacker)
  then NEARBY_TARGET_BONUS else 1%Q.

Definition distanceDecay (attacker target : UnitData) : Q :=
  (1 - getDistanceBetweenUnits attacker target / (weaponRange attacker * (25 # 10)))%Q.

(** The throttle in the words of the specification: outside a command
    tick the squad submits nothing to the batcher. *)
Definition specCommandTickOnly (env : SquadEnv.t) (s : t) (b : ActionBatcher) : Prop :=
  isCommandTick s env = false -> snd (onAiUpdate env s b) = b.

(** The choice of target in the words of the specification: the target
    picked for a unit has the greatest weight among the scanned
    hostiles. *)
Definition specPicksMaximum (unit : UnitData) (hostiles : list UnitData) : Prop :=
  forall target,
    findBestTarget unit hostiles false = Some target ->
    forall other, In other hostiles ->
      Number.le (calculateTargetWeight unit other false)
                (calculateTargetWeight unit target false).

End WithOps.

End NavalSquad.

(** ** Allied naval composition (alliedNavalCompositions.ts) *)

Module NavalComposition.

(** [gameApi.getVisibleUnits(player, "self", r => ...).length > 0], the
    game seen through the rule names of the player's own units. *)
Definition owns (selfUnits : list string) (names : list string) : bool :=
  existsb (fun n => existsb (String.eqb n) names) selfUnits.

(** [getAlliedNavalCompositions]: the composition object, in key
    order. *)
Definition getAlliedNavalCompositions (selfUnits : list string) : list (string * Z) :=
  let hasAirforce := owns selfUnits ["GAAIRC"; "AMRADR"]%string in
  let hasBattleLab := owns selfUnits ["GATECH"]%string in
  [("DEST"%string, 2)]
  ++ (if hasAirforce then [("AEGIS"%string, 1)] else [])
  ++ (if hasBattleLab then [("DLPH"%string, 1); ("CARRIER"%string, 1)] else []).

End NavalComposition.

(** ** The naval mission (second document of part_004) *)

Module NavalMission.
Import Batcher SquadEnv.

Inductive NavalMissionState := Preparing | Attacking | Retreating.

Definition NAVAL_UNIT_REQUEST_PRIORITY : Q := 60.
Definition MAX_SCATTER_DISTANCE : Q := 20.
Definition FORCE_GATHER_THRESHOLD : Q := 6 # 10.
Definition FORCE_ATTACK_THRESHOLD : Q := 5 # 10.
Definition MAX_GATHER_TIME : Z := 900.
Definition SEARCH_EXPAND_INTERVAL : Z := 300.
Definition INITIAL_SEARCH_RADIUS : Q := 40.
Definition MAX_SEARCH_RADIUS : Q := 150.
Definition TARGET_UPDATE_INTERVAL : Z := 60.
Definition MAX_MISSION_DURATION : Z := 1800.
Definition MAX_NO_PROGRESS_TIME : Z := 600.
Definition MIN_PROGRESS_DISTANCE : Q := 10.

(** The mission object.  [gatherStartTime], [missionStartTime] and
    [lastProgressTime] hold what the code stores in them: values of
    [Date.now()], the wall clock in milliseconds ([lastProgressTime]
    starts at [0]). *)
Record t := mkMission {
  squad : NavalSquad.t;
  state : NavalMissionState;
  rallyPoint : Vector2;
  targetArea : Vector2;
  gatherStartTime : Z;
  currentSearchRadius : Q;
  lastSearchExpandTime : Z;
  lastTargetUpdateTime : Z;
  missionStartTime : Z;
  lastProgressTime : Z;
  lastPosition : option Vector2
}.

(** What an update of the mission reads beyond the squad's
    environment. *)
Record Env := mkEnv {
  squadEnv : SquadEnv.t;
  (** [Date.now()] *)
  now : Z;
  (** the rule names of the player's own units *)
  selfUnits : list string;
  (** [gameApi.getVisibleUnits(player, "enemy")], resolved *)
  visibleEnemies : list UnitData;
  (** the start locations of the players that are not allied *)
  enemyStartLocations : list Vector2
}.

(** [new NavalMission(...)], created when [Date.now()] is [createdAt]. *)
Definition new (createdAt : Z) (rally target : Vector2) : t :=
  {| squad := NavalSquad.new (Some target); state := Preparing;
     rallyPoint := rally; targetArea := target;
     gatherStartTime := createdAt;
     currentSearchRadius := INITIAL_SEARCH_RADIUS;
     lastSearchExpandTime := 0; lastTargetUpdateTime := 0;
     missionStartTime := createdAt; lastProgressTime := 0;
     lastPosition := None |}.

Definition set_squad (v : NavalSquad.t) (m : t) : t :=
  mkMission v (state m) (rallyPoint m) (targetArea m) (gatherStartTime m)
    (currentSearchRadius m) (lastSearchExpandTime m) (lastTargetUpdateTime m)
    (missionStartTime m) (lastProgressTime m) (lastPosition m).

Definition set_state (v : NavalMissionState) (m : t) : t :=
  mkMission (squad m) v (rallyPoint m) (targetArea m) (gatherStartTime m)
    (currentSearchRadius m) (lastSearchExpandTime m) (lastTargetUpdateTime m)
    (missionStartTime m) (lastProgressTime m) (lastPosition m).

Definition set_targetArea (v : Vector2) (m : t) : t :=
  mkMission (squad m) (state m) (rallyPoint m) v (gatherStartTime m)
    (currentSearchRadius m) (lastSearchExpandTime m) (lastTargetUpdateTime m)
    (missionStartTime m) (lastProgressTime m) (lastPosition m).

Definition set_search (radius : Q) (expandedAt : Z) (m : t) : t :=
  mkMission (squad m) (state m) (rallyPoint m) (targetArea m) (gatherStartTime m)
    radius expandedAt (lastTargetUpdateTime m)
    (missionStartTime m) (lastProgressTime m) (lastPosition m).

Definition set_lastTargetUpdateTime (v : Z) (m : t) : t :=
  mkMission (squad m) (state m) (rallyPoint m) (targetArea m) (gatherStartTime m)
    (currentSearchRadius m) (lastSearchExpandTime m) v
    (missionStartTime m) (lastProgressTime m) (lastPosition m).

Definition set_lastProgressTime (v : Z) (m : t) : t :=
  mkMission (squad m) (state m) (rallyPoint m) (targetArea m) (gatherStartTime m)
    (currentSearchRadius m) (lastSearchExpandTime m) (lastTargetUpdateTime m)
    (missionStartTime m) v (lastPosition m).

Definition set_lastPosition (v : option Vector2) (m : t) : t :=
  mkMission (squad m) (state m) (rallyPoint m) (targetArea m) (gatherStartTime m)
    (currentSearchRadius m) (lastSearchExpandTime m) (lastTargetUpdateTime m)
    (missionStartTime m) (lastProgressTime m) v.

(** [NavalMission.clampToMapBoundaries]. *)
Definition clampToMapBoundaries (size : MapSize) (p : Vector2) : Vector2 :=
  let x := Z.max 2 (Z.min (Math_round (vx p)) (width size - 3)) in
  let y := Z.max 2 (Z.min (Math_round (vy p)) (height size - 3)) in
  {| vx := inject_Z x; vy := inject_Z y |}.

(** [NavalMission.shouldCancelMission]: [currentTick] is the engine's
    tick counter, [dateNow] the wall clock read inside the method. *)
Definition shouldCancelMission (m : t) (currentTick dateNow : Z) : bool :=
  let missionDuration := currentTick - missionStartTime m in
  if MAX_MISSION_DURATION <? missionDuration then true
  else
    let noProgressTime := dateNow - lastProgressTime m in
    if MAX_NO_PROGRESS_TIME <? noProgressTime then true else false.

(** [NavalMission.findNewTarget]. *)
Definition findNewTarget (m : t) (env : Env) (currentPosition : Vector2)
    : t * option Vector2 :=
  let tick := currentTick (squadEnv env) in
  let m1 :=
    if SEARCH_EXPAND_INTERVAL <? tick - lastSearchExpandTime m
    then set_search (Math_min (currentSearchRadius m + 20)%Q MAX_SEARCH_RADIUS) tick m
    else m in
  let navalYards :=
    List.filter (fun unit => String.eqb (name unit) "NAYARD" || String.eqb (name unit) "GAYARD")
                (visibleEnemies env) in
  match navalYards with
  | target :: _ => (m1, Some (tilePoint target))
  | [] =>
      let targets :=
        List.filter
          (fun unit => negb (ownedByNeutral unit)
                       && (eqMovementZone (rules_movementZone unit) Water
                           || eqObjectType (rules_type unit) Building))
          (hostilesNearPoint (squadEnv env) (vx currentPosition) (vy currentPosition)
                             (currentSearchRadius m1)) in
      match targets with
      | target :: _ => (m1, Some (tilePoint target))
      | [] =>
          match enemyStartLocations env with
          | enemyStart :: _ => (m1, Some enemyStart)
          | [] => (m1, None)
          end
      end
  end.

(** [currentComposition[unitType] || 0]. *)
Definition countOfType (navalUnits : list UnitData) (unitType : string) : Z :=
  Z.of_nat (length (List.filter (fun unit => String.eqb (rules_name unit) unitType) navalUnits)).

(** [Object.values(targetComposition).reduce((sum, count) => sum + count, 0)]. *)
Definition totalOf (composition : list (string * Z)) : Z :=
  fold_left (fun sum entry => sum + snd entry) composition 0.

Section WithOps.
Context `{MathOps} `{MapOps}.

(** [NavalMission.checkMissionProgress]. *)
Definition checkMissionProgress (m : t) (currentPosition : Vector2) (dateNow : Z)
    : t * bool :=
  match lastPosition m with
  | None => (set_lastPosition (Some currentPosition) m, true)
  | Some lastPos =>
      let distance := euclid (vx currentPosition) (vy currentPosition)
                             (vx lastPos) (vy lastPos) in
      if Qleb MIN_PROGRESS_DISTANCE distance
      then (set_lastProgressTime dateNow (set_lastPosition (Some currentPosition) m), true)
      else (m, false)
  end.

(** The test in the loop of [checkUnitScatter]: the unit is farther
    than the max-scatter distance from the centre of mass. *)
Definition isScattered (centerOfMass : Vector2) (unit : UnitData) : bool :=
  let distance := euclid (inject_Z (tile_rx unit)) (inject_Z (tile_ry unit))
                         (vx centerOfMass) (vy centerOfMass) in
  Qltb MAX_SCATTER_DISTANCE distance.

(** The number of units counted as scattered by [checkUnitScatter]. *)
Definition scatteredUnits (centerOfMass : Vector2) (navalUnits : list UnitData) : Z :=
  fold_left
    (fun scattered unit =>
       if isScattered centerOfMass unit then scattered + 1 else scattered)
    navalUnits 0.

(** [NavalMission.checkUnitScatter]. *)
Definition checkUnitScatter (env : Env) (navalUnits : list UnitData) : bool :=
  if (length navalUnits <? 2)%nat then false
  else match centerOfMass (squadEnv env) with
       | None => false
       | Some c =>
           Qltb FORCE_GATHER_THRESHOLD
                (inject_Z (scatteredUnits c navalUnits)
                 / inject_Z (Z.of_nat (length navalUnits)))%Q
       end.

(** [this.squad.onAiUpdate(...)] on the mission's squad. *)
Definition updateSquad (m : t) (env : Env) (batcher : ActionBatcher)
    : option MissionAction.t * t * ActionBatcher :=
  let '(action, squad', batcher') := NavalSquad.onAiUpdate (squadEnv env) (squad m) batcher in
  (action, set_squad squad' m, batcher').

(** [this.squad.setTargetArea(target)]. *)
Definition aimSquad (target : Vector2) (m : t) : t :=
  set_squad (NavalSquad.setTargetArea target (squad m)) m.

(** The [Preparing] case of [_onAiUpdate]. *)
Definition preparing (m : t) (env : Env) (batcher : ActionBatcher)
    : option MissionAction.t * t * ActionBatcher :=
  let tick := currentTick (squadEnv env) in
  let navalUnits := SquadEnv.navalUnits (squadEnv env) in
  let targetComposition := NavalComposition.getAlliedNavalCompositions (selfUnits env) in
  if checkUnitScatter env navalUnits then
    updateSquad (aimSquad (rallyPoint m) m) env batcher
  else
    let missingUnits :=
      flat_map (fun entry =>
                  let currentCount := countOfType navalUnits (fst entry) in
                  if currentCount <? snd entry
                  then repeat (fst entry) (Z.to_nat (snd entry - currentCount))
                  else [])
               targetComposition in
    match missingUnits with
    | _ :: _ =>
        (Some (MissionAction.requestUnits missingUnits NAVAL_UNIT_REQUEST_PRIORITY), m, batcher)
    | [] =>
        let totalUnits := Z.of_nat (length navalUnits) in
        let targetTotal := totalOf targetComposition in
        let gatherTime := tick - gatherStartTime m in
        let m1 :=
          if Qleb (inject_Z targetTotal * FORCE_ATTACK_THRESHOLD)%Q (inject_Z totalUnits)
             || ((MAX_GATHER_TIME <? gatherTime) && (2 <=? totalUnits))
             || ((2 <=? totalUnits)
                 && Qltb (inject_Z MAX_GATHER_TIME / 2)%Q (inject_Z gatherTime))
          then set_state Attacking m else m in
        updateSquad (aimSquad (rallyPoint m1) m1) env batcher
    end.

(** The [Attacking] case of [_onAiUpdate]. *)
Definition attacking (m : t) (env : Env) (batcher : ActionBatcher)
    : option MissionAction.t * t * ActionBatcher :=
  let tick := currentTick (squadEnv env) in
  let navalUnits := SquadEnv.navalUnits (squadEnv env) in
  let targetComposition := NavalComposition.getAlliedNavalCompositions (selfUnits env) in
  let missingUnits :=
    omap (fun entry =>
            if Qltb (inject_Z (countOfType navalUnits (fst entry)))
                    (inject_Z (snd entry) * (5 # 10))%Q
            then Some (fst entry) else None)
         targetComposition in
  match missingUnits with
  | _ :: _ =>
      (Some (MissionAction.requestUnits missingUnits NAVAL_UNIT_REQUEST_PRIORITY), m, batcher)
  | [] =>
      let '(m2, giveUp) :=
        if TARGET_UPDATE_INTERVAL <? tick - lastTargetUpdateTime m then
          match centerOfMass (squadEnv env) with
          | Some c =>
              match findNewTarget m env c with
              | (m1, Some newTarget) =>
                  (set_lastTargetUpdateTime tick
                     (set_lastProgressTime (now env) (set_targetArea newTarget m1)), false)
              | (m1, None) =>
                  if MAX_NO_PROGRESS_TIME <? now env - lastProgressTime m1
                  then (m1, true)
                  else (set_lastTargetUpdateTime tick m1, false)
              end
          | None => (set_lastTargetUpdateTime tick m, false)
          end
        else (m, false) in
      if giveUp then (Some (MissionAction.disbandMission None), m2, batcher)
      else
        let safeTargetArea := clampToMapBoundaries (mapSize (squadEnv env)) (targetArea m2) in
        updateSquad (aimSquad safeTargetArea m2) env batcher
  end.

(** [NavalMission._onAiUpdate]; the action is [None] when the squad
    update throws. *)
Definition _onAiUpdate (m : t) (env : Env) (batcher : ActionBatcher)
    : option MissionAction.t * t * ActionBatcher :=
  let tick := currentTick (squadEnv env) in
  let progress :=
    match centerOfMass (squadEnv env) with
    | Some c =>
        let m1 := fst (checkMissionProgress m c (now env)) in
        (m1, shouldCancelMission m1 tick (now env))
    | None => (m, false)
    end in
  let '(m1, cancelled) := progress in
  if cancelled then (Some (MissionAction.disbandMission None), m1, batcher)
  else
    match state m1 with
    | Preparing => preparing m1 env batcher
    | Attacking => attacking m1 env batcher
    | Retreating => updateSquad (aimSquad (rallyPoint m1) m1) env batcher
    end.

(** The missions that the controller holds: the mission as constructed
    and, while the wall clock reads more than [MAX_NO_PROGRESS_TIME]
    milliseconds, what an update that does not disband makes of it (a
    mission whose update returns a disband action is removed from the
    controller). *)
Inductive live : t -> Prop :=
| live_new (createdAt : Z) (rally target : Vector2) :
    live (new createdAt rally target)
| live_update (m : t) (env : Env) (batcher : ActionBatcher) :
    live m ->
    MAX_NO_PROGRESS_TIME < now env ->
    fst (fst (_onAiUpdate m env batcher)) <> Some (MissionAction.disbandMission None) ->
    live (snd (fst (_onAiUpdate m env batcher))).

(** The scatter rule in the words of the specification: a preparing
    mission whose scatter check answers yes re-gathers at the rally
    point — the update does not disband, aims the squad at the rally
    point and leaves the mission in Preparing. *)
Definition specForcesRegather (m : t) (env : Env) (batcher : ActionBatcher) : Prop :=
  state m = Preparing ->
  checkUnitScatter env (SquadEnv.navalUnits (squadEnv env)) = true ->
  fst (fst (_onAiUpdate m env batcher)) <> Some (MissionAction.disbandMission None)
  /\ NavalSquad.targetArea (squad (snd (fst (_onAiUpdate m env batcher))))
     = Some (rallyPoint m)
  /\ state (snd (fst (_onAiUpdate m env batcher))) = Preparing.

End WithOps.

End NavalMission.

(** ** The scouting mission (scoutingMission.ts) *)

Module ScoutingMission.

Definition SCOUT_MOVE_COOLDOWN_TICKS : Z := 30.
Definition MAX_ATTEMPTS_PER_TARGET : Z := 5.
Definition MAX_TICKS_PER_TARGET : Z := 600.
Definition STUCK_THRESHOLD_TICKS : Z := 150.
Definition MIN_MOVEMENT_THRESHOLD : Q := 2.
Definition WATER_SEARCH_RADIUS : Z := 20.

(** A tile position; scout targets are tile positions. *)
Definition Pos : Type := Z * Z.

(** A unit of the mission, as [getUnitsOfTypes] returns it: its id, its
    type name and its tile. *)
Record Scout := mkScout { scoutId : Z; scoutType : string; scoutTile : Pos }.

(** A tile of the map: whether its terrain is water and whether the
    player sees it ([mapApi.isVisibleTile]). *)
Record Tile := mkTile { isWater : bool; isVisible : bool }.

(** [PrioritisedScoutTarget]. *)
Record PrioritisedScoutTarget := mkScoutTarget { asVector2 : Pos; isPermanent : bool }.

(** The mission object. *)
Record t := mkMission {
  scoutTarget : option Pos;
  attemptsOnCurrentTarget : Z;
  scoutTargetRefreshedAt : Z;
  lastMoveCommandTick : Z;
  scoutTargetIsPermanent : bool;
  isWaterTarget : bool;
  scoutMinDistance : option Q;
  lastScoutPositions : gmap Z Pos;
  stuckStartTime : gmap Z Z;
  exploredWaterTiles : gset Pos;
  exploredLandTiles : gset Pos;
  hadUnit : bool;
  priority : Q
}.

(** What an update reads. *)
Record Env := mkEnv {
  currentTick : Z;
  (** the units of the mission *)
  missionUnits : list Scout;
  (** [matchAwareness.getSectorCache().getOverallVisibility() || 0] *)
  overallVisibility : Q;
  mapSize : MapSize;
  (** [gameApi.mapApi.getTile(x, y)] *)
  getTile : Pos -> option Tile;
  (** [matchAwareness.getScoutingManager().getNewScoutTarget()] *)
  newScoutTarget : option PrioritisedScoutTarget
}.

(** An order issued with [actionsApi.orderUnits([id], AttackMove, x, y)]. *)
Record MoveOrder := mkMoveOrder { orderedUnit : Z; orderedTo : Pos }.

(** [new ScoutingMission(uniqueName, priority, logger)]. *)
Definition new (prio : Q) : t :=
  {| scoutTarget := None; attemptsOnCurrentTarget := 0; scoutTargetRefreshedAt := 0;
     lastMoveCommandTick := 0; scoutTargetIsPermanent := false; isWaterTarget := false;
     scoutMinDistance := None; lastScoutPositions := ∅; stuckStartTime := ∅;
     exploredWaterTiles := ∅; exploredLandTiles := ∅; hadUnit := false;
     priority := prio |}.

Definition landScoutNames : list string := ["ADOG"; "DOG"; "E1"; "E2"; "FV"; "HTK"]%string.
Definition waterScoutNames : list string := ["DEST"]%string.

(** [this.getUnitsOfTypes(gameApi, ...scoutNames)]. *)
Definition getUnitsOfTypes (env : Env) (names : list string) : list Scout :=
  List.filter (fun u => existsb (String.eqb (scoutType u)) names) (missionUnits env).

(** [ScoutingMission.setScoutTarget]. *)
Definition setScoutTarget (m : t) (target : option PrioritisedScoutTarget)
    (tick : Z) (env : Env) : t :=
  let newTarget := option_map asVector2 target in
  {| scoutTarget := newTarget;
     attemptsOnCurrentTarget := 0;
     scoutTargetRefreshedAt := tick;
     lastMoveCommandTick := lastMoveCommandTick m;
     scoutTargetIsPermanent := match target with Some p => isPermanent p | None => false end;
     isWaterTarget :=
       match newTarget with
       | Some p => match getTile env p with Some tile => isWater tile | None => false end
       | None => false
       end;
     scoutMinDistance := None;
     lastScoutPositions := lastScoutPositions m;
     stuckStartTime := stuckStartTime m;
     exploredWaterTiles := exploredWaterTiles m;
     exploredLandTiles := exploredLandTiles m;
     hadUnit := hadUnit m;
     priority := priority m |}.

(** [ScoutingMission.markTileExplored]. *)
Definition markTileExplored (m : t) (p : Pos) (water : bool) : t :=
  {| scoutTarget := scoutTarget m;
     attemptsOnCurrentTarget := attemptsOnCurrentTarget m;
     scoutTargetRefreshedAt := scoutTargetRefreshedAt m;
     lastMoveCommandTick := lastMoveCommandTick m;
     scoutTargetIsPermanent := scoutTargetIsPermanent m;
     isWaterTarget := isWaterTarget m;
     scoutMinDistance := scoutMinDistance m;
     lastScoutPositions := lastScoutPositions m;
     stuckStartTime := stuckStartTime m;
     exploredWaterTiles := if water then {[ p ]} ∪ exploredWaterTiles m
                           else exploredWaterTiles m;
     exploredLandTiles := if water then exploredLandTiles m
                          else {[ p ]} ∪ exploredLandTiles m;
     hadUnit := hadUnit m;
     priority := priority m |}.

(** The writes of [_onAiUpdate] to the bookkeeping of the current
    target. *)
Definition set_tracking (m : t) (target : option Pos) (attempts refreshedAt moveTick : Z)
    (minDistance : option Q) (had : bool) : t :=
  {| scoutTarget := target;
     attemptsOnCurrentTarget := attempts;
     scoutTargetRefreshedAt := refreshedAt;
     lastMoveCommandTick := moveTick;
     scoutTargetIsPermanent := scoutTargetIsPermanent m;
     isWaterTarget := isWaterTarget m;
     scoutMinDistance := minDistance;
     lastScoutPositions := lastScoutPositions m;
     stuckStartTime := stuckStartTime m;
     exploredWaterTiles := exploredWaterTiles m;
     exploredLandTiles := exploredLandTiles m;
     hadUnit := had;
     priority := priority m |}.

(** The writes of [checkUnitsStuck] and [clearStuckTracking], and the
    switch to water scouting. *)
Definition set_stuck (m : t) (positions : gmap Z Pos) (since : gmap Z Z) (water : bool) : t :=
  {| scoutTarget := scoutTarget m;
     attemptsOnCurrentTarget := attemptsOnCurrentTarget m;
     scoutTargetRefreshedAt := scoutTargetRefreshedAt m;
     lastMoveCommandTick := lastMoveCommandTick m;
     scoutTargetIsPermanent := scoutTargetIsPermanent m;
     isWaterTarget := water;
     scoutMinDistance := scoutMinDistance m;
     lastScoutPositions := positions;
     stuckStartTime := since;
     exploredWaterTiles := exploredWaterTiles m;
     exploredLandTiles := exploredLandTiles m;
     hadUnit := hadUnit m;
     priority := priority m |}.

(** The eight neighbours, in the order of [directions]. *)
Definition directions (p : Pos) : list Pos :=
  let '(x, y) := p in
  [ (x + 1, y); (x - 1, y); (x, y + 1); (x, y - 1);
    (x + 1, y + 1); (x - 1, y - 1); (x + 1, y - 1); (x - 1, y + 1) ].

(** The breadth-first loop of [findNextTarget]; [fuel] bounds the number
    of iterations. *)
Fixpoint searchLoop (fuel : nat) (env : Env) (explored : gset Pos) (water : bool)
    (start : Pos) (queue : list Pos) (visited : gset Pos) (candidates : list Pos)
    : list Pos :=
  match fuel with
  | O => candidates
  | S fuel' =>
      match queue with
      | [] => candidates
      | p :: rest =>
          if bool_decide (p ∈ visited)
          then searchLoop fuel' env explored water start rest visited candidates
          else
            let visited' := {[ p ]} ∪ visited in
            match getTile env p with
            | None => searchLoop fuel' env explored water start rest visited' candidates
            | Some tile =>
                if negb (Bool.eqb (isWater tile) water)
                then searchLoop fuel' env explored water start rest visited' candidates
                else
                  let candidates' :=
                    if negb (bool_decide (p ∈ explored)) && negb (isVisible tile)
                    then candidates ++ [p] else candidates in
                  let next :=
                    List.filter
                      (fun n : Pos =>
                         negb ((fst n <? 0) || (snd n <? 0)
                               || (width (mapSize env) <=? fst n)
                               || (height (mapSize env) <=? snd n))
                         && negb ((WATER_SEARCH_RADIUS <? Z.abs (fst n - fst start))
                                  || (WATER_SEARCH_RADIUS <? Z.abs (snd n - snd start)))
                         && negb (bool_decide (n ∈ visited')))
                      (directions p) in
                  searchLoop fuel' env explored water start (rest ++ next) visited' candidates'
            end
      end
  end.

(** Every tile of the search box is visited at most once and queues at
    most eight neighbours. *)
Definition searchFuel : nat := Z.to_nat (9 * (2 * WATER_SEARCH_RADIUS + 1) * (2 * WATER_SEARCH_RADIUS + 1) + 1).

(** The first element of least key: the head of the array after the
    stable ascending [sort]. *)
Definition firstMin {A} (key : A -> Z) (l : list A) : option A :=
  fold_left
    (fun best a =>
       match best with
       | Some b => if key a <? key b then Some a else best
       | None => Some a
       end) l None.

(** [ScoutingMission.findNextTarget]. *)
Definition findNextTarget (m : t) (env : Env) (currentPosition : Pos) (water : bool)
    : option Pos :=
  let explored := if water then exploredWaterTiles m else exploredLandTiles m in
  let candidateTiles :=
    searchLoop searchFuel env explored water currentPosition [currentPosition] ∅ [] in
  firstMin (fun a => (fst a - fst currentPosition) * (fst a - fst currentPosition)
                     + (snd a - snd currentPosition) * (snd a - snd currentPosition))
           candidateTiles.

Section WithOps.
Context `{MathOps} `{MapOps}.

(** [tile.x] and [tile.y] in [checkUnitsStuck]: a tile of the game
    carries its coordinates as [rx] and [ry] and has no property [x] or
    [y]; the reads give [undefined]. *)
Definition tile_x (tile : Pos) : option Q := None.
Definition tile_y (tile : Pos) : option Q := None.

(** The [forEach] of [checkUnitsStuck]: the position and stuck-time maps
    and the flag [allUnitsStuck].  The distance is computed from
    [tile.x] and [tile.y]. *)
Definition trackScout (tick : Z) (acc : gmap Z Pos * gmap Z Z * bool) (unit : Scout)
    : gmap Z Pos * gmap Z Z * bool :=
  let '(positions, since, allUnitsStuck) := acc in
  let '(since', allUnitsStuck') :=
    match positions !! scoutId unit with
    | Some lastPosition =>
        let dx := Number.sub (Number.ofProperty (tile_x (scoutTile unit)))
                             (Number.ofProperty (tile_x lastPosition)) in
        let dy := Number.sub (Number.ofProperty (tile_y (scoutTile unit)))
                             (Number.ofProperty (tile_y lastPosition)) in
        let distance := Number.sqrt (Number.add (Number.mul dx dx) (Number.mul dy dy)) in
        if Number.ltb distance (Number.Finite MIN_MOVEMENT_THRESHOLD) then
          match since !! scoutId unit with
          | Some _ => (since, allUnitsStuck)
          | None => (<[scoutId unit := tick]> since, allUnitsStuck)
          end
        else (delete (scoutId unit) since, false)
    | None => (since, allUnitsStuck)
    end in
  (<[scoutId unit := scoutTile unit]> positions, since', allUnitsStuck').

(** [Math.min(...values)]; [None] is [Infinity], the minimum of no
    value. *)
Definition minimum (values : list Z) : option Z :=
  match values with
  | [] => None
  | v :: rest => Some (fold_left Z.min rest v)
  end.

(** [ScoutingMission.checkUnitsStuck]. *)
Definition checkUnitsStuck (m : t) (env : Env) (scouts : list Scout) : t * bool :=
  let tick := currentTick env in
  let '(positions, since, allUnitsStuck) :=
    fold_left (trackScout tick) scouts
      (lastScoutPositions m, stuckStartTime m, (0 <? Z.of_nat (length scouts))) in
  let m' := set_stuck m positions since (isWaterTarget m) in
  if allUnitsStuck then
    match minimum (snd <$> map_to_list since) with
    | Some stuckTime => (m', STUCK_THRESHOLD_TICKS <=? tick - stuckTime)
    | None => (m', false)
    end
  else (m', false).

(** The result of an update: the action returned, or the error thrown. *)
Inductive Result := Returned (action : MissionAction.t) | Thrown.

(** [Math.min(...scouts.map(unit => getDistanceBetweenTileAndPoint(unit.tile, target)))]
    for a non-empty list of scouts. *)
Definition nearestDistance (scouts : list Scout) (target : Pos) : Q :=
  match List.map (fun unit => getDistanceBetweenTileAndPoint (scoutTile unit) target) scouts with
  | [] => 0%Q
  | d :: rest => fold_left Math_min rest d
  end.

(** [!this.scoutMinDistance || newMinDistance < this.scoutMinDistance]. *)
Definition madeProgress (m : t) (newMinDistance : Q) : bool :=
  match scoutMinDistance m with
  | Some old => negb (truthyQ old) || Qltb newMinDistance old
  | None => true
  end.

(** The part of [_onAiUpdate] that runs when scouts are present and a
    target is set, after the checks of the attempt and tick budgets. *)
Definition pursue (m : t) (env : Env) (scouts : list Scout) (target : Pos)
    : Result * t * list MoveOrder :=
  let tick := currentTick env in
  match getTile env target with
  | None => (Thrown, m, [])
  | Some targetTile =>
      if negb (Bool.eqb (isWater targetTile) (isWaterTarget m)) then
        (Returned MissionAction.noop, setScoutTarget m None 0 env, [])
      else
        let '(m1, orders) :=
          if lastMoveCommandTick m + SCOUT_MOVE_COOLDOWN_TICKS <? tick then
            let orders := List.map (fun unit => {| orderedUnit := scoutId unit;
                                                   orderedTo := target |}) scouts in
            let newMinDistance := nearestDistance scouts target in
            if madeProgress m newMinDistance
            then (set_tracking m (scoutTarget m) (attemptsOnCurrentTarget m) tick tick
                    (Some newMinDistance) (hadUnit m), orders)
            else (set_tracking m (scoutTarget m) (attemptsOnCurrentTarget m)
                    (scoutTargetRefreshedAt m) tick (scoutMinDistance m) (hadUnit m), orders)
          else (m, []) in
        if isVisible targetTile then
          let m2 := markTileExplored m1 target (isWaterTarget m1) in
          match findNextTarget m2 env target (isWaterTarget m2) with
          | Some nextTarget =>
              (Returned MissionAction.noop,
               set_tracking m2 (Some nextTarget) (attemptsOnCurrentTarget m2) tick
                 (lastMoveCommandTick m2) None (hadUnit m2), orders)
          | None =>
              (Returned MissionAction.noop, setScoutTarget m2 None tick env, orders)
          end
        else (Returned MissionAction.noop, m1, orders)
  end.

(** [this.hadUnit = true]. *)
Definition withUnit (m : t) : t :=
  set_tracking m (scoutTarget m) (attemptsOnCurrentTarget m)
    (scoutTargetRefreshedAt m) (lastMoveCommandTick m) (scoutMinDistance m) true.

(** [!this.isWaterTarget && this.checkUnitsStuck(gameApi, scouts)]. *)
Definition landScoutsStuck (m : t) (env : Env) (scouts : list Scout) : t * bool :=
  if negb (isWaterTarget m) then checkUnitsStuck m env scouts else (m, false).

(** The scouts of the kind the mission currently uses. *)
Definition currentScouts (m : t) (env : Env) : list Scout :=
  getUnitsOfTypes env (if isWaterTarget m then waterScoutNames else landScoutNames).

(** [ScoutingMission._onAiUpdate]. *)
Definition _onAiUpdate (m : t) (env : Env) : Result * t * list MoveOrder :=
  let tick := currentTick env in
  let scoutNames := if isWaterTarget m then waterScoutNames else landScoutNames in
  let scouts := currentScouts m env in
  if Qltb (9 # 10) (overallVisibility env) then
    (Returned (MissionAction.disbandMission None), m, [])
  else
    match scouts with
    | [] =>
        let m1 :=
          match scoutTarget m with
          | Some _ =>
              if hadUnit m
              then set_tracking m (scoutTarget m) (attemptsOnCurrentTarget m + 1)
                     (scoutTargetRefreshedAt m) (lastMoveCommandTick m)
                     (scoutMinDistance m) false
              else m
          | None => m
          end in
        (Returned (MissionAction.requestUnits scoutNames (priority m)), m1, [])
    | _ :: _ =>
        match scoutTarget m with
        | Some target =>
            let m1 := withUnit m in
            if negb (scoutTargetIsPermanent m1) then
              let '(m2, stuck) := landScoutsStuck m1 env scouts in
              if stuck then
                (Returned (MissionAction.requestUnits waterScoutNames (priority m2)),
                 set_stuck m2 ∅ ∅ true, [])
              else if MAX_ATTEMPTS_PER_TARGET <? attemptsOnCurrentTarget m2 then
                (Returned MissionAction.noop, setScoutTarget m2 None 0 env, [])
              else if scoutTargetRefreshedAt m2 + MAX_TICKS_PER_TARGET <? tick then
                (Returned MissionAction.noop, setScoutTarget m2 None 0 env, [])
              else pursue m2 env scouts target
            else pursue m1 env scouts target
        | None =>
            match newScoutTarget env with
            | None => (Returned (MissionAction.disbandMission None), m, [])
            | Some nextScoutTarget =>
                (Returned MissionAction.noop,
                 setScoutTarget m (Some nextScoutTarget) tick env, [])
            end
        end
    end.

(** The mission after a sequence of updates. *)
Definition updates (m : t) (envs : list Env) : t :=
  fold_left (fun m env => snd (fst (_onAiUpdate m env))) envs m.

(** The missions that the program can hold: the mission as constructed,
    and what updates and calls of the public [setScoutTarget] make of
    it. *)
Inductive reachable : t -> Prop :=
| reachable_new (prio : Q) : reachable (new prio)
| reachable_update (m : t) (env : Env) :
    reachable m -> reachable (snd (fst (_onAiUpdate m env)))
| reachable_setScoutTarget (m : t) (target : option PrioritisedScoutTarget)
    (tick : Z) (env : Env) :
    reachable m -> reachable (setScoutTarget m target tick env).

(** The reset rule in the words of the specification: whenever the
    nearest scout strictly reduces the minimum recorded distance to the
    target, the update resets both the attempt count and the tick
    budget. *)
Definition specResetOnProgress (m : t) (env : Env) : Prop :=
  forall (target : Pos) (recorded : Q),
    scoutTarget m = Some target ->
    scoutMinDistance m = Some recorded ->
    (nearestDistance (currentScouts m env) target < recorded)%Q ->
    let m' := snd (fst (_onAiUpdate m env)) in
    attemptsOnCurrentTarget m' = 0
    /\ scoutTargetRefreshedAt m' = currentTick env.

End WithOps.

End ScoutingMission.

(** ** The tick of the bot, as far as production is concerned (bot.ts) *)

Module Bot.

(** The tally of requested unit types maps each requested type to the
    priorities of its requesters. *)
Definition addName (priority : Q) (tally : gmap string (list Q)) (unitName : string)
    : gmap string (list Q) :=
  <[unitName := default [] (tally !! unitName) ++ [priority]]> tally.

Definition addRequest (tally : gmap string (list Q)) (action : MissionAction.t)
    : gmap string (list Q) :=
  match action with
  | MissionAction.RequestUnits unitNames priority =>
      fold_left (addName priority) unitNames tally
  | _ => tally
  end.

(** Modelled from the spec: [MissionController.getRequestedUnitTypes]
    (missionController.ts is not among the sources) aggregates the
    pending RequestUnits actions — the actions that the missions
    returned on the controller's last update —, grouped by type and
    weighted by requester priority. *)
Definition getRequestedUnitTypes (pending : list MissionAction.t) : gmap string (list Q) :=
  fold_left addRequest pending ∅.

(** The type is in the tally, with that priority among its weights. *)
Definition requested (tally : gmap string (list Q)) (unitName : string) (priority : Q)
    : Prop :=
  exists priorities, tally !! unitName = Some priorities /\ In priority priorities.

(** The bot: [matchAwareness] is set by [onGameStart], as is
    [tickRatio] ([undefined] before); [pendingActions] are the actions
    that the missions of the controller returned on its last update. *)
Record t := mkBot {
  hasMatchAwareness : bool;
  tickRatio : option Z;
  pendingActions : list MissionAction.t
}.

(** [tick % divisor === 0] on a tick counter: the remainder is [NaN]
    when the divisor is [undefined] or [0]. *)
Definition divides (divisor : option Z) (tick : Z) : bool :=
  match divisor with
  | Some d => if d =? 0 then false else Z.rem tick d =? 0
  | None => false
  end.

(** [SupalosaBot.onGameTick], as far as production is concerned:
    [missionActions] are the actions that the missions return if
    [missionController.onAiUpdate] runs on this tick.  The result is
    the bot and the [unitTypeRequests] handed to
    [queueController.onAiUpdate], [None] when the queue controller is
    not called on this tick. *)
Definition onGameTick (bot : t) (currentTick : Z) (missionActions : list MissionAction.t)
    : t * option (gmap string (list Q)) :=
  if negb (hasMatchAwareness bot) then (bot, None)
  else if divides (tickRatio bot) currentTick then
    let bot1 :=
      if divides (Some 3) currentTick
      then {| hasMatchAwareness := hasMatchAwareness bot;
              tickRatio := tickRatio bot;
              pendingActions := missionActions |}
      else bot in
    (bot1, Some (getRequestedUnitTypes (pendingActions bot1)))
  else (bot, None).

(** The last clause of the claim about ground units, in its words:
    priority 0 means that the unit is never built — no type governed by
    [BasicGroundUnit] is among the unit types that the bot asks the
    queue controller to build. *)
Definition specNeverBuilt (unitTypeRequests : gmap string (list Q)) : Prop :=
  forall (unitName : string) (u : BuildingRules.BasicGroundUnit),
    BuildingRules.rulesFor BuildingRules.BUILDING_NAME_TO_RULES unitName
    = Some (BuildingRules.GroundUnit u) ->
    unitTypeRequests !! unitName = None.

End Bot.

(** ** An implementation of the parameters, for running the embedding *)

Module Concrete.

(** A square root on rationals: exact on [n / d] when [n * d] is a
    perfect square, rounded down to a multiple of [1 / d] otherwise. *)
Definition sqrtQ (q : Q) : Q := Z.sqrt (Qnum q * Z.pos (Qden q)) # Qden q.

(** Truncated series; exact at [0]. *)
Definition cosQ (a : Q) : Q := (1 - a * a / 2 + a * a * a * a / 24)%Q.
Definition sinQ (a : Q) : Q := (a - a * a * a / 6 + a * a * a * a * a / 120)%Q.

#[export] Instance math : MathOps :=
  {| Math_sqrt := sqrtQ; Math_cos := cosQ; Math_sin := sinQ; Math_PI := 355 # 113 |}.

#[export] Instance map : MapOps :=
  {| getDistanceBetweenPoints := fun a b => euclid (vx a) (vy a) (vx b) (vy b);
     getDistanceBetweenUnits := fun a b =>
       euclid (inject_Z (tile_rx a)) (inject_Z (tile_ry a))
              (inject_Z (tile_rx b)) (inject_Z (tile_ry b));
     getDistanceBetweenTileAndPoint := fun a b =>
       euclid (inject_Z (fst a)) (inject_Z (snd a))
              (inject_Z (fst b)) (inject_Z (snd b)) |}.

(** A unit with the fields that matter in the scenarios below; it is
    owned by a player, has no weapon data and full health. *)
Definition unitAt (i : Z) (n : string) (x y : Z) (ty : ObjectType)
    (combatant : bool) (zone : MovementZone) : UnitData :=
  {| id := i; name := n; tile_rx := x; tile_ry := y; rules_type := ty;
     rules_name := n; rules_isSelectableCombatant := combatant;
     rules_movementZone := zone; rules_naval := false;
     rules_strength := 100; rules_points := 100; ownedByNeutral := false;
     primaryWeapon_maxRange := None; secondaryWeapon_maxRange := None;
     stance_deployed := false; attackState_justFired := false |}.

Definition point (x y : Z) : Vector2 := {| vx := inject_Z x; vy := inject_Z y |}.

(** *** Attack mission: a better candidate once the lock has expired

    The mission locked the target (10, 10) at tick 100 with score 5 and
    its tank stands there; at tick 400 a hostile tank is still reported
    around the locked target, while two hostile buildings stand around
    the candidate (40, 50), 50 away.  The squad keeps its attack area
    and returns no action of its own. *)
Definition lockedMission : AttackMission.t :=
  {| AttackMission.radius := 10;
     AttackMission.attackArea := point 10 10;
     AttackMission.hasGameApi := true;
     AttackMission.units := [unitAt 1 "MTNK" 10 10 Vehicle true OtherZone];
     AttackMission.lastTargetSeenAt := 100;
     AttackMission.lastTargetUpdateTime := 100;
     AttackMission.currentTargetLockTime := 100;
     AttackMission.recentTargets := [point 10 10];
     AttackMission.currentTargetScore := 5;
     AttackMission.lastBuildingSearchTime := 0;
     AttackMission.currentSearchRadius := 20 |}.

Definition lockedAwareness : AttackMission.Awareness :=
  fun p _ =>
    if Qeq_bool (vx p) 40 && Qeq_bool (vy p) 50
    then [Some (unitAt 7 "NAPOWR" 40 51 Building false OtherZone);
          Some (unitAt 8 "NAREFN" 41 50 Building false OtherZone)]
    else if Qeq_bool (vx p) 10 && Qeq_bool (vy p) 10
    then [Some (unitAt 9 "HTNK" 12 10 Vehicle true OtherZone)]
    else [].

Definition lockedEnv : AttackMission.Env :=
  {| AttackMission.currentTick := 400;
     AttackMission.hostilesNearPoint2d := lockedAwareness;
     AttackMission.squad_onAiUpdate := fun area => (MissionAction.noop, area) |}.

(** *** A fleet on an open sea

    A map of 120 by 120 water tiles, found at integer coordinates only;
    the mission owns exactly the naval units of [fleet]. *)
Definition openSea (w h : Z) : Q -> Q -> option TerrainType :=
  fun x y =>
    if Qeq_bool x (inject_Z (Qfloor x)) && Qeq_bool y (inject_Z (Qfloor y))
       && Qle_bool 0 x && Qltb x (inject_Z w) && Qle_bool 0 y && Qltb y (inject_Z h)
    then Some WaterTerrain else None.

Definition fleetEnv (tick : Z) (fleet : list UnitData) (com : option Vector2)
    (maxD : option Q) (hostiles : list UnitData) : SquadEnv.t :=
  {| SquadEnv.currentTick := tick;
     SquadEnv.mapSize := {| width := 120; height := 120 |};
     SquadEnv.getTile := openSea 120 120;
     SquadEnv.missionUnitIds := List.map id fleet;
     SquadEnv.navalUnitIds := List.map id fleet;
     SquadEnv.getUnitData := fun i => List.find (fun u => id u =? i) fleet;
     SquadEnv.centerOfMass := com;
     SquadEnv.maxDistance := maxD;
     SquadEnv.hostilesNearPoint := fun _ _ _ => hostiles;
     SquadEnv.startLocation := point 5 5;
     SquadEnv.random := fun _ _ => 0%Q |}.

Definition destroyer (i x y : Z) : UnitData :=
  unitAt i "DEST" x y Vehicle true AmphibiousDestroyer.

(** *** Naval mission: a scattered fleet while preparing

    Three destroyers in a line, 50 apart; the centre of mass is the
    middle one, so two of three are farther than 20 from it. *)
Definition scatteredFleet : list UnitData :=
  [destroyer 1 10 60; destroyer 2 60 60; destroyer 3 110 60].

Definition scatteredEnv : NavalMission.Env :=
  {| NavalMission.squadEnv := fleetEnv 300 scatteredFleet (Some (point 60 60)) (Some 50%Q) [];
     NavalMission.now := 1700000000500;
     NavalMission.selfUnits := ["GAYARD"]%string;
     NavalMission.visibleEnemies := [];
     NavalMission.enemyStartLocations := [point 100 100] |}.

(** *** Scouting: a scout lost, and the next one closing in

    On a map of hidden land tiles, a mission of priority 10 is given
    the target (30, 30) at tick 100 while its dog stands at (10, 30);
    at tick 140 the dog is ordered to the target, 20 away; at tick 150
    the dog is gone.  At tick 200 a new dog stands at (20, 30), 10 from
    the target. *)
Definition scoutingEnv (tick : Z) (dogs : list ScoutingMission.Pos)
    (next : option ScoutingMission.PrioritisedScoutTarget) : ScoutingMission.Env :=
  {| ScoutingMission.currentTick := tick;
     ScoutingMission.missionUnits :=
       List.map (fun tile => {| ScoutingMission.scoutId := 1;
                                ScoutingMission.scoutType := "DOG";
                                ScoutingMission.scoutTile := tile |}) dogs;
     ScoutingMission.overallVisibility := 3 # 10;
     ScoutingMission.mapSize := {| width := 120; height := 120 |};
     ScoutingMission.getTile := fun p =>
       if (0 <=? fst p) && (fst p <? 120) && (0 <=? snd p) && (snd p <? 120)
       then Some {| ScoutingMission.isWater := false; ScoutingMission.isVisible := false |}
       else None;
     ScoutingMission.newScoutTarget := next |}.

Definition scoutLost : list ScoutingMission.Env :=
  [ scoutingEnv 100 [(10, 30)]
      (Some {| ScoutingMission.asVector2 := (30, 30);
               ScoutingMission.isPermanent := false |});
    scoutingEnv 140 [(10, 30)] None;
    scoutingEnv 150 [] None ].

Definition scoutBack : ScoutingMission.Env := scoutingEnv 200 [(20, 30)] None.

(** *** A scouting mission without a scout, and the bot's next tick

    The bot runs at a tick ratio of 3 (15 game ticks per second, 5 bot
    actions per second); at tick 30 its only mission is a fresh
    scouting mission of priority 10 that owns no unit. *)
Definition startedBot : Bot.t :=
  {| Bot.hasMatchAwareness := true; Bot.tickRatio := Some 3; Bot.pendingActions := [] |}.

Definition firstScoutAction : MissionAction.t :=
  match fst (fst (ScoutingMission._onAiUpdate (ScoutingMission.new 10)
                    (scoutingEnv 30 [] None))) with
  | ScoutingMission.Returned action => action
  | ScoutingMission.Thrown => MissionAction.noop
  end.

(** *** A squad whose centre of mass falls between tiles

    Four destroyers in two pairs, 100 apart: the centre of mass
    (60.5, 60) is no tile of the map and the farthest unit is 50.5 away
    from it.  The squad is gathering and commanded last at tick 50. *)
Definition splitFleet : list UnitData :=
  [destroyer 1 10 60; destroyer 2 11 60; destroyer 3 110 60; destroyer 4 111 60].

Definition splitFleetEnv : SquadEnv.t :=
  fleetEnv 100 splitFleet (Some {| vx := 121 # 2; vy := 60 |}) (Some (101 # 2)) [].

Definition gatheringSquad : NavalSquad.t :=
  NavalSquad.set_lastStuckCheck 90
    (NavalSquad.set_lastCommand 50 (NavalSquad.new (Some (point 100 100)))).

Definition gatheringBasicSquad : NavalSquadBasic.t :=
  NavalSquadBasic.set_lastCommand 50 (NavalSquadBasic.new (Some (point 100 100))).

(** *** A stuck destroyer between two command ticks

    The squad commanded last at tick 100 and checked for stuck units
    last at tick 40; its only destroyer was sampled twice at (10, 60)
    and is still there at tick 105. *)
Definition stuckFleet : list UnitData := [destroyer 1 10 60].

Definition stuckEnv : SquadEnv.t :=
  fleetEnv 105 stuckFleet (Some (point 10 60)) None [].

Definition stuckSquad : NavalSquad.t :=
  NavalSquad.set_unitPositionHistory
    {[ 1 := [ {| NavalSquad.pos_x := 10; NavalSquad.pos_y := 60;
                 NavalSquad.timestamp := 0 |};
              {| NavalSquad.pos_x := 10; NavalSquad.pos_y := 60;
                 NavalSquad.timestamp := 40 |} ] ]}
    (NavalSquad.set_lastStuckCheck 40
       (NavalSquad.set_lastCommand 100 (NavalSquad.new (Some (point 100 100))))).

(** *** A gathering squad on the scattered fleet, at a command tick *)
Definition scatteredSquadEnv : SquadEnv.t :=
  fleetEnv 100 scatteredFleet (Some (point 60 60)) (Some 50%Q) [].

(** *** A building in range and a tank far away

    A destroyer without weapon data (range 5) at (60, 60), a hostile
    power plant next to it and a hostile tank 12 tiles away. *)
Definition pickingUnit : UnitData := destroyer 1 60 60.

Definition pickingHostiles : list UnitData :=
  [unitAt 7 "NAPOWR" 61 60 Building false OtherZone;
   unitAt 8 "HTNK" 72 60 Vehicle true OtherZone].

(** The same destroyer and power plant, the tank 20 tiles away. *)
Definition distantHostiles : list UnitData :=
  [unitAt 7 "NAPOWR" 61 60 Building false OtherZone;
   unitAt 8 "HTNK" 80 60 Vehicle true OtherZone].

(** *** An idle destroyer near the edge of the map

    The squad is attacking and commanded last at tick 900; its only
    destroyer, unit 360, stands at (110, 60) on the map of width 120 and
    engaged last at tick 0; the only hostile in the scan is a tank 20
    tiles away, beyond the reach of any positive weight. *)
Definition idleFleet : list UnitData := [destroyer 360 110 60].

Definition idleEnv : SquadEnv.t :=
  fleetEnv 1000 idleFleet (Some (point 110 60)) None
    [unitAt 8 "HTNK" 90 60 Vehicle true OtherZone].

Definition idleSquad : NavalSquad.t :=
  NavalSquad.set_unitCombatStates
    {[ 360 := {| NavalSquad.lastEngageTime := 0;
                 NavalSquad.combatLastPosition := None |} ]}
    (NavalSquad.set_state NavalSquad.Attacking
       (NavalSquad.set_lastStuckCheck 990
          (NavalSquad.set_lastCommand 900 (NavalSquad.new (Some (point 100 60)))))).

End Concrete.

(* ================================================================== *)
(** * Part II.  Properties                                             *)
(* ================================================================== *)

(** ** Numbers *)

Lemma Qltb_lt (a b : Q) : Qltb a b = true <-> (a < b)%Q.
Proof.
  unfold Qltb. rewrite negb_true_iff.
  split; intro Hlt.
  - apply Qnot_le_lt. intro Hle. apply Qle_bool_iff in Hle. congruence.
  - destruct (Qle_bool b a) eqn:E; [|reflexivity].
    apply Qle_bool_iff in E. apply Qle_not_lt in E. contradiction.
Qed.

Lemma Qltb_ge (a b : Q) : Qltb a b = false <-> (b <= a)%Q.
Proof.
  unfold Qltb. rewrite negb_false_iff. apply Qle_bool_iff.
Qed.

Lemma Qleb_le (a b : Q) : Qleb a b = true <-> (a <= b)%Q.
Proof. apply Qle_bool_iff. Qed.

(** ** Ground units: the priority of the rule and the requests of the missions *)

Lemma getPriority_zero (u : BuildingRules.BasicGroundUnit) (selfUnits : list string)
    (technoName : string) :
  BuildingRules.getPriority u selfUnits technoName = 0%Q.
Proof.
  unfold BuildingRules.getPriority.
  destruct (BuildingRules.maxGlobalCount u) as [cap|]; [|reflexivity].
  destruct (cap <=? _); reflexivity.
Qed.

(** *** The tally of requested unit types *)

Lemma addName_requested (priority : Q) (tally : gmap string (list Q))
    (added unitName : string) (p : Q) :
  Bot.requested (Bot.addName priority tally added) unitName p
  <-> Bot.requested tally unitName p \/ (unitName = added /\ p = priority).
Proof.
  unfold Bot.requested, Bot.addName.
  destruct (decide (added = unitName)) as [->|Hne].
  - split.
    + intros (ps & Hps & Hin). rewrite lookup_insert_eq in Hps. injection Hps as <-.
      apply in_app_or in Hin. destruct Hin as [Hin | [<- | []]].
      * left. destruct (tally !! unitName) as [old|]; [|destruct Hin].
        exists old. split; [reflexivity | exact Hin].
      * right. split; reflexivity.
    + intros [(ps & Hps & Hin) | [_ ->]].
      * rewrite lookup_insert_eq, Hps. eexists. split; [reflexivity|].
        apply in_or_app. left. exact Hin.
      * rewrite lookup_insert_eq. eexists. split; [reflexivity|].
        apply in_or_app. right. left. reflexivity.
  - split.
    + intros (ps & Hps & Hin). rewrite lookup_insert_ne in Hps by exact Hne.
      left. exists ps. split; assumption.
    + intros [(ps & Hps & Hin) | [-> _]]; [|congruence].
      exists ps. rewrite lookup_insert_ne by exact Hne. split; assumption.
Qed.

Lemma addNames_requested (priority : Q) (unitNames : list string)
    (tally : gmap string (list Q)) (unitName : string) (p : Q) :
  Bot.requested (fold_left (Bot.addName priority) unitNames tally) unitName p
  <-> Bot.requested tally unitName p \/ (In unitName unitNames /\ p = priority).
Proof.
  revert tally. induction unitNames as [|added rest IH]; intro tally; cbn [fold_left].
  - split; [intro Hr; left; exact Hr | intros [Hr | [[] _]]; exact Hr].
  - rewrite IH, addName_requested. cbn [In]. split.
    + intros [[Hr | [-> ->]] | [Hin ->]].
      * left. exact Hr.
      * right. split; [left; reflexivity | reflexivity].
      * right. split; [right; exact Hin | reflexivity].
    + intros [Hr | [[<- | Hin] ->]].
      * left. left. exact Hr.
      * left. right. split; reflexivity.
      * right. split; [exact Hin | reflexivity].
Qed.

Lemma addRequest_requested (tally : gmap string (list Q)) (action : MissionAction.t)
    (unitName : string) (p : Q) :
  Bot.requested (Bot.addRequest tally action) unitName p
  <-> Bot.requested tally unitName p
      \/ exists unitNames, action = MissionAction.RequestUnits unitNames p
                           /\ In unitName unitNames.
Proof.
  destruct action as [|unitNames priority|reason|target|center searchRadius];
    cbn [Bot.addRequest];
    try (split; [intro Hr; left; exact Hr
                | intros [Hr | (names & Heq & _)]; [exact Hr | discriminate]]).
  rewrite addNames_requested. split.
  - intros [Hr | [Hin ->]]; [left; exact Hr|].
    right. exists unitNames. split; [reflexivity | exact Hin].
  - intros [Hr | (names & Heq & Hin)]; [left; exact Hr|].
    injection Heq as <- <-. right. split; [exact Hin | reflexivity].
Qed.

Lemma addRequests_requested (pending : list MissionAction.t)
    (tally : gmap string (list Q)) (unitName : string) (p : Q) :
  Bot.requested (fold_left Bot.addRequest pending tally) unitName p
  <-> Bot.requested tally unitName p
      \/ exists unitNames, In (MissionAction.RequestUnits unitNames p) pending
                           /\ In unitName unitNames.
Proof.
  revert tally. induction pending as [|action rest IH]; intro tally; cbn [fold_left].
  - split; [intro Hr; left; exact Hr | intros [Hr | (names & [] & _)]; exact Hr].
  - rewrite IH, addRequest_requested. cbn [In]. split.
    + intros [[Hr | (names & -> & Hin)] | (names & Hin' & Hin)].
      * left. exact Hr.
      * right. exists names. split; [left; reflexivity | exact Hin].
      * right. exists names. split; [right; exact Hin' | exact Hin].
    + intros [Hr | (names & [-> | Hin'] & Hin)].
      * left. left. exact Hr.
      * left. right. exists names. split; [reflexivity | exact Hin].
      * right. exists names. split; [exact Hin' | exact Hin].
Qed.

(** A type is in the tally with a priority exactly when a pending
    RequestUnits action of that priority names it. *)
Lemma getRequestedUnitTypes_requested (pending : list MissionAction.t)
    (unitName : string) (p : Q) :
  Bot.requested (Bot.getRequestedUnitTypes pending) unitName p
  <-> exists unitNames, In (MissionAction.RequestUnits unitNames p) pending
                        /\ In unitName unitNames.
Proof.
  unfold Bot.getRequestedUnitTypes. rewrite addRequests_requested. split.
  - intros [(ps & Hps & _) | Hex]; [|exact Hex].
    rewrite lookup_empty in Hps. discriminate.
  - intro Hex. right. exact Hex.
Qed.

Section GroundUnitFacts.
Context `{MathOps} `{MapOps}.


End GroundUnitFacts.

Section GroundUnitRun.
Local Existing Instance Concrete.math.
Local Existing Instance Concrete.map.


(** The action of the fresh scouting mission. *)
Lemma firstScoutAction_requests :
  Concrete.firstScoutAction
  = MissionAction.RequestUnits ScoutingMission.landScoutNames 10.
Proof. reflexivity. Qed.


End GroundUnitRun.

(** ** The scout cooldown *)

(** What [maybeCreateMissions] does to the cooldown stamp: once the
    cooldown has elapsed and scout targets exist, the stamp is left
    alone when the mission is added and set to the current tick when
    [addMission] refuses it. *)
Lemma maybeCreateMissions_stamp (f : ScoutingMissionFactory.t) (tick : Z)
    (missions : list MissionController.Mission) :
  ScoutingMissionFactory.lastScoutAt f + ScoutingMissionFactory.SCOUT_COOLDOWN_TICKS <= tick ->
  let '(added, _) := MissionController.addMission missions ScoutingMissionFactory.globalScout in
  ScoutingMissionFactory.lastScoutAt
    (fst (ScoutingMissionFactory.maybeCreateMissions f tick true missions))
  = if added then ScoutingMissionFactory.lastScoutAt f else tick.
Proof.
  intro Hcool. unfold ScoutingMissionFactory.maybeCreateMissions.
  destruct (tick <? _) eqn:E; [apply Z.ltb_lt in E; lia|].
  destruct (MissionController.addMission missions ScoutingMissionFactory.globalScout)
    as [[|] missions']; reflexivity.
Qed.

(** At tick 900 a fresh factory, stamped -300, adds the scouting
    mission to an empty controller and keeps its stamp. *)
Lemma maybeCreateMissions_stamp_witness :
  ScoutingMissionFactory.lastScoutAt
    (fst (ScoutingMissionFactory.maybeCreateMissions ScoutingMissionFactory.new 900 true []))
  = ScoutingMissionFactory.lastScoutAt ScoutingMissionFactory.new.
Proof.
  apply (maybeCreateMissions_stamp ScoutingMissionFactory.new 900 []).
  vm_compute; discriminate.
Defined.

(** C5 (the code at a failing input).  A fresh factory creates the
    scouting mission at tick 900 and leaves its stamp at -300; when the
    mission has disbanded and been removed, the factory creates it again
    at tick 903, inside the 300 ticks that follow the creation. *)
Theorem scout_created_twice_within_cooldown :
  let '(f1, missions1) :=
    ScoutingMissionFactory.maybeCreateMissions ScoutingMissionFactory.new 900 true [] in
  let '(f2, missions2) :=
    ScoutingMissionFactory.maybeCreateMissions f1 903 true
      (MissionController.removeMission missions1 "globalScout") in
  missions1 = [ScoutingMissionFactory.globalScout]
  /\ ScoutingMissionFactory.lastScoutAt f1 = -300
  /\ MissionController.removeMission missions1 "globalScout" = []
  /\ missions2 = [ScoutingMissionFactory.globalScout]
  /\ 903 < 900 + ScoutingMissionFactory.SCOUT_COOLDOWN_TICKS.
Proof. vm_compute. repeat split; reflexivity. Qed.

(** ** The timeouts of the naval mission *)

(** The duration test compares the tick counter with the wall clock
    stored at construction: it cannot fire while the tick counter is
    below that wall-clock value plus the limit. *)
Lemma shouldCancelMission_duration_never (m : NavalMission.t) (tick dateNow : Z) :
  tick <= NavalMission.missionStartTime m + NavalMission.MAX_MISSION_DURATION ->
  NavalMission.shouldCancelMission m tick dateNow
  = (NavalMission.MAX_NO_PROGRESS_TIME <? dateNow - NavalMission.lastProgressTime m).
Proof.
  intro Hle. unfold NavalMission.shouldCancelMission.
  destruct (NavalMission.MAX_MISSION_DURATION <? _) eqn:E.
  - apply Z.ltb_lt in E. lia.
  - destruct (NavalMission.MAX_NO_PROGRESS_TIME <? _); reflexivity.
Qed.

(** C3 (the code at failing inputs).  A mission constructed when the
    wall clock reads 1700000000000 ms: (a) at tick 5000, far more than
    1800 ticks after its start, with progress recorded 100 ms ago, it
    is not cancelled; (b) at tick 30, having never moved and never
    waited 600 ticks, it is cancelled because the wall clock is more
    than 600 past the initial [lastProgressTime = 0]. *)
Theorem shouldCancelMission_wall_clock :
  let created := 1700000000000 in
  let m := NavalMission.new created (Concrete.point 5 5) (Concrete.point 60 60) in
  NavalMission.shouldCancelMission
    (NavalMission.set_lastProgressTime (created + 400000) m) 5000 (created + 400100) = false
  /\ NavalMission.shouldCancelMission m 30 (created + 2000) = true.
Proof. vm_compute. split; reflexivity. Qed.

(** ** Target switching of the attack mission *)

Section AttackMissionFacts.
Context `{MathOps}.



(** The predicate [shouldSwitchTarget], which nothing calls, answers
    yes exactly when the lock has lasted 150 ticks or nothing is
    reported around the locked target any more, the candidate's score
    is computed and exceeds the current score times 1.3, and the
    candidate lies outside the exclusion box of every remembered
    target. *)
Lemma shouldSwitchTarget_rule (m : AttackMission.t) (newTarget : Vector2)
    (aw : AttackMission.Awareness) (currentTick : Z) :
  AttackMission.shouldSwitchTarget m newTarget aw currentTick = Some true
  <-> (AttackMission.TARGET_LOCK_DURATION
         <= currentTick - AttackMission.currentTargetLockTime m
       \/ aw (AttackMission.attackArea m) (AttackMission.radius m) = [])
      /\ (exists newScore,
            AttackMission.evaluateTarget m newTarget aw = Some newScore
            /\ (AttackMission.currentTargetScore m * (13 # 10) < newScore)%Q)
      /\ Forall (fun target => AttackMission.nearRecent newTarget target = false)
                (AttackMission.recentTargets m).
Proof.
  unfold AttackMission.shouldSwitchTarget.
  assert (Hguard :
    (currentTick - AttackMission.currentTargetLockTime m <? AttackMission.TARGET_LOCK_DURATION)
    && (0 <? Z.of_nat (length (aw (AttackMission.attackArea m) (AttackMission.radius m))))
    = false
    <-> (AttackMission.TARGET_LOCK_DURATION
           <= currentTick - AttackMission.currentTargetLockTime m
         \/ aw (AttackMission.attackArea m) (AttackMission.radius m) = [])).
  { rewrite andb_false_iff, Z.ltb_ge, Z.ltb_ge.
    destruct (aw (AttackMission.attackArea m) (AttackMission.radius m)); cbn [length].
    - split; [right; reflexivity | right; lia].
    - split; intros [Hl|Hr]; try (left; exact Hl); try lia; discriminate. }
  assert (Hrecent :
    existsb (AttackMission.nearRecent newTarget) (AttackMission.recentTargets m) = false
    <-> Forall (fun target => AttackMission.nearRecent newTarget target = false)
               (AttackMission.recentTargets m)).
  { induction (AttackMission.recentTargets m) as [|r rs IH]; cbn.
    - split; [constructor | reflexivity].
    - rewrite orb_false_iff, IH. split.
      + intros [Hr Hrs]. constructor; assumption.
      + intro Hall. inversion Hall; subst. split; assumption. }
  assert (Hscore : forall a b : Q,
            Qltb (a * (1 + AttackMission.TARGET_SWITCH_MIN_IMPROVEMENT)) b = true
            <-> (a * (13 # 10) < b)%Q).
  { intros a b. rewrite Qltb_lt.
    assert (Heq : (a * (1 + AttackMission.TARGET_SWITCH_MIN_IMPROVEMENT) == a * (13 # 10))%Q)
      by (unfold AttackMission.TARGET_SWITCH_MIN_IMPROVEMENT; ring).
    rewrite Heq. reflexivity. }
  destruct ((currentTick - _ <? _) && _) eqn:Eguard.
  - split; [discriminate|]. intros [Hg _]. apply Hguard in Hg. congruence.
  - destruct (AttackMission.evaluateTarget m newTarget aw) as [newScore|].
    + destruct (existsb _ _) eqn:Erecent.
      * split; [discriminate|]. intros (_ & _ & Hall). apply Hrecent in Hall. congruence.
      * split.
        -- intro Hs. injection Hs as Hs. apply Hscore in Hs.
           split; [apply Hguard; reflexivity|]. split; [|apply Hrecent; reflexivity].
           exists newScore. split; [reflexivity | exact Hs].
        -- intros (_ & (score & Heq & Hs) & _). injection Heq as <-.
           apply Hscore in Hs. rewrite Hs. reflexivity.
    + split; [discriminate|]. intros (_ & (score & Heq & _) & _). discriminate.
Qed.

End AttackMissionFacts.

(** The search for buildings writes the search radius and the time of
    the search, nothing else. *)
Lemma searchEnemyBuildings_frame (m : AttackMission.t) (env : AttackMission.Env) :
  let m' := snd (AttackMission.searchEnemyBuildings m env) in
  AttackMission.attackArea m' = AttackMission.attackArea m
  /\ AttackMission.currentTargetLockTime m' = AttackMission.currentTargetLockTime m
  /\ AttackMission.recentTargets m' = AttackMission.recentTargets m
  /\ AttackMission.currentTargetScore m' = AttackMission.currentTargetScore m
  /\ AttackMission.lastTargetUpdateTime m' = AttackMission.lastTargetUpdateTime m
  /\ AttackMission.lastTargetSeenAt m' = AttackMission.lastTargetSeenAt m.
Proof.
  unfold AttackMission.searchEnemyBuildings.
  destruct (AttackMission.SEARCH_EXPAND_INTERVAL <=? _);
    destruct (AttackMission.getCenterOfMass _); repeat split.
Qed.

(** An update in the Attacking state leaves the squad's attack area as
    the squad's own update left it, and writes neither the lock time,
    nor the memory, nor the score. *)
Lemma handleAttackingState_frame (m : AttackMission.t) (env : AttackMission.Env) :
  let m' := snd (AttackMission.handleAttackingState m env) in
  AttackMission.attackArea m'
  = snd (AttackMission.squad_onAiUpdate env (AttackMission.attackArea m))
  /\ AttackMission.currentTargetLockTime m' = AttackMission.currentTargetLockTime m
  /\ AttackMission.recentTargets m' = AttackMission.recentTargets m
  /\ AttackMission.currentTargetScore m' = AttackMission.currentTargetScore m
  /\ AttackMission.lastTargetUpdateTime m' = AttackMission.lastTargetUpdateTime m
  /\ AttackMission.lastTargetSeenAt m' = AttackMission.lastTargetSeenAt m.
Proof.
  unfold AttackMission.handleAttackingState.
  destruct (AttackMission.squad_onAiUpdate env (AttackMission.attackArea m))
    as [update area].
  destruct (negb (AttackMission.isNoop update)); [repeat split|].
  destruct (negb _ && _); [|repeat split].
  pose proof (searchEnemyBuildings_frame (AttackMission.set_attackArea area m) env)
    as Hframe.
  cbv zeta in Hframe. exact Hframe.
Qed.

Section AttackMissionRun.
Local Existing Instance Concrete.math.

(** C1 (the code at a failing input).  An update in the Attacking state
    leaves the attack area as the squad's own update left it and writes
    neither the lock time, nor the memory of visited targets, nor the
    current score: no candidate is evaluated and none replaces the
    locked target.  At tick 400 the mission that locked (10, 10) at
    tick 100 with score 5 has a candidate (40, 50) for which the three
    conditions of the rule hold — the lock is 300 ticks old, the
    candidate scores 40/3 > 5 * 1.3, and it is 30 and 40 away from the
    only remembered target — and for which [shouldSwitchTarget] would
    answer yes; the update returns no action and changes nothing, so
    the locked target is still (10, 10). *)
Theorem attacking_state_never_switches :
  (forall (m : AttackMission.t) (env : AttackMission.Env),
      let m' := snd (AttackMission.handleAttackingState m env) in
      AttackMission.attackArea m'
      = snd (AttackMission.squad_onAiUpdate env (AttackMission.attackArea m))
      /\ AttackMission.currentTargetLockTime m' = AttackMission.currentTargetLockTime m
      /\ AttackMission.recentTargets m' = AttackMission.recentTargets m
      /\ AttackMission.currentTargetScore m' = AttackMission.currentTargetScore m)
  /\ AttackMission.specSwitchRule Concrete.lockedMission (Concrete.point 40 50)
       Concrete.lockedAwareness 400
  /\ (exists newScore,
        AttackMission.evaluateTarget Concrete.lockedMission (Concrete.point 40 50)
          Concrete.lockedAwareness = Some newScore
        /\ (newScore == 40 # 3)%Q)
  /\ AttackMission.shouldSwitchTarget Concrete.lockedMission (Concrete.point 40 50)
       Concrete.lockedAwareness 400 = Some true
  /\ AttackMission.handleAttackingState Concrete.lockedMission Concrete.lockedEnv
     = (MissionAction.noop, Concrete.lockedMission)
  /\ AttackMission.attackArea Concrete.lockedMission = Concrete.point 10 10
  /\ ~ AttackMission.specTargetSwitch Concrete.lockedMission Concrete.lockedEnv
         (Concrete.point 40 50).
Proof.
  assert (Hscore : AttackMission.evaluateTarget Concrete.lockedMission (Concrete.point 40 50)
                     Concrete.lockedAwareness = Some (2000 # 150)%Q)
    by (vm_compute; reflexivity).
  assert (Hrule : AttackMission.specSwitchRule Concrete.lockedMission (Concrete.point 40 50)
                    Concrete.lockedAwareness 400).
  { split; [vm_compute; discriminate|]. split.
    - exists (2000 # 150)%Q. split; [exact Hscore | vm_compute; reflexivity].
    - constructor; [vm_compute; reflexivity | constructor]. }
  assert (Hupdate : AttackMission.handleAttackingState Concrete.lockedMission
                      Concrete.lockedEnv
                    = (MissionAction.noop, Concrete.lockedMission))
    by (vm_compute; reflexivity).
  split.
  { intros m env. destruct (handleAttackingState_frame m env) as (Ha & Hl & Hr & Hs & _).
    cbv zeta. repeat split; assumption. }
  split; [exact Hrule|].
  split; [exists (2000 # 150)%Q; split; [exact Hscore | reflexivity]|].
  split; [vm_compute; reflexivity|].
  split; [exact Hupdate|].
  split; [reflexivity|].
  intros [_ Hswitch]. specialize (Hswitch Hrule).
  rewrite Hupdate in Hswitch. vm_compute in Hswitch. discriminate.
Qed.

End AttackMissionRun.

(** ** The scatter check of the naval mission *)

Section NavalMissionFacts.
Context `{MathOps} `{MapOps}.

(** A counting loop counts the elements that pass its test. *)
Lemma count_fold {A} (p : A -> bool) (l : list A) (start : Z) :
  fold_left (fun n a => if p a then n + 1 else n) l start
  = start + Z.of_nat (length (List.filter p l)).
Proof.
  revert start. induction l as [|a l IH]; intro start; cbn.
  - lia.
  - rewrite IH. destruct (p a); cbn [length]; lia.
Qed.

Lemma scatteredUnits_count (c : Vector2) (units : list UnitData) :
  NavalMission.scatteredUnits c units
  = Z.of_nat (length (List.filter (NavalMission.isScattered c) units)).
Proof.
  unfold NavalMission.scatteredUnits.
  rewrite (count_fold (NavalMission.isScattered c) units 0). lia.
Qed.

(** [checkUnitScatter] answers yes exactly when the mission has at
    least 2 naval units, a centre of mass, and strictly more than 60% of
    the naval units farther than 20 from it. *)
Lemma checkUnitScatter_iff (env : NavalMission.Env) (units : list UnitData) :
  NavalMission.checkUnitScatter env units = true
  <-> (2 <= length units)%nat
      /\ exists c,
           SquadEnv.centerOfMass (NavalMission.squadEnv env) = Some c
           /\ ((6 # 10)
               < inject_Z (Z.of_nat (length (List.filter (NavalMission.isScattered c) units)))
                 / inject_Z (Z.of_nat (length units)))%Q.
Proof.
  unfold NavalMission.checkUnitScatter.
  destruct (length units <? 2)%nat eqn:Elen.
  - apply Nat.ltb_lt in Elen. split; [discriminate | intros [Hge _]; lia].
  - apply Nat.ltb_ge in Elen.
    destruct (SquadEnv.centerOfMass (NavalMission.squadEnv env)) as [c|].
    + rewrite Qltb_lt, scatteredUnits_count. unfold NavalMission.FORCE_GATHER_THRESHOLD.
      split.
      * intro Hlt. split; [exact Elen|]. exists c. split; [reflexivity | exact Hlt].
      * intros (_ & c' & Hc' & Hlt). injection Hc' as <-. exact Hlt.
    + split; [discriminate | intros (_ & c & Hc & _); discriminate].
Qed.

(** Aiming the squad and updating it writes the squad, nothing else of
    the mission. *)
Lemma aimed_update_progress (m : NavalMission.t) (target : Vector2)
    (env : NavalMission.Env) (batcher : Batcher.ActionBatcher) :
  NavalMission.lastProgressTime
    (snd (fst (NavalMission.updateSquad (NavalMission.aimSquad target m) env batcher)))
  = NavalMission.lastProgressTime m
  /\ NavalMission.lastPosition
       (snd (fst (NavalMission.updateSquad (NavalMission.aimSquad target m) env batcher)))
     = NavalMission.lastPosition m.
Proof.
  unfold NavalMission.updateSquad.
  destruct (NavalSquad.onAiUpdate _ _ _) as [[action squad'] batcher']. split; reflexivity.
Qed.

(** A mission that has recorded neither a position nor progress
    disbands on the first update that finds a centre of mass: the
    position is recorded, and the wall clock is more than 600 past the
    initial [lastProgressTime = 0]. *)
Lemma first_sighting_disbands (m : NavalMission.t) (env : NavalMission.Env)
    (batcher : Batcher.ActionBatcher) (c : Vector2) :
  NavalMission.lastProgressTime m = 0 ->
  NavalMission.lastPosition m = None ->
  NavalMission.MAX_NO_PROGRESS_TIME < NavalMission.now env ->
  SquadEnv.centerOfMass (NavalMission.squadEnv env) = Some c ->
  NavalMission._onAiUpdate m env batcher
  = (Some (MissionAction.disbandMission None),
     NavalMission.set_lastPosition (Some c) m, batcher).
Proof.
  intros Htime Hpos Hnow Hc.
  unfold NavalMission._onAiUpdate, NavalMission.checkMissionProgress.
  rewrite Hc, Hpos. cbn [fst].
  unfold NavalMission.shouldCancelMission.
  destruct (NavalMission.MAX_MISSION_DURATION <? _); [reflexivity|].
  cbn [NavalMission.lastProgressTime NavalMission.set_lastPosition].
  rewrite Htime.
  replace (NavalMission.MAX_NO_PROGRESS_TIME <? NavalMission.now env - 0) with true
    by (symmetry; apply Z.ltb_lt; lia).
  reflexivity.
Qed.

(** No mission that the controller holds has recorded a position or
    progress: an update without a centre of mass records nothing, and
    an update with one disbands. *)
Lemma live_never_progressed (m : NavalMission.t) :
  NavalMission.live m ->
  NavalMission.lastProgressTime m = 0 /\ NavalMission.lastPosition m = None.
Proof.
  induction 1 as [createdAt rally target | m env batcher Hlive [Htime Hpos] Hnow Hkept].
  - split; reflexivity.
  - destruct (SquadEnv.centerOfMass (NavalMission.squadEnv env)) as [c|] eqn:Hc.
    + rewrite (first_sighting_disbands m env batcher c Htime Hpos Hnow Hc) in Hkept.
      contradiction Hkept. reflexivity.
    + clear Hkept. unfold NavalMission._onAiUpdate. rewrite Hc.
      assert (Haimed : forall m0 target,
                NavalMission.lastProgressTime m0 = 0 ->
                NavalMission.lastPosition m0 = None ->
                NavalMission.lastProgressTime
                  (snd (fst (NavalMission.updateSquad
                               (NavalMission.aimSquad target m0) env batcher))) = 0
                /\ NavalMission.lastPosition
                     (snd (fst (NavalMission.updateSquad
                                  (NavalMission.aimSquad target m0) env batcher))) = None).
      { intros m0 target Ht0 Hp0.
        destruct (aimed_update_progress m0 target env batcher) as [-> ->].
        split; assumption. }
      destruct (NavalMission.state m).
      * unfold NavalMission.preparing, NavalMission.checkUnitScatter. rewrite Hc.
        replace (if (length (SquadEnv.navalUnits (NavalMission.squadEnv env)) <? 2)%nat
                 then false else false) with false
          by (destruct (_ <? _)%nat; reflexivity).
        destruct (flat_map _ _); [|split; assumption].
        destruct (_ || _); apply Haimed; assumption.
      * unfold NavalMission.attacking. rewrite Hc.
        destruct (omap _ _); [|split; assumption].
        destruct (NavalMission.TARGET_UPDATE_INTERVAL <? _); apply Haimed; assumption.
      * apply Haimed; assumption.
Qed.

(** C7 (the code against the claim).  The scatter check itself is as
    claimed: [checkUnitScatter] answers yes exactly when the mission has
    at least 2 naval units, a centre of mass, and strictly more than 60%
    of the naval units farther than 20 from it, so never with fewer than
    2 units or without a centre of mass.  But a mission that the
    controller holds does not re-gather when the check answers yes: the
    update has found a centre of mass, so it records the position and
    returns a disband action before it looks at its state — nothing is
    ordered, and the squad is not aimed at the rally point. *)
Theorem scattered_fleet_disbands (m : NavalMission.t) (env : NavalMission.Env)
    (batcher : Batcher.ActionBatcher) :
  let units := SquadEnv.navalUnits (NavalMission.squadEnv env) in
  NavalMission.live m ->
  NavalMission.MAX_NO_PROGRESS_TIME < NavalMission.now env ->
  (NavalMission.checkUnitScatter env units = true
   <-> (2 <= length units)%nat
       /\ exists c,
            SquadEnv.centerOfMass (NavalMission.squadEnv env) = Some c
            /\ ((6 # 10)
                < inject_Z (Z.of_nat (length (List.filter (NavalMission.isScattered c) units)))
                  / inject_Z (Z.of_nat (length units)))%Q)
  /\ ((length units < 2)%nat \/ SquadEnv.centerOfMass (NavalMission.squadEnv env) = None ->
      NavalMission.checkUnitScatter env units = false)
  /\ (NavalMission.checkUnitScatter env units = true ->
      (exists c,
         SquadEnv.centerOfMass (NavalMission.squadEnv env) = Some c
         /\ NavalMission._onAiUpdate m env batcher
            = (Some (MissionAction.disbandMission None),
               NavalMission.set_lastPosition (Some c) m, batcher))
      /\ NavalMission.squad (snd (fst (NavalMission._onAiUpdate m env batcher)))
         = NavalMission.squad m
      /\ (NavalMission.state m = NavalMission.Preparing ->
          ~ NavalMission.specForcesRegather m env batcher)).
Proof.
  intros units Hlive Hnow.
  pose proof (checkUnitScatter_iff env units) as Hiff.
  split; [exact Hiff|]. split.
  - intros Hfew. apply not_true_is_false. intro E.
    apply Hiff in E. destruct E as (Hge & c & Hc & _).
    destruct Hfew as [Hlt|Hnone]; [lia | congruence].
  - intro Hscatter.
    pose proof Hscatter as Hscatter'. apply Hiff in Hscatter'.
    destruct Hscatter' as (_ & c & Hc & _).
    destruct (live_never_progressed m Hlive) as [Htime Hpos].
    pose proof (first_sighting_disbands m env batcher c Htime Hpos Hnow Hc) as Hupdate.
    split; [exists c; split; [exact Hc | exact Hupdate]|].
    split; [rewrite Hupdate; reflexivity|].
    intros Hstate Hspec.
    destruct (Hspec Hstate Hscatter) as [Hkept _].
    rewrite Hupdate in Hkept. apply Hkept. reflexivity.
Qed.

End NavalMissionFacts.

Section NavalMissionRun.
Local Existing Instance Concrete.math.
Local Existing Instance Concrete.map.

(** C7 (witness).  A mission constructed when the wall clock reads
    1700000000000 ms, with the rally point (20, 20), is given the
    scattered fleet of three destroyers: the check answers yes, and the
    first update of the preparing mission disbands it. *)
Lemma scattered_fleet_disbands_witness :
  let m := NavalMission.new 1700000000000 (Concrete.point 20 20) (Concrete.point 100 100) in
  NavalMission.live m
  /\ NavalMission.MAX_NO_PROGRESS_TIME < NavalMission.now Concrete.scatteredEnv
  /\ NavalMission.state m = NavalMission.Preparing
  /\ NavalMission.checkUnitScatter Concrete.scatteredEnv
       (SquadEnv.navalUnits (NavalMission.squadEnv Concrete.scatteredEnv)) = true
  /\ NavalMission._onAiUpdate m Concrete.scatteredEnv []
     = (Some (MissionAction.disbandMission None),
        NavalMission.set_lastPosition (Some (Concrete.point 60 60)) m, [])
  /\ NavalSquad.targetArea
       (NavalMission.squad (snd (fst (NavalMission._onAiUpdate m Concrete.scatteredEnv []))))
     = Some (Concrete.point 100 100)
  /\ ~ NavalMission.specForcesRegather m Concrete.scatteredEnv [].
Proof.
  intro m.
  assert (Hlive : NavalMission.live m) by apply NavalMission.live_new.
  assert (Hnow : NavalMission.MAX_NO_PROGRESS_TIME < NavalMission.now Concrete.scatteredEnv)
    by (vm_compute; reflexivity).
  assert (Hstate : NavalMission.state m = NavalMission.Preparing) by reflexivity.
  assert (Hscatter : NavalMission.checkUnitScatter Concrete.scatteredEnv
                       (SquadEnv.navalUnits (NavalMission.squadEnv Concrete.scatteredEnv))
                     = true) by (vm_compute; reflexivity).
  do 4 (split; [assumption|]).
  pose proof (scattered_fleet_disbands m Concrete.scatteredEnv []) as Hall.
  cbv zeta in Hall.
  destruct (Hall Hlive Hnow) as (_ & _ & Hdisbands).
  destruct (Hdisbands Hscatter) as ((c & Hc & Hupdate) & Hsquad & Hspec).
  assert (c = Concrete.point 60 60) as -> by (cbn in Hc; congruence).
  split; [exact Hupdate|].
  split; [rewrite Hsquad; reflexivity|].
  exact (Hspec Hstate).
Defined.

End NavalMissionRun.

(** ** The budgets of a scout target *)

Section ScoutingFacts.
Context `{MathOps} `{MapOps}.

(** *** The stuck test

    [checkUnitsStuck] measures the movement of a scout on [tile.x] and
    [tile.y], which are [undefined]: the distance is [NaN], the test
    [distance < MIN_MOVEMENT_THRESHOLD] fails, and no stuck timer is
    ever started. *)

Lemma trackScout_since (tick : Z) (positions : gmap Z ScoutingMission.Pos)
    (since : gmap Z Z) (allUnitsStuck : bool) (unit : ScoutingMission.Scout) :
  snd (fst (ScoutingMission.trackScout tick (positions, since, allUnitsStuck) unit)) = since
  \/ snd (fst (ScoutingMission.trackScout tick (positions, since, allUnitsStuck) unit))
     = delete (ScoutingMission.scoutId unit) since.
Proof.
  unfold ScoutingMission.trackScout.
  destruct (positions !! ScoutingMission.scoutId unit) as [lastPosition|].
  - right. reflexivity.
  - left. reflexivity.
Qed.

Lemma trackScout_no_timer (tick : Z) (scouts : list ScoutingMission.Scout)
    (positions : gmap Z ScoutingMission.Pos) (allUnitsStuck : bool) :
  snd (fst (fold_left (ScoutingMission.trackScout tick) scouts (positions, ∅, allUnitsStuck)))
  = ∅.
Proof.
  revert positions allUnitsStuck.
  induction scouts as [|unit scouts IH]; intros positions allUnitsStuck; [reflexivity|].
  cbn [fold_left].
  pose proof (trackScout_since tick positions ∅ allUnitsStuck unit) as Hsince.
  destruct (ScoutingMission.trackScout tick (positions, ∅, allUnitsStuck) unit)
    as [[positions' since'] flag'].
  cbn [fst snd] in Hsince.
  assert (since' = ∅) as ->.
  { destruct Hsince as [-> | ->]; [reflexivity | apply delete_empty]. }
  apply IH.
Qed.

(** With no stuck timer running, [checkUnitsStuck] answers no and
    leaves no timer running. *)
Lemma checkUnitsStuck_never (m : ScoutingMission.t) (env : ScoutingMission.Env)
    (scouts : list ScoutingMission.Scout) :
  ScoutingMission.stuckStartTime m = ∅ ->
  snd (ScoutingMission.checkUnitsStuck m env scouts) = false
  /\ ScoutingMission.stuckStartTime (fst (ScoutingMission.checkUnitsStuck m env scouts)) = ∅.
Proof.
  intro Hempty. unfold ScoutingMission.checkUnitsStuck. rewrite Hempty.
  pose proof (trackScout_no_timer (ScoutingMission.currentTick env) scouts
                (ScoutingMission.lastScoutPositions m)
                (0 <? Z.of_nat (length scouts))) as Hnone.
  destruct (fold_left _ scouts _) as [[positions since] allUnitsStuck].
  cbn [fst snd] in Hnone. subst since.
  destruct allUnitsStuck; [|split; reflexivity].
  rewrite map_to_list_empty. cbn. split; reflexivity.
Qed.

(** The stuck check only touches the stuck tracking. *)
Lemma landScoutsStuck_frame (m : ScoutingMission.t) (env : ScoutingMission.Env)
    (scouts : list ScoutingMission.Scout) :
  let m' := fst (ScoutingMission.landScoutsStuck m env scouts) in
  ScoutingMission.scoutTarget m' = ScoutingMission.scoutTarget m
  /\ ScoutingMission.attemptsOnCurrentTarget m' = ScoutingMission.attemptsOnCurrentTarget m
  /\ ScoutingMission.scoutTargetRefreshedAt m' = ScoutingMission.scoutTargetRefreshedAt m
  /\ ScoutingMission.lastMoveCommandTick m' = ScoutingMission.lastMoveCommandTick m
  /\ ScoutingMission.isWaterTarget m' = ScoutingMission.isWaterTarget m
  /\ ScoutingMission.scoutMinDistance m' = ScoutingMission.scoutMinDistance m
  /\ ScoutingMission.scoutTargetIsPermanent m' = ScoutingMission.scoutTargetIsPermanent m
  /\ ScoutingMission.exploredWaterTiles m' = ScoutingMission.exploredWaterTiles m
  /\ ScoutingMission.exploredLandTiles m' = ScoutingMission.exploredLandTiles m
  /\ ScoutingMission.hadUnit m' = ScoutingMission.hadUnit m
  /\ ScoutingMission.priority m' = ScoutingMission.priority m.
Proof.
  unfold ScoutingMission.landScoutsStuck, ScoutingMission.checkUnitsStuck.
  destruct (negb (ScoutingMission.isWaterTarget m)); [|repeat split].
  destruct (fold_left _ _ _) as [[positions since] allUnitsStuck].
  destruct allUnitsStuck; [|repeat split].
  destruct (ScoutingMission.minimum _); repeat split.
Qed.

Lemma landScoutsStuck_never (m : ScoutingMission.t) (env : ScoutingMission.Env)
    (scouts : list ScoutingMission.Scout) :
  ScoutingMission.stuckStartTime m = ∅ ->
  snd (ScoutingMission.landScoutsStuck m env scouts) = false
  /\ ScoutingMission.stuckStartTime (fst (ScoutingMission.landScoutsStuck m env scouts)) = ∅.
Proof.
  intro Hempty. unfold ScoutingMission.landScoutsStuck.
  destruct (negb (ScoutingMission.isWaterTarget m)).
  - apply checkUnitsStuck_never, Hempty.
  - split; [reflexivity | exact Hempty].
Qed.

Lemma pursue_stuckStartTime (m : ScoutingMission.t) (env : ScoutingMission.Env)
    (scouts : list ScoutingMission.Scout) (target : ScoutingMission.Pos) :
  ScoutingMission.stuckStartTime (snd (fst (ScoutingMission.pursue m env scouts target)))
  = ScoutingMission.stuckStartTime m.
Proof.
  unfold ScoutingMission.pursue.
  destruct (ScoutingMission.getTile env target) as [tile|]; [|reflexivity].
  destruct (negb (Bool.eqb _ _)); [reflexivity|].
  destruct (_ <? _); [destruct (ScoutingMission.madeProgress _ _)|];
    (destruct (ScoutingMission.isVisible tile); [|reflexivity]);
    destruct (ScoutingMission.findNextTarget _ _ _ _); reflexivity.
Qed.

(** No mission that the program can hold has a stuck timer running. *)
Lemma reachable_no_timer (m : ScoutingMission.t) :
  ScoutingMission.reachable m -> ScoutingMission.stuckStartTime m = ∅.
Proof.
  induction 1 as [prio | m env Hreach IH | m target tick env Hreach IH].
  - reflexivity.
  - unfold ScoutingMission._onAiUpdate.
    destruct (Qltb _ _); [exact IH|].
    destruct (ScoutingMission.currentScouts m env) as [|scout others].
    + destruct (ScoutingMission.scoutTarget m); [destruct (ScoutingMission.hadUnit m)|];
        exact IH.
    + destruct (ScoutingMission.scoutTarget m) as [target|].
      * destruct (negb _).
        -- pose proof (landScoutsStuck_never (ScoutingMission.withUnit m) env
                         (scout :: others) IH) as [Hno Hkeep].
           destruct (ScoutingMission.landScoutsStuck _ _ _) as [m2 stuck].
           cbn [fst snd] in Hno, Hkeep. subst stuck.
           destruct (_ <? _); [exact Hkeep|].
           destruct (_ <? _); [exact Hkeep|].
           rewrite pursue_stuckStartTime. exact Hkeep.
        -- rewrite pursue_stuckStartTime. exact IH.
      * destruct (ScoutingMission.newScoutTarget env); exact IH.
  - exact IH.
Qed.

Lemma reachable_updates (m : ScoutingMission.t) (envs : list ScoutingMission.Env) :
  ScoutingMission.reachable m -> ScoutingMission.reachable (ScoutingMission.updates m envs).
Proof.
  revert m. induction envs as [|env envs IH]; intros m Hreach; [exact Hreach|].
  apply IH. apply ScoutingMission.reachable_update. exact Hreach.
Qed.

(** *** The budgets *)

(** When the update counts as progress: no minimum is recorded yet (or
    the recorded one is 0), or the nearest scout is strictly closer
    than the recorded minimum. *)
Lemma madeProgress_iff (m : ScoutingMission.t) (d : Q) :
  ScoutingMission.madeProgress m d = true
  <-> ScoutingMission.scoutMinDistance m = None
      \/ exists recorded, ScoutingMission.scoutMinDistance m = Some recorded
                          /\ (recorded == 0 \/ d < recorded)%Q.
Proof.
  unfold ScoutingMission.madeProgress.
  destruct (ScoutingMission.scoutMinDistance m) as [recorded|].
  - rewrite orb_true_iff, Qltb_lt. unfold truthyQ.
    rewrite negb_true_iff, negb_false_iff, Qeq_bool_iff. split.
    + intro Hor. right. exists recorded. split; [reflexivity | exact Hor].
    + intros [Hnone | (r & Hr & Hor)]; [discriminate|]. injection Hr as <-. exact Hor.
  - split; [left; reflexivity | reflexivity].
Qed.

(** [findNextTarget] reads the explored tiles of the mission and
    nothing else of it. *)
Lemma findNextTarget_explored (m m' : ScoutingMission.t) (env : ScoutingMission.Env)
    (position : ScoutingMission.Pos) (water : bool) :
  ScoutingMission.exploredWaterTiles m' = ScoutingMission.exploredWaterTiles m ->
  ScoutingMission.exploredLandTiles m' = ScoutingMission.exploredLandTiles m ->
  ScoutingMission.findNextTarget m' env position water
  = ScoutingMission.findNextTarget m env position water.
Proof.
  intros Hw Hl. unfold ScoutingMission.findNextTarget. rewrite Hw, Hl. reflexivity.
Qed.


End ScoutingFacts.

Section ScoutingRun.
Local Existing Instance Concrete.math.
Local Existing Instance Concrete.map.



(** On that input the timer is refreshed and the new minimum recorded;
    the first three updates had given the target, ordered the dog on
    and counted its loss. *)
Lemma scout_progress_refreshes_timer :
  let m := ScoutingMission.updates (ScoutingMission.new 10) Concrete.scoutLost in
  let m' := snd (fst (ScoutingMission._onAiUpdate m Concrete.scoutBack)) in
  ScoutingMission.attemptsOnCurrentTarget m = 1
  /\ ScoutingMission.scoutTargetRefreshedAt m = 140
  /\ ScoutingMission.hadUnit m = false
  /\ ScoutingMission.scoutTargetRefreshedAt m' = 200
  /\ ScoutingMission.attemptsOnCurrentTarget m' = 1
  /\ ScoutingMission.scoutMinDistance m' = Some 10%Q
  /\ snd (ScoutingMission._onAiUpdate m Concrete.scoutBack)
     = [ {| ScoutingMission.orderedUnit := 1; ScoutingMission.orderedTo := (30, 30) |} ].
Proof. vm_compute. repeat split; reflexivity. Qed.

End ScoutingRun.

(** ** Commands of a squad and the relations they respect *)

Section ChannelFacts.
Context {S : Type}.
Variable getLast : S -> gmap Z Batcher.BatchableAction.
Variable setLast : gmap Z Batcher.BatchableAction -> S -> S.
Hypothesis getLast_setLast : forall v s, getLast (setLast v s) = v.

Section Respects.
Variable R : S * Batcher.ActionBatcher -> S * Batcher.ActionBatcher -> Prop.
Hypothesis R_refl : forall x, R x x.
Hypothesis R_trans : forall x y z, R x y -> R y z -> R x z.

Lemma respects_ret {A} (a : A) : Batcher.respects R (Batcher.ret a).
Proof. intros s b. apply R_refl. Qed.

Lemma respects_gets {A} (f : S -> A) : Batcher.respects R (Batcher.gets f).
Proof. intros s b. apply R_refl. Qed.

Lemma respects_bind {A B} (c : Batcher.M A) (k : A -> Batcher.M B) :
  Batcher.respects R c -> (forall a, Batcher.respects R (k a)) ->
  Batcher.respects R (Batcher.bind c k).
Proof.
  intros Hc Hk s b. specialize (Hc s b).
  unfold Batcher.after, Batcher.bind in *.
  destruct (c s b) as [[a s1] b1]. cbn [fst snd] in *.
  eapply R_trans; [exact Hc | apply Hk].
Qed.

Lemma respects_forEach {A} (xs : list A) (body : A -> Batcher.M (S:=S) unit) :
  (forall x, Batcher.respects R (body x)) ->
  Batcher.respects R (Batcher.forEach xs body).
Proof.
  intro Hbody. induction xs as [|x xs IH]; cbn [Batcher.forEach].
  - apply respects_ret.
  - apply respects_bind; [apply Hbody | intros _; exact IH].
Qed.

End Respects.

Lemma eachNew_app (last : gmap Z Batcher.BatchableAction)
    (p1 p2 : list Batcher.BatchableAction) :
  Batcher.eachNew last p1 -> Batcher.eachNew (Batcher.record last p1) p2 ->
  Batcher.eachNew last (p1 ++ p2).
Proof.
  revert last. induction p1 as [|a p1 IH]; intros last H1 H2; cbn in *.
  - exact H2.
  - destruct H1 as [Ha H1]. split; [exact Ha | apply IH; assumption].
Qed.

Lemma record_app (last : gmap Z Batcher.BatchableAction)
    (p1 p2 : list Batcher.BatchableAction) :
  Batcher.record last (p1 ++ p2) = Batcher.record (Batcher.record last p1) p2.
Proof. unfold Batcher.record. apply fold_left_app. Qed.

Lemma pushesNew_refl (x : S * Batcher.ActionBatcher) : Batcher.pushesNew getLast x x.
Proof.
  exists []. split; [symmetry; apply app_nil_r|]. split; [exact I | reflexivity].
Qed.

Lemma pushesNew_trans (x y z : S * Batcher.ActionBatcher) :
  Batcher.pushesNew getLast x y -> Batcher.pushesNew getLast y z ->
  Batcher.pushesNew getLast x z.
Proof.
  intros (p1 & Hb1 & Hn1 & Hl1) (p2 & Hb2 & Hn2 & Hl2).
  exists (p1 ++ p2). split; [rewrite Hb2, Hb1; symmetry; apply app_assoc|].
  split.
  - apply eachNew_app; [exact Hn1 | rewrite <- Hl1; exact Hn2].
  - rewrite Hl2, Hl1. symmetry. apply record_app.
Qed.

(** A write that leaves [lastOrderGiven] alone pushes nothing. *)
Lemma modify_pushesNew (f : S -> S) :
  (forall s, getLast (f s) = getLast s) ->
  Batcher.respects (Batcher.pushesNew getLast) (Batcher.modify f).
Proof.
  intros Hf s b. exists []. cbn. split; [symmetry; apply app_nil_r|].
  split; [exact I | apply Hf].
Qed.

(** [submitActionIfNew] pushes the order only when it is new for its
    unit, and records it. *)
Lemma submitIfNew_pushesNew (action : Batcher.BatchableAction) :
  Batcher.respects (Batcher.pushesNew getLast)
    (Batcher.submitIfNew getLast setLast action).
Proof.
  intros s b. unfold Batcher.after, Batcher.submitIfNew, Batcher.pushesNew.
  destruct (getLast s !! Batcher.unitId action) as [lastAction|] eqn:Elast.
  - destruct (Batcher.isSameAs lastAction action) eqn:Esame; cbn [fst snd].
    + exists []. split; [symmetry; apply app_nil_r|]. split; [exact I | reflexivity].
    + exists [action]. split; [reflexivity|]. split.
      * cbn. rewrite Elast. split; [exact Esame | exact I].
      * rewrite getLast_setLast. reflexivity.
  - cbn [fst snd]. exists [action]. split; [reflexivity|]. split.
    + cbn. rewrite Elast. split; exact I.
    + rewrite getLast_setLast. reflexivity.
Qed.

(** A command that respects [pushesNew] and leaves the batcher as it
    was has pushed nothing. *)
Lemma pushesNew_same_batcher (x : S * Batcher.ActionBatcher) (s' : S) :
  Batcher.pushesNew getLast x (s', snd x) -> getLast s' = getLast (fst x).
Proof.
  intros (pushed & Hb & _ & Hl). cbn [fst snd] in *.
  assert (pushed = []) as ->.
  { apply (app_inv_head (snd x)). rewrite app_nil_r. symmetry. exact Hb. }
  exact Hl.
Qed.

End ChannelFacts.

(** ** The commands of the naval squad *)

(** One structural step on a goal [respects R c]: [refl] and [trans]
    prove that [R] is a preorder, [leaf] closes the goals about
    submissions and writes. *)
Ltac respects_step refl trans leaf :=
  lazymatch goal with
  | |- Batcher.respects _ (Batcher.ret _) => apply respects_ret; exact refl
  | |- Batcher.respects _ (Batcher.gets _) => apply respects_gets; exact refl
  | |- Batcher.respects _ (Batcher.bind _ _) =>
      apply respects_bind; [exact trans | | intro]
  | |- Batcher.respects _ (Batcher.forEach _ _) =>
      apply respects_forEach; [exact refl | exact trans | intro]
  | |- Batcher.respects _ (match ?x with _ => _ end) => destruct x
  | |- _ => leaf
  end.

Section NavalSquadCommands.
Context `{MathOps} `{MapOps}.
Variable R : NavalSquad.t * Batcher.ActionBatcher
             -> NavalSquad.t * Batcher.ActionBatcher -> Prop.
Hypothesis R_refl : forall x, R x x.
Hypothesis R_trans : forall x y z, R x y -> R y z -> R x z.
Hypothesis R_submit : forall action,
  Batcher.respects R (NavalSquad.submitActionIfNew action).
Hypothesis R_quiet : forall f : NavalSquad.t -> NavalSquad.t,
  (forall s, NavalSquad.lastOrderGiven (f s) = NavalSquad.lastOrderGiven s
             /\ NavalSquad.state (f s) = NavalSquad.state s
             /\ NavalSquad.lastCommand (f s) = NavalSquad.lastCommand s
             /\ NavalSquad.targetArea (f s) = NavalSquad.targetArea s) ->
  Batcher.respects R (Batcher.modify f).

Ltac squad_leaf :=
  first [ apply R_submit
        | apply R_quiet; intro; cbn; repeat split; reflexivity ].

Ltac squad_command :=
  cbv beta zeta; repeat (respects_step R_refl R_trans squad_leaf; cbv beta zeta).

Lemma startPathfinding_respects (unit : UnitData) (tick : Z) :
  Batcher.respects R (NavalSquad.startPathfinding unit tick).
Proof. unfold NavalSquad.startPathfinding. squad_command. Qed.

Lemma updateUnitPosition_respects (unit : UnitData) (tick : Z) :
  Batcher.respects R (NavalSquad.updateUnitPosition unit tick).
Proof. unfold NavalSquad.updateUnitPosition. squad_command. Qed.

Lemma updateCombatState_respects (unit : UnitData) (tick : Z) (hasTarget : bool) :
  Batcher.respects R (NavalSquad.updateCombatState unit tick hasTarget).
Proof. unfold NavalSquad.updateCombatState. squad_command. Qed.

Lemma handleStuckUnit_respects (env : SquadEnv.t) (unit : UnitData) :
  Batcher.respects R (NavalSquad.handleStuckUnit env unit).
Proof.
  unfold NavalSquad.handleStuckUnit. squad_command.
Qed.

Lemma moveUnitsInFormation_respects (env : SquadEnv.t) (units : list UnitData)
    (targetPoint : Vector2) :
  Batcher.respects R (NavalSquad.moveUnitsInFormation env units targetPoint).
Proof.
  unfold NavalSquad.moveUnitsInFormation. squad_command.
Qed.

Lemma handleCombat_respects (env : SquadEnv.t) (unit : UnitData)
    (nearbyHostiles units : list UnitData) (targetPoint : Vector2) :
  Batcher.respects R (NavalSquad.handleCombat env unit nearbyHostiles units targetPoint).
Proof.
  unfold NavalSquad.handleCombat. squad_command.
Qed.

Lemma stuckCheckBlock_respects (env : SquadEnv.t) :
  Batcher.respects R (NavalSquad.stuckCheckBlock env).
Proof.
  unfold NavalSquad.stuckCheckBlock. squad_command.
  apply handleStuckUnit_respects.
Qed.

Lemma attackPhase_respects (env : SquadEnv.t) (units : list UnitData)
    (targetPoint : Vector2) :
  Batcher.respects R (NavalSquad.attackPhase env units targetPoint).
Proof.
  unfold NavalSquad.attackPhase. squad_command;
    first [ apply moveUnitsInFormation_respects | apply handleCombat_respects ].
Qed.

End NavalSquadCommands.

(** ** Phase transitions of the naval squads *)

Lemma spreadBeyond_some (env : SquadEnv.t) (r : Q) (c : Vector2) :
  SquadEnv.spreadBeyond env r = Some c
  <-> exists d, SquadEnv.measurable env c d /\ (r < d)%Q.
Proof.
  unfold SquadEnv.spreadBeyond, SquadEnv.measurable.
  destruct (SquadEnv.centerOfMass env) as [c0|];
    [|split; [discriminate | intros (d & (Hc & _) & _); discriminate]].
  destruct (SquadEnv.maxDistance env) as [d0|];
    [|split; [discriminate | intros (d & (_ & Hd & _) & _); discriminate]].
  destruct (truthyQ d0) eqn:Etruthy; cbn [andb].
  - assert (Hnz : ~ (d0 == 0)%Q).
    { unfold truthyQ in Etruthy. apply negb_true_iff in Etruthy.
      intro Hz. apply Qeq_bool_iff in Hz. congruence. }
    destruct (SquadEnv.getTile env (vx c0) (vy c0)) as [tile|] eqn:Etile; cbn [andb].
    + destruct (Qltb r d0) eqn:Elt.
      * apply Qltb_lt in Elt. split.
        -- intro Hc. injection Hc as <-. exists d0.
           repeat split; try assumption; try reflexivity. rewrite Etile. discriminate.
        -- intros (d & (Hc & _) & _). congruence.
      * apply Qltb_ge in Elt. split; [discriminate|].
        intros (d & (Hc & Hd & _) & Hlt). injection Hd as <-.
        apply Qle_not_lt in Elt. contradiction.
    + split; [discriminate|].
      intros (d & (Hc & _ & _ & Ht) & _). injection Hc as <-. congruence.
  - split; [discriminate|].
    intros (d & (_ & Hd & Hnz & _) & _). injection Hd as <-.
    unfold truthyQ in Etruthy. apply negb_false_iff in Etruthy.
    apply Qeq_bool_iff in Etruthy. contradiction.
Qed.

Lemma spreadBeyond_none (env : SquadEnv.t) (r : Q) :
  SquadEnv.spreadBeyond env r = None
  <-> forall c d, SquadEnv.measurable env c d -> (d <= r)%Q.
Proof.
  split.
  - intros Hnone c d Hm. apply Qnot_lt_le. intro Hlt.
    assert (Hsome : SquadEnv.spreadBeyond env r = Some c)
      by (apply spreadBeyond_some; exists d; split; assumption).
    congruence.
  - intro Hall. destruct (SquadEnv.spreadBeyond env r) as [c|] eqn:E; [|reflexivity].
    apply spreadBeyond_some in E. destruct E as (d & Hm & Hlt).
    apply Hall in Hm. apply Qle_not_lt in Hm. contradiction.
Qed.

Section NavalSquadPhases.
Context `{MathOps} `{MapOps}.

Lemma sameControl_refl (x : NavalSquad.t * Batcher.ActionBatcher) :
  NavalSquad.sameControl x x.
Proof. repeat split. Qed.

Lemma sameControl_trans (x y z : NavalSquad.t * Batcher.ActionBatcher) :
  NavalSquad.sameControl x y -> NavalSquad.sameControl y z -> NavalSquad.sameControl x z.
Proof.
  unfold NavalSquad.sameControl. intros (H1 & H2 & H3) (H4 & H5 & H6).
  repeat split; congruence.
Qed.

Lemma sameControl_submit (action : Batcher.BatchableAction) :
  Batcher.respects NavalSquad.sameControl (NavalSquad.submitActionIfNew action).
Proof.
  intros s b.
  unfold Batcher.after, NavalSquad.submitActionIfNew, Batcher.submitIfNew.
  destruct (NavalSquad.lastOrderGiven s !! Batcher.unitId action) as [lastAction|];
    [destruct (Batcher.isSameAs lastAction action)|]; repeat split.
Qed.

Lemma sameControl_quiet (f : NavalSquad.t -> NavalSquad.t) :
  (forall s, NavalSquad.lastOrderGiven (f s) = NavalSquad.lastOrderGiven s
             /\ NavalSquad.state (f s) = NavalSquad.state s
             /\ NavalSquad.lastCommand (f s) = NavalSquad.lastCommand s
             /\ NavalSquad.targetArea (f s) = NavalSquad.targetArea s) ->
  Batcher.respects NavalSquad.sameControl (Batcher.modify f).
Proof.
  intros Hf s b. destruct (Hf s) as (_ & H1 & H2 & H3).
  unfold Batcher.after, Batcher.modify, NavalSquad.sameControl. cbn. repeat split; assumption.
Qed.

(** The stuck-check block changes neither the phase nor the command
    stamp. *)
Lemma stuckCheckBlock_sameControl (env : SquadEnv.t) :
  Batcher.respects NavalSquad.sameControl (NavalSquad.stuckCheckBlock env).
Proof.
  apply stuckCheckBlock_respects;
    [ exact sameControl_refl | exact sameControl_trans
    | exact sameControl_submit | exact sameControl_quiet ].
Qed.

Lemma sameControl_state {A} (c : Batcher.M (S:=NavalSquad.t) A) :
  Batcher.respects NavalSquad.sameControl c ->
  forall s b, NavalSquad.state (snd (fst (c s b))) = NavalSquad.state s
              /\ NavalSquad.lastCommand (snd (fst (c s b))) = NavalSquad.lastCommand s.
Proof.
  intros Hc s b. destruct (Hc s b) as (Hst & Hlc & _). split; assumption.
Qed.

(** The phase after the command block, on a command tick. *)
Lemma commandBlock_phase (env : SquadEnv.t) (s : NavalSquad.t)
    (b : Batcher.ActionBatcher) :
  NavalSquad.isCommandTick s env = true ->
  let s' := fst (Batcher.after (NavalSquad.commandBlock env) s b) in
  (NavalSquad.state s = NavalSquad.Gathering ->
   NavalSquad.state s'
   = match SquadEnv.spreadBeyond env
             (NavalSquad.requiredGatherRadius (length (SquadEnv.navalUnitIds env))
                NavalSquad.MIN_GATHER_RADIUS) with
     | Some _ => NavalSquad.Gathering
     | None => NavalSquad.Attacking
     end)
  /\ (NavalSquad.state s = NavalSquad.Attacking ->
      NavalSquad.state s'
      = match SquadEnv.spreadBeyond env
                (NavalSquad.requiredGatherRadius (length (SquadEnv.navalUnits env))
                   NavalSquad.MAX_GATHER_RADIUS) with
        | Some _ => NavalSquad.Gathering
        | None => NavalSquad.Attacking
        end).
Proof.
  intros Htick. cbv zeta. unfold Batcher.after. cbn [fst].
  unfold NavalSquad.commandBlock, Batcher.bind, Batcher.gets.
  rewrite Htick. unfold Batcher.modify, NavalSquad.commandPhases, Batcher.bind.
  split; intro Hstate; rewrite Hstate.
  - destruct (SquadEnv.spreadBeyond env _) as [c|]; [|reflexivity].
    pose proof (sameControl_state _
                  (moveUnitsInFormation_respects NavalSquad.sameControl
                     sameControl_refl sameControl_trans sameControl_submit
                     sameControl_quiet env (SquadEnv.navalUnits env) c)
                  (NavalSquad.set_lastCommand (SquadEnv.currentTick env) s) b) as [Hst _].
    destruct (NavalSquad.moveUnitsInFormation _ _ _ _ _) as [[u s2] b2].
    cbn [fst snd Batcher.ret] in *. rewrite Hst. exact Hstate.
  - destruct (SquadEnv.spreadBeyond env _) as [c|]; [reflexivity|].
    cbn [fst snd].
    rewrite (proj1 (sameControl_state _
                      (attackPhase_respects NavalSquad.sameControl
                         sameControl_refl sameControl_trans sameControl_submit
                         sameControl_quiet env _ _) _ _)).
    exact Hstate.
Qed.

End NavalSquadPhases.

Section BasicSquadPhases.
Context `{MathOps} `{MapOps}.

Lemma basic_sameControl_refl (x : NavalSquadBasic.t * Batcher.ActionBatcher) :
  NavalSquadBasic.sameControl x x.
Proof. repeat split. Qed.

Lemma basic_sameControl_trans (x y z : NavalSquadBasic.t * Batcher.ActionBatcher) :
  NavalSquadBasic.sameControl x y -> NavalSquadBasic.sameControl y z ->
  NavalSquadBasic.sameControl x z.
Proof.
  unfold NavalSquadBasic.sameControl. intros (H1 & H2 & H3) (H4 & H5 & H6).
  repeat split; congruence.
Qed.

Lemma basic_sameControl_submit (action : Batcher.BatchableAction) :
  Batcher.respects NavalSquadBasic.sameControl (NavalSquadBasic.submitActionIfNew action).
Proof.
  intros s b.
  unfold Batcher.after, NavalSquadBasic.submitActionIfNew, Batcher.submitIfNew.
  destruct (NavalSquadBasic.lastOrderGiven s !! Batcher.unitId action) as [lastAction|];
    [destruct (Batcher.isSameAs lastAction action)|]; repeat split.
Qed.

(** Submitting orders for the units changes neither the phase nor the
    command stamp. *)
Lemma basic_orders_state (units : list UnitData)
    (order : UnitData -> Batcher.BatchableAction)
    (s : NavalSquadBasic.t) (b : Batcher.ActionBatcher) :
  NavalSquadBasic.state
    (snd (fst (Batcher.forEach units
                 (fun unit => NavalSquadBasic.submitActionIfNew (order unit)) s b)))
  = NavalSquadBasic.state s.
Proof.
  assert (Hall : Batcher.respects NavalSquadBasic.sameControl
                   (Batcher.forEach units
                      (fun unit => NavalSquadBasic.submitActionIfNew (order unit)))).
  { apply respects_forEach;
      [ exact basic_sameControl_refl | exact basic_sameControl_trans
      | intro; apply basic_sameControl_submit ]. }
  destruct (Hall s b) as (Hst & _). exact Hst.
Qed.

(** The phase after an update of the basic squad, on a command tick. *)
Lemma basic_onAiUpdate_phase (env : SquadEnv.t) (s : NavalSquadBasic.t)
    (b : Batcher.ActionBatcher) :
  NavalSquadBasic.isCommandTick s env = true ->
  let s' := snd (fst (NavalSquadBasic.onAiUpdate env s b)) in
  (NavalSquadBasic.state s = NavalSquadBasic.Gathering ->
   NavalSquadBasic.state s'
   = match SquadEnv.spreadBeyond env
             (NavalSquadBasic.requiredGatherRadius (length (SquadEnv.navalUnitIds env))
                NavalSquadBasic.MIN_GATHER_RADIUS) with
     | Some _ => NavalSquadBasic.Gathering
     | None => NavalSquadBasic.Attacking
     end)
  /\ (NavalSquadBasic.state s = NavalSquadBasic.Attacking ->
      NavalSquadBasic.state s'
      = match SquadEnv.spreadBeyond env
                (NavalSquadBasic.requiredGatherRadius (length (SquadEnv.navalUnitIds env))
                   NavalSquadBasic.MAX_GATHER_RADIUS) with
        | Some _ => NavalSquadBasic.Gathering
        | None => NavalSquadBasic.Attacking
        end).
Proof.
  intros Htick. cbv zeta.
  unfold NavalSquadBasic.onAiUpdate, Batcher.bind, Batcher.gets.
  rewrite Htick.
  unfold Batcher.modify, Batcher.ret, NavalSquadBasic.commandPhases, Batcher.bind.
  cbv zeta.
  split; intro Hstate; rewrite Hstate.
  - destruct (SquadEnv.spreadBeyond env _) as [c|]; [|reflexivity].
    pose proof (basic_orders_state (SquadEnv.navalUnits env)
                  (fun unit => Batcher.manageMoveMicro unit c)
                  (NavalSquadBasic.set_lastCommand (SquadEnv.currentTick env) s) b) as Hst.
    destruct (Batcher.forEach _ _ _ _) as [[u s2] b2].
    cbn [fst snd Batcher.ret] in *. rewrite Hst. exact Hstate.
  - destruct (SquadEnv.spreadBeyond env _) as [c|]; [reflexivity|].
    destruct (NavalSquadBasic.reduceLeader _ _) as [attackLeader|]; [|exact Hstate].
    match goal with
    | |- context [Batcher.forEach ?us (fun unit => @?body unit) ?s0 ?b0] =>
        pose proof (respects_forEach NavalSquadBasic.sameControl
                      basic_sameControl_refl basic_sameControl_trans us body) as Hall
    end.
    match type of Hall with
    | ?P -> _ =>
        assert (Hbody : P)
          by (intro unit; cbv beta;
              destruct (NavalSquadBasic.pickBest _ _); apply basic_sameControl_submit)
    end.
    destruct (Hall Hbody (NavalSquadBasic.set_lastCommand (SquadEnv.currentTick env) s) b)
      as (Hst & _).
    unfold Batcher.after in Hst. cbn [fst snd] in Hst.
    destruct (Batcher.forEach _ _ _ _) as [[u s2] b2].
    cbn [fst snd Batcher.ret] in *. rewrite Hst. exact Hstate.
Qed.

End BasicSquadPhases.

Section PhaseTransitions.
Context `{MathOps} `{MapOps}.

(** The phase after an update of the full squad, on a command tick. *)
Lemma onAiUpdate_phase (env : SquadEnv.t) (s : NavalSquad.t) (b : Batcher.ActionBatcher) :
  NavalSquad.isCommandTick s env = true ->
  let s' := snd (fst (NavalSquad.onAiUpdate env s b)) in
  (NavalSquad.state s = NavalSquad.Gathering ->
   NavalSquad.state s'
   = match SquadEnv.spreadBeyond env
             (NavalSquad.requiredGatherRadius (length (SquadEnv.navalUnitIds env))
                NavalSquad.MIN_GATHER_RADIUS) with
     | Some _ => NavalSquad.Gathering
     | None => NavalSquad.Attacking
     end)
  /\ (NavalSquad.state s = NavalSquad.Attacking ->
      NavalSquad.state s'
      = match SquadEnv.spreadBeyond env
                (NavalSquad.requiredGatherRadius (length (SquadEnv.navalUnits env))
                   NavalSquad.MAX_GATHER_RADIUS) with
        | Some _ => NavalSquad.Gathering
        | None => NavalSquad.Attacking
        end).
Proof.
  intros Htick. cbv zeta. unfold NavalSquad.onAiUpdate, Batcher.bind.
  destruct (sameControl_state _ (stuckCheckBlock_sameControl env) s b) as [Hst Hlc].
  destruct (NavalSquad.stuckCheckBlock env s b) as [[u s1] b1]. cbn [fst snd] in Hst, Hlc.
  assert (Htick1 : NavalSquad.isCommandTick s1 env = true)
    by (unfold NavalSquad.isCommandTick in *; rewrite Hlc; exact Htick).
  destruct (commandBlock_phase env s1 b1 Htick1) as [Hg Ha].
  unfold Batcher.after in Hg, Ha. cbn [fst] in Hg, Ha.
  rewrite Hst in Hg, Ha. split; assumption.
Qed.

(** C2 (amended).  On a command tick, for the full and for the basic
    naval squad: a gathering squad turns to attacking exactly when its
    spread cannot be measured (no centre of mass, no tile of the map at
    the centre of mass, or no or zero greatest distance) or the greatest
    distance [d] to the centre of mass is at most [sqrt n * 2 + 3]; an
    attacking squad turns back to gathering exactly when its spread can
    be measured and [d] exceeds [sqrt n * 2 + 6].  [n] is the number of
    naval unit ids of the mission (in the attack phase of the full
    squad, the number of those that still resolve to a unit). *)
Theorem squad_phase_transitions :
  (forall (env : SquadEnv.t) (s : NavalSquad.t) (b : Batcher.ActionBatcher),
      NavalSquad.isCommandTick s env = true ->
      let s' := snd (fst (NavalSquad.onAiUpdate env s b)) in
      (NavalSquad.state s = NavalSquad.Gathering ->
       (NavalSquad.state s' = NavalSquad.Attacking
        <-> forall c d, SquadEnv.measurable env c d ->
              (d <= NavalSquad.requiredGatherRadius (length (SquadEnv.navalUnitIds env))
                      NavalSquad.MIN_GATHER_RADIUS)%Q))
      /\ (NavalSquad.state s = NavalSquad.Attacking ->
          (NavalSquad.state s' = NavalSquad.Gathering
           <-> exists c d, SquadEnv.measurable env c d
                 /\ (NavalSquad.requiredGatherRadius (length (SquadEnv.navalUnits env))
                       NavalSquad.MAX_GATHER_RADIUS < d)%Q)))
  /\ (forall (env : SquadEnv.t) (s : NavalSquadBasic.t) (b : Batcher.ActionBatcher),
         NavalSquadBasic.isCommandTick s env = true ->
         let s' := snd (fst (NavalSquadBasic.onAiUpdate env s b)) in
         (NavalSquadBasic.state s = NavalSquadBasic.Gathering ->
          (NavalSquadBasic.state s' = NavalSquadBasic.Attacking
           <-> forall c d, SquadEnv.measurable env c d ->
                 (d <= NavalSquadBasic.requiredGatherRadius
                         (length (SquadEnv.navalUnitIds env))
                         NavalSquadBasic.MIN_GATHER_RADIUS)%Q))
         /\ (NavalSquadBasic.state s = NavalSquadBasic.Attacking ->
             (NavalSquadBasic.state s' = NavalSquadBasic.Gathering
              <-> exists c d, SquadEnv.measurable env c d
                    /\ (NavalSquadBasic.requiredGatherRadius
                          (length (SquadEnv.navalUnitIds env))
                          NavalSquadBasic.MAX_GATHER_RADIUS < d)%Q))).
Proof.
  split.
  - intros env s b Htick. cbv zeta.
    destruct (onAiUpdate_phase env s b Htick) as [Hg Ha]. cbv zeta in Hg, Ha.
    split; intro Hstate.
    + rewrite (Hg Hstate), <- spreadBeyond_none. clear Hg Ha.
      destruct (SquadEnv.spreadBeyond env _); split; congruence.
    + rewrite (Ha Hstate). clear Hg Ha.
      destruct (SquadEnv.spreadBeyond env _) as [c|] eqn:E.
      * split; [intros _ | reflexivity].
        apply spreadBeyond_some in E. destruct E as (d & Hm & Hlt).
        exists c, d. split; assumption.
      * split; [discriminate|]. intros (c & d & Hm & Hlt).
        assert (Hsome : SquadEnv.spreadBeyond env
                          (NavalSquad.requiredGatherRadius
                             (length (SquadEnv.navalUnits env))
                             NavalSquad.MAX_GATHER_RADIUS) = Some c)
          by (apply spreadBeyond_some; exists d; split; assumption).
        congruence.
  - intros env s b Htick. cbv zeta.
    destruct (basic_onAiUpdate_phase env s b Htick) as [Hg Ha]. cbv zeta in Hg, Ha.
    split; intro Hstate.
    + rewrite (Hg Hstate), <- spreadBeyond_none. clear Hg Ha.
      destruct (SquadEnv.spreadBeyond env _); split; congruence.
    + rewrite (Ha Hstate). clear Hg Ha.
      destruct (SquadEnv.spreadBeyond env _) as [c|] eqn:E.
      * split; [intros _ | reflexivity].
        apply spreadBeyond_some in E. destruct E as (d & Hm & Hlt).
        exists c, d. split; assumption.
      * split; [discriminate|]. intros (c & d & Hm & Hlt).
        assert (Hsome : SquadEnv.spreadBeyond env
                          (NavalSquadBasic.requiredGatherRadius
                             (length (SquadEnv.navalUnitIds env))
                             NavalSquadBasic.MAX_GATHER_RADIUS) = Some c)
          by (apply spreadBeyond_some; exists d; split; assumption).
        congruence.
Qed.

End PhaseTransitions.

Section PhaseRun.
Local Existing Instance Concrete.math.
Local Existing Instance Concrete.map.

(** C2 (witness).  The gathering squads on the split fleet, at a
    command tick. *)
Lemma squad_phase_transitions_witness :
  (NavalSquad.isCommandTick Concrete.gatheringSquad Concrete.splitFleetEnv = true
   /\ NavalSquad.state Concrete.gatheringSquad = NavalSquad.Gathering
   /\ (NavalSquad.state
         (snd (fst (NavalSquad.onAiUpdate Concrete.splitFleetEnv
                      Concrete.gatheringSquad [])))
       = NavalSquad.Attacking
       <-> forall c d, SquadEnv.measurable Concrete.splitFleetEnv c d ->
             (d <= NavalSquad.requiredGatherRadius
                     (length (SquadEnv.navalUnitIds Concrete.splitFleetEnv))
                     NavalSquad.MIN_GATHER_RADIUS)%Q))
  /\ (NavalSquadBasic.isCommandTick Concrete.gatheringBasicSquad Concrete.splitFleetEnv
      = true
      /\ NavalSquadBasic.state Concrete.gatheringBasicSquad = NavalSquadBasic.Gathering
      /\ (NavalSquadBasic.state
            (snd (fst (NavalSquadBasic.onAiUpdate Concrete.splitFleetEnv
                         Concrete.gatheringBasicSquad [])))
          = NavalSquadBasic.Attacking
          <-> forall c d, SquadEnv.measurable Concrete.splitFleetEnv c d ->
                (d <= NavalSquadBasic.requiredGatherRadius
                        (length (SquadEnv.navalUnitIds Concrete.splitFleetEnv))
                        NavalSquadBasic.MIN_GATHER_RADIUS)%Q)).
Proof.
  split.
  - split; [reflexivity|]. split; [reflexivity|].
    apply (proj1 (proj1 squad_phase_transitions Concrete.splitFleetEnv
                    Concrete.gatheringSquad [] eq_refl)).
    reflexivity.
  - split; [reflexivity|]. split; [reflexivity|].
    apply (proj1 (proj2 squad_phase_transitions Concrete.splitFleetEnv
                    Concrete.gatheringBasicSquad [] eq_refl)).
    reflexivity.
Defined.

(** C2 (counterexample).  The centre of mass of the split fleet falls
    between tiles: at the command tick the gathering squad turns to
    attacking although its farthest unit is 50.5 away from the centre of
    mass, far more than [sqrt 4 * 2 + 3 = 7]. *)
Lemma squad_attacks_while_spread :
  ~ NavalSquad.specPhaseRule Concrete.splitFleetEnv Concrete.gatheringSquad
      (snd (fst (NavalSquad.onAiUpdate Concrete.splitFleetEnv
                   Concrete.gatheringSquad []))).
Proof.
  intro Hspec.
  destruct (Hspec (101 # 2) eq_refl) as [Hgather _].
  assert (Hattacking :
    NavalSquad.state (snd (fst (NavalSquad.onAiUpdate Concrete.splitFleetEnv
                                  Concrete.gatheringSquad [])))
    = NavalSquad.Attacking) by (vm_compute; reflexivity).
  apply (Hgather eq_refl) in Hattacking.
  vm_compute in Hattacking. apply Hattacking. reflexivity.
Qed.

(** The basic squad does the same. *)
Lemma basic_squad_attacks_while_spread :
  ~ NavalSquadBasic.specPhaseRule Concrete.splitFleetEnv Concrete.gatheringBasicSquad
      (snd (fst (NavalSquadBasic.onAiUpdate Concrete.splitFleetEnv
                   Concrete.gatheringBasicSquad []))).
Proof.
  intro Hspec.
  destruct (Hspec (101 # 2) eq_refl) as [Hgather _].
  assert (Hattacking :
    NavalSquadBasic.state (snd (fst (NavalSquadBasic.onAiUpdate Concrete.splitFleetEnv
                                       Concrete.gatheringBasicSquad [])))
    = NavalSquadBasic.Attacking) by (vm_compute; reflexivity).
  apply (Hgather eq_refl) in Hattacking.
  vm_compute in Hattacking. apply Hattacking. reflexivity.
Qed.

End PhaseRun.

(** ** Order throttling of the naval squads *)

Section NavalSquadExploring.
Context `{MathOps} `{MapOps}.
Variable R : NavalSquad.t * Batcher.ActionBatcher
             -> NavalSquad.t * Batcher.ActionBatcher -> Prop.
Hypothesis R_refl : forall x, R x x.
Hypothesis R_trans : forall x y z, R x y -> R y z -> R x z.
Hypothesis R_submit : forall action,
  Batcher.respects R (NavalSquad.submitActionIfNew action).
Hypothesis R_mild : forall f : NavalSquad.t -> NavalSquad.t,
  (forall s, NavalSquad.lastOrderGiven (f s) = NavalSquad.lastOrderGiven s
             /\ NavalSquad.lastCommand (f s) = NavalSquad.lastCommand s) ->
  Batcher.respects R (Batcher.modify f).

Lemma mild_quiet (f : NavalSquad.t -> NavalSquad.t) :
  (forall s, NavalSquad.lastOrderGiven (f s) = NavalSquad.lastOrderGiven s
             /\ NavalSquad.state (f s) = NavalSquad.state s
             /\ NavalSquad.lastCommand (f s) = NavalSquad.lastCommand s
             /\ NavalSquad.targetArea (f s) = NavalSquad.targetArea s) ->
  Batcher.respects R (Batcher.modify f).
Proof.
  intro Hf. apply R_mild. intro s. destruct (Hf s) as (H1 & _ & H2 & _).
  split; assumption.
Qed.

Ltac mild_leaf :=
  first [ apply R_submit
        | apply R_mild; intro; cbn; split; reflexivity ].

Lemma updateExplorationTarget_respects (env : SquadEnv.t) (unit : UnitData) :
  Batcher.respects R (NavalSquad.updateExplorationTarget env unit).
Proof.
  unfold NavalSquad.updateExplorationTarget.
  cbv beta zeta; repeat (respects_step R_refl R_trans mild_leaf; cbv beta zeta).
Qed.

Lemma explorePhase_respects (env : SquadEnv.t) (units : list UnitData) :
  Batcher.respects R (NavalSquad.explorePhase env units).
Proof.
  unfold NavalSquad.explorePhase.
  cbv beta zeta; repeat (respects_step R_refl R_trans mild_leaf; cbv beta zeta);
    apply updateExplorationTarget_respects.
Qed.

(** What follows the stamping of the command tick, in the command
    block. *)
Lemma commandPhases_respects (env : SquadEnv.t) (s : NavalSquad.t) :
  Batcher.respects R (NavalSquad.commandPhases env s).
Proof.
  unfold NavalSquad.commandPhases.
  cbv beta zeta; repeat (respects_step R_refl R_trans mild_leaf; cbv beta zeta).
  - apply moveUnitsInFormation_respects; auto using mild_quiet.
  - apply attackPhase_respects; auto using mild_quiet.
  - apply explorePhase_respects.
Qed.

End NavalSquadExploring.

Section Throttle.
Context `{MathOps} `{MapOps}.

Lemma throttled_refl (x : NavalSquad.t * Batcher.ActionBatcher) : NavalSquad.throttled x x.
Proof. split; [apply pushesNew_refl | reflexivity]. Qed.

Lemma throttled_trans (x y z : NavalSquad.t * Batcher.ActionBatcher) :
  NavalSquad.throttled x y -> NavalSquad.throttled y z -> NavalSquad.throttled x z.
Proof.
  intros [Hp1 Hl1] [Hp2 Hl2]. split.
  - eapply pushesNew_trans; eassumption.
  - congruence.
Qed.

Lemma throttled_submit (action : Batcher.BatchableAction) :
  Batcher.respects NavalSquad.throttled (NavalSquad.submitActionIfNew action).
Proof.
  intros s b. split.
  - apply (submitIfNew_pushesNew NavalSquad.lastOrderGiven NavalSquad.set_lastOrderGiven).
    reflexivity.
  - unfold Batcher.after, NavalSquad.submitActionIfNew, Batcher.submitIfNew.
    destruct (NavalSquad.lastOrderGiven s !! Batcher.unitId action) as [lastAction|];
      [destruct (Batcher.isSameAs lastAction action)|]; reflexivity.
Qed.

Lemma throttled_mild (f : NavalSquad.t -> NavalSquad.t) :
  (forall s, NavalSquad.lastOrderGiven (f s) = NavalSquad.lastOrderGiven s
             /\ NavalSquad.lastCommand (f s) = NavalSquad.lastCommand s) ->
  Batcher.respects NavalSquad.throttled (Batcher.modify f).
Proof.
  intros Hf s b. split.
  - apply modify_pushesNew. intro s0. apply (Hf s0).
  - apply (Hf s).
Qed.

Lemma stuckCheckBlock_throttled (env : SquadEnv.t) :
  Batcher.respects NavalSquad.throttled (NavalSquad.stuckCheckBlock env).
Proof.
  apply stuckCheckBlock_respects;
    [ exact throttled_refl | exact throttled_trans | exact throttled_submit
    | apply mild_quiet; exact throttled_mild ].
Qed.

Lemma stuckCheckBlock_idle (env : SquadEnv.t) (s : NavalSquad.t)
    (b : Batcher.ActionBatcher) :
  NavalSquad.isStuckCheckTick s env = false ->
  NavalSquad.stuckCheckBlock env s b = (tt, s, b).
Proof.
  intro Hidle. unfold NavalSquad.stuckCheckBlock, Batcher.bind, Batcher.gets.
  rewrite Hidle. reflexivity.
Qed.

Lemma commandBlock_throttle (env : SquadEnv.t) (s : NavalSquad.t)
    (b : Batcher.ActionBatcher) :
  let r := NavalSquad.commandBlock env s b in
  Batcher.pushesNew NavalSquad.lastOrderGiven (s, b) (snd (fst r), snd r)
  /\ (NavalSquad.isCommandTick s env = false -> snd r = b)
  /\ (NavalSquad.isCommandTick s env = true ->
      NavalSquad.lastCommand (snd (fst r)) = SquadEnv.currentTick env).
Proof.
  cbv zeta. unfold NavalSquad.commandBlock, Batcher.bind, Batcher.gets.
  destruct (NavalSquad.isCommandTick s env).
  - unfold Batcher.modify.
    destruct (commandPhases_respects NavalSquad.throttled throttled_refl throttled_trans
                throttled_submit throttled_mild env s
                (NavalSquad.set_lastCommand (SquadEnv.currentTick env) s) b) as [Hp Hl].
    split; [exact Hp|]. split; [discriminate | intros _; exact Hl].
  - split; [apply pushesNew_refl|]. split; [reflexivity | discriminate].
Qed.

(** The full squad: all orders go through the channel; none is pushed
    on a tick that is neither a command tick nor a stuck-check tick; a
    command tick stamps [lastCommand]. *)
Lemma onAiUpdate_throttle (env : SquadEnv.t) (s : NavalSquad.t)
    (b : Batcher.ActionBatcher) :
  let r := NavalSquad.onAiUpdate env s b in
  Batcher.pushesNew NavalSquad.lastOrderGiven (s, b) (snd (fst r), snd r)
  /\ (NavalSquad.isCommandTick s env = false ->
      NavalSquad.isStuckCheckTick s env = false -> snd r = b)
  /\ (NavalSquad.isCommandTick s env = true ->
      NavalSquad.lastCommand (snd (fst r)) = SquadEnv.currentTick env).
Proof.
  cbv zeta. unfold NavalSquad.onAiUpdate, Batcher.bind.
  pose proof (stuckCheckBlock_throttled env s b) as [Hp1 Hl1].
  pose proof (stuckCheckBlock_idle env s b) as Hidle.
  unfold Batcher.after in Hp1, Hl1.
  destruct (NavalSquad.stuckCheckBlock env s b) as [[u s1] b1]. cbn [fst snd] in *.
  assert (Htick : NavalSquad.isCommandTick s1 env = NavalSquad.isCommandTick s env)
    by (unfold NavalSquad.isCommandTick; rewrite Hl1; reflexivity).
  destruct (commandBlock_throttle env s1 b1) as (Hp2 & Hquiet & Hstamp).
  cbv zeta in Hp2, Hquiet, Hstamp. rewrite Htick in Hquiet, Hstamp.
  split; [eapply pushesNew_trans; eassumption|].
  split; [|exact Hstamp].
  intros Hnc Hns. specialize (Hidle Hns). injection Hidle as _ _ ->.
  apply Hquiet. exact Hnc.
Qed.

Lemma basic_submit_pushesNew (action : Batcher.BatchableAction) :
  Batcher.respects (Batcher.pushesNew NavalSquadBasic.lastOrderGiven)
    (NavalSquadBasic.submitActionIfNew action).
Proof.
  apply (submitIfNew_pushesNew NavalSquadBasic.lastOrderGiven
           NavalSquadBasic.set_lastOrderGiven).
  reflexivity.
Qed.

Lemma basic_throttled_refl (x : NavalSquadBasic.t * Batcher.ActionBatcher) :
  NavalSquadBasic.throttled x x.
Proof. split; [apply pushesNew_refl | reflexivity]. Qed.

Lemma basic_throttled_trans (x y z : NavalSquadBasic.t * Batcher.ActionBatcher) :
  NavalSquadBasic.throttled x y -> NavalSquadBasic.throttled y z ->
  NavalSquadBasic.throttled x z.
Proof.
  intros [Hp1 Hl1] [Hp2 Hl2]. split.
  - eapply pushesNew_trans; eassumption.
  - congruence.
Qed.

Lemma basic_throttled_submit (action : Batcher.BatchableAction) :
  Batcher.respects NavalSquadBasic.throttled (NavalSquadBasic.submitActionIfNew action).
Proof.
  intros s b. split.
  - apply basic_submit_pushesNew.
  - unfold Batcher.after, NavalSquadBasic.submitActionIfNew, Batcher.submitIfNew.
    destruct (NavalSquadBasic.lastOrderGiven s !! Batcher.unitId action) as [lastAction|];
      [destruct (Batcher.isSameAs lastAction action)|]; reflexivity.
Qed.

Lemma basic_throttled_state (v : NavalSquadBasic.SquadState) :
  Batcher.respects NavalSquadBasic.throttled (Batcher.modify (NavalSquadBasic.set_state v)).
Proof.
  intros s b. split; [|reflexivity].
  apply modify_pushesNew. reflexivity.
Qed.

Lemma basic_commandPhases_throttled (env : SquadEnv.t) (s : NavalSquadBasic.t) :
  Batcher.respects NavalSquadBasic.throttled (NavalSquadBasic.commandPhases env s).
Proof.
  unfold NavalSquadBasic.commandPhases. cbv beta zeta.
  repeat (respects_step basic_throttled_refl basic_throttled_trans
            ltac:(first [ apply basic_throttled_submit
                        | apply basic_throttled_state ])).
Qed.

(** The basic squad: all orders go through the channel; none is pushed
    outside a command tick; a command tick stamps [lastCommand]. *)
Lemma basic_onAiUpdate_throttle (env : SquadEnv.t) (s : NavalSquadBasic.t)
    (b : Batcher.ActionBatcher) :
  let r := NavalSquadBasic.onAiUpdate env s b in
  Batcher.pushesNew NavalSquadBasic.lastOrderGiven (s, b) (snd (fst r), snd r)
  /\ (NavalSquadBasic.isCommandTick s env = false -> snd r = b)
  /\ (NavalSquadBasic.isCommandTick s env = true ->
      NavalSquadBasic.lastCommand (snd (fst r)) = SquadEnv.currentTick env).
Proof.
  cbv zeta. unfold NavalSquadBasic.onAiUpdate, Batcher.bind, Batcher.gets.
  destruct (NavalSquadBasic.isCommandTick s env).
  - unfold Batcher.modify.
    destruct (basic_commandPhases_throttled env s
                (NavalSquadBasic.set_lastCommand (SquadEnv.currentTick env) s) b)
      as [Hp Hl].
    split; [exact Hp|]. split; [discriminate | intros _; exact Hl].
  - split; [apply pushesNew_refl|]. split; [reflexivity | discriminate].
Qed.


End Throttle.

Section ThrottleRun.
Local Existing Instance Concrete.math.
Local Existing Instance Concrete.map.



End ThrottleRun.

(** ** Attack weights and the choice of a target *)

(** *** The order of the extended numbers *)

Lemma Number_ltb_le (a b : Number.t) :
  Number.ltb a b = true -> Number.le a b.
Proof.
  destruct a, b; cbn; try discriminate; try (intros _; exact I).
  intro Hlt. apply Qlt_le_weak, Qltb_lt, Hlt.
Qed.

Lemma Number_ltb_ge (a b : Number.t) :
  Number.ltb a b = false -> a = Number.NaN \/ b = Number.NaN \/ Number.le b a.
Proof.
  destruct a, b; cbn; try discriminate; auto.
  intro Hge. right. right. apply Qltb_ge, Hge.
Qed.

Lemma Number_le_trans (a b c : Number.t) :
  Number.le a b -> Number.le b c -> Number.le a c.
Proof.
  destruct a, b, c; cbn; try contradiction; auto.
  apply Qle_trans.
Qed.

Lemma Number_lt_le_trans (a b c : Number.t) :
  Number.ltb a b = true -> Number.ltb b c = true -> Number.ltb a c = true.
Proof.
  destruct a, b, c; cbn; try discriminate; auto.
  intros Hab Hbc. apply Qltb_lt. apply Qltb_lt in Hab, Hbc.
  eapply Qlt_trans; eassumption.
Qed.

Lemma Number_le_not_lt (a b : Number.t) :
  Number.le a b -> Number.ltb b a = false.
Proof.
  destruct a, b; cbn; try contradiction; auto.
  intro Hle. apply Qltb_ge, Hle.
Qed.

Lemma Number_ltb_not_NaN (a b : Number.t) :
  Number.ltb a b = true -> a <> Number.NaN /\ b <> Number.NaN.
Proof. destruct a, b; cbn; try discriminate; split; discriminate. Qed.

Lemma Number_le_refl (a : Number.t) : a <> Number.NaN -> Number.le a a.
Proof. destruct a; cbn; try congruence; auto. intros _. apply Qle_refl. Qed.

(** *** The [reduce] that picks a target *)

(** The [reduce] returns a candidate whose weight exceeds -1 and is
    the greatest of the weights that are numbers, and nothing when no
    candidate's weight exceeds -1.  A weight that is [NaN] is never
    picked and never compared above another. *)
Lemma reduceBest_spec (weight : UnitData -> Number.t) (candidates : list UnitData) :
  match NavalSquad.reduceBest weight candidates with
  | Some best =>
      In best candidates
      /\ Number.ltb (Number.Finite (-1)) (weight best) = true
      /\ forall other, In other candidates ->
           weight other = Number.NaN \/ Number.le (weight other) (weight best)
  | None =>
      forall other, In other candidates ->
        weight other = Number.NaN \/ Number.le (weight other) (Number.Finite (-1))
  end.
Proof.
  induction candidates as [|current candidates IH] using rev_ind.
  - cbn. intros other [].
  - unfold NavalSquad.reduceBest in *. rewrite fold_left_app. cbn [fold_left].
    destruct (fold_left _ candidates None) as [best|].
    + destruct IH as (Hin & Hpos & Hmax).
      destruct (Number.ltb (weight best) (weight current)) eqn:E.
      * split; [apply in_or_app; right; left; reflexivity|].
        split; [eapply Number_lt_le_trans; eassumption|].
        intros other Hother. apply in_app_or in Hother.
        destruct Hother as [Hold | [<- | []]].
        -- destruct (Hmax other Hold) as [Hnan | Hle]; [left; exact Hnan|].
           right. eapply Number_le_trans; [exact Hle | apply Number_ltb_le, E].
        -- right. apply Number_le_refl. apply (Number_ltb_not_NaN _ _ E).
      * split; [apply in_or_app; left; exact Hin|]. split; [exact Hpos|].
        intros other Hother. apply in_app_or in Hother.
        destruct Hother as [Hold | [<- | []]]; [apply Hmax, Hold|].
        apply Number_ltb_ge in E. destruct E as [Hb | [Hc | Hle]].
        -- exfalso. apply (Number_ltb_not_NaN _ _ Hpos). exact Hb.
        -- left. exact Hc.
        -- right. exact Hle.
    + destruct (Number.ltb (Number.Finite (-1)) (weight current)) eqn:E.
      * split; [apply in_or_app; right; left; reflexivity|]. split; [exact E|].
        intros other Hother. apply in_app_or in Hother.
        destruct Hother as [Hold | [<- | []]].
        -- destruct (IH other Hold) as [Hnan | Hle]; [left; exact Hnan|].
           right. eapply Number_le_trans; [exact Hle | apply Number_ltb_le, E].
        -- right. apply Number_le_refl. apply (Number_ltb_not_NaN _ _ E).
      * intros other Hother. apply in_app_or in Hother.
        destruct Hother as [Hold | [<- | []]]; [apply IH, Hold|].
        apply Number_ltb_ge in E. destruct E as [Hb | [Hc | Hle]];
          [discriminate | left; exact Hc | right; exact Hle].
Qed.

(** Nothing is picked exactly when no candidate's weight exceeds -1. *)
Lemma reduceBest_none (weight : UnitData -> Number.t) (candidates : list UnitData) :
  NavalSquad.reduceBest weight candidates = None
  <-> forall other, In other candidates ->
        weight other = Number.NaN \/ Number.le (weight other) (Number.Finite (-1)).
Proof.
  pose proof (reduceBest_spec weight candidates) as Hspec.
  destruct (NavalSquad.reduceBest weight candidates) as [best|].
  - destruct Hspec as (Hin & Hpos & _). split; [discriminate|].
    intro Hall. exfalso. destruct (Hall best Hin) as [Hnan | Hle].
    + apply (Number_ltb_not_NaN _ _ Hpos). exact Hnan.
    + apply Number_le_not_lt in Hle. congruence.
  - split; [intros _; exact Hspec | reflexivity].
Qed.

Section TargetChoice.
Context `{MathOps} `{MapOps}.

(** *** The weights *)

Lemma scaled_range_nonzero (r k : Q) :
  ~ (r == 0)%Q -> ~ (k == 0)%Q -> Qeq_bool (r * k) 0 = false.
Proof.
  intros Hr Hk. destruct (Qeq_bool (r * k) 0) eqn:E; [|reflexivity].
  apply Qeq_bool_iff in E. exfalso.
  destruct (Qmult_integral _ _ E); contradiction.
Qed.

(** With a weapon range that is not zero the weight of the full squad
    is a number, the product of its three factors. *)
Lemma calculateTargetWeight_product (attacker target : UnitData) (inMajorBattle : bool) :
  ~ (NavalSquad.weaponRange attacker == 0)%Q ->
  exists q,
    NavalSquad.calculateTargetWeight attacker target inMajorBattle = Number.Finite q
    /\ (q == NavalSquad.classFactor target * NavalSquad.inRangeFactor attacker target
             * NavalSquad.distanceDecay attacker target)%Q.
Proof.
  intro Hrange.
  unfold NavalSquad.calculateTargetWeight. cbv zeta. unfold Number.div.
  rewrite (scaled_range_nonzero _ (25 # 10) Hrange) by discriminate.
  cbn [Number.sub Number.mul]. eexists. split; [reflexivity|].
  unfold NavalSquad.classFactor, NavalSquad.inRangeFactor, NavalSquad.distanceDecay,
    NavalSquad.healthPercentage.
  destruct (rules_isSelectableCombatant target);
    [ destruct (eqMovementZone (rules_movementZone target) Water);
      destruct (eqMovementZone (rules_movementZone target) AmphibiousDestroyer)
    | destruct (String.eqb (rules_name target) "NAYARD") ];
    destruct (Qleb _ _); ring.
Qed.

(** The factors of the basic squad's weight multiply to a number when
    the weapon range is not zero; at twice the range the number is
    zero. *)
Lemma getNavalAttackWeight_zero (attacker target : UnitData) :
  ~ (NavalSquadBasic.getRangeForUnit attacker == 0)%Q ->
  (getDistanceBetweenUnits attacker target
   == 2 * NavalSquadBasic.getRangeForUnit attacker)%Q ->
  exists q, NavalSquadBasic.getNavalAttackWeight attacker target = Number.Finite q
            /\ (q == 0)%Q.
Proof.
  intros Hrange Hdist.
  unfold NavalSquadBasic.getNavalAttackWeight. cbv zeta. unfold Number.div.
  rewrite (scaled_range_nonzero _ 2 Hrange) by discriminate.
  cbn [Number.sub Number.mul]. eexists. split; [reflexivity|].
  assert (Hdecay : (1 - getDistanceBetweenUnits attacker target
                        / (NavalSquadBasic.getRangeForUnit attacker * 2) == 0)%Q).
  { rewrite Hdist. field. exact Hrange. }
  rewrite Hdecay. ring.
Qed.

(** With a weapon range of zero the last factor is a division by zero:
    a target at a positive distance whose class factor is positive
    weighs [-Infinity]. *)
Lemma calculateTargetWeight_zero_range (attacker target : UnitData)
    (inMajorBattle : bool) :
  (NavalSquad.weaponRange attacker == 0)%Q ->
  (0 < getDistanceBetweenUnits attacker target)%Q ->
  (0 < NavalSquad.classFactor target)%Q ->
  NavalSquad.calculateTargetWeight attacker target inMajorBattle = Number.NegInfinity.
Proof.
  intros Hrange Hdist Hclass.
  unfold NavalSquad.calculateTargetWeight. cbv zeta.
  assert (Hfar : Qleb (getDistanceBetweenUnits attacker target)
                      (NavalSquad.weaponRange attacker) = false).
  { destruct (Qleb _ _) eqn:E; [|reflexivity]. apply Qleb_le in E.
    rewrite Hrange in E. exfalso. apply (Qlt_not_le _ _ Hdist E). }
  rewrite Hfar.
  assert (Hz : Qeq_bool (NavalSquad.weaponRange attacker * (25 # 10)) 0 = true).
  { apply Qeq_bool_iff. rewrite Hrange. reflexivity. }
  assert (Hnz : Qeq_bool (getDistanceBetweenUnits attacker target) 0 = false).
  { destruct (Qeq_bool (getDistanceBetweenUnits attacker target) 0) eqn:E;
      [|reflexivity].
    apply Qeq_bool_iff in E. rewrite E in Hdist. exfalso. apply (Qlt_irrefl 0 Hdist). }
  assert (Hpos : Qltb 0 (getDistanceBetweenUnits attacker target) = true)
    by (apply Qltb_lt; exact Hdist).
  unfold Number.div. rewrite Hz, Hnz. unfold Number.sign at 1. rewrite Hnz, Hpos.
  cbn [Number.infinity Z.ltb Z.compare Number.sub].
  match goal with |- Number.mul (Number.Finite ?w) _ = _ =>
    assert (Hw : (w == NavalSquad.classFactor target)%Q)
  end.
  { unfold NavalSquad.classFactor, NavalSquad.healthPercentage.
    destruct (rules_isSelectableCombatant target);
      [ destruct (eqMovementZone (rules_movementZone target) Water);
        destruct (eqMovementZone (rules_movementZone target) AmphibiousDestroyer)
      | destruct (String.eqb (rules_name target) "NAYARD") ]; ring. }
  match goal with |- Number.mul (Number.Finite ?w) _ = _ =>
    assert (Hwpos : (0 < w)%Q) by (rewrite Hw; exact Hclass);
    assert (Hs : Number.sign (Number.Finite w) = 1)
  end.
  { unfold Number.sign.
    match goal with |- (if Qeq_bool ?w 0 then _ else _) = _ =>
      destruct (Qeq_bool w 0) eqn:E
    end.
    - apply Qeq_bool_iff in E. rewrite E in Hwpos. exfalso. apply (Qlt_irrefl 0 Hwpos).
    - apply Qltb_lt in Hwpos. rewrite Hwpos. reflexivity. }
  unfold Number.mul. rewrite Hs. reflexivity.
Qed.

(** *** The choice *)

Lemma no_combatant (hostiles : list UnitData) :
  List.filter rules_isSelectableCombatant hostiles = [] ->
  forall other, In other hostiles -> rules_isSelectableCombatant other = false.
Proof.
  intros Hnil other Hother.
  destruct (rules_isSelectableCombatant other) eqn:E; [|reflexivity].
  assert (Hf : In other (List.filter rules_isSelectableCombatant hostiles))
    by (apply filter_In; split; assumption).
  rewrite Hnil in Hf. destruct Hf.
Qed.

(** [findBestTarget] picks nothing exactly when no scanned combatant
    weighs more than -1, or, with no combatant scanned, when no scanned
    hostile does. *)
Lemma findBestTarget_none (unit : UnitData) (hostiles : list UnitData)
    (inMajorBattle : bool) :
  let weight := fun target => NavalSquad.calculateTargetWeight unit target inMajorBattle in
  NavalSquad.findBestTarget unit hostiles inMajorBattle = None
  <-> forall other,
        In other (match List.filter rules_isSelectableCombatant hostiles with
                  | [] => hostiles
                  | combatants => combatants
                  end) ->
        weight other = Number.NaN \/ Number.le (weight other) (Number.Finite (-1)).
Proof.
  intro weight. unfold NavalSquad.findBestTarget. cbv zeta. fold weight.
  destruct (List.filter rules_isSelectableCombatant hostiles)
    as [|firstCombatant combatants] eqn:Ecombat.
  - rewrite reduceBest_none. split; intros Hall other Hother.
    + apply Hall. apply filter_In. split; [exact Hother|].
      rewrite (no_combatant hostiles Ecombat other Hother). reflexivity.
    + apply filter_In in Hother. apply Hall, Hother.
  - rewrite <- reduceBest_none.
    destruct (List.find _ _) as [yard|];
      destruct (NavalSquad.reduceBest weight (firstCombatant :: combatants)) as [combat|];
      try (split; [discriminate | discriminate]); try reflexivity.
    destruct (Qleb _ _ && Qltb _ _); split; discriminate.
Qed.

(** What [findBestTarget] picks: a combatant of greatest weight; or,
    when that combatant is farther than 1.5 times the weapon range, the
    first naval yard within weapon range; or, with no combatant
    scanned, a structure of greatest weight. *)
Lemma findBestTarget_some (unit : UnitData) (hostiles : list UnitData)
    (inMajorBattle : bool) (best : UnitData) :
  let weight := fun target => NavalSquad.calculateTargetWeight unit target inMajorBattle in
  let greatest := fun (candidate : UnitData) (among : UnitData -> Prop) =>
    Number.ltb (Number.Finite (-1)) (weight candidate) = true
    /\ forall other, In other hostiles -> among other ->
         weight other = Number.NaN \/ Number.le (weight other) (weight candidate) in
  NavalSquad.findBestTarget unit hostiles inMajorBattle = Some best ->
  In best hostiles
  /\ ((rules_isSelectableCombatant best = true
       /\ greatest best (fun other => rules_isSelectableCombatant other = true))
      \/ (rules_isSelectableCombatant best = false
          /\ rules_name best = "NAYARD"%string
          /\ (getDistanceBetweenUnits unit best <= NavalSquad.weaponRange unit)%Q
          /\ exists combatant,
               In combatant hostiles
               /\ rules_isSelectableCombatant combatant = true
               /\ greatest combatant (fun other => rules_isSelectableCombatant other = true)
               /\ (NavalSquad.weaponRange unit * (15 # 10)
                   < getDistanceBetweenUnits unit combatant)%Q)
      \/ (rules_isSelectableCombatant best = false
          /\ (forall other, In other hostiles -> rules_isSelectableCombatant other = false)
          /\ greatest best (fun _ => True))).
Proof.
  intros weight greatest Hbest.
  unfold NavalSquad.findBestTarget in Hbest. cbv zeta in Hbest. fold weight in Hbest.
  pose proof (reduceBest_spec weight (List.filter rules_isSelectableCombatant hostiles))
    as Hcombat.
  pose proof (reduceBest_spec weight
                (List.filter (fun t => negb (rules_isSelectableCombatant t)) hostiles))
    as Hbuilding.
  destruct (List.filter rules_isSelectableCombatant hostiles)
    as [|firstCombatant combatants] eqn:Ecombat.
  - (* no combatant is scanned *)
    rewrite Hbest in Hbuilding. destruct Hbuilding as (Hin & Hpos & Hmax).
    apply filter_In in Hin. destruct Hin as [Hin Hnot]. apply negb_true_iff in Hnot.
    pose proof (no_combatant hostiles Ecombat) as Hnone.
    split; [exact Hin|]. right. right. split; [exact Hnot|]. split; [exact Hnone|].
    split; [exact Hpos|]. intros other Hother _. apply Hmax. apply filter_In.
    split; [exact Hother | rewrite (Hnone other Hother); reflexivity].
  - (* combatants are scanned *)
    rewrite <- Ecombat in Hcombat, Hbest.
    assert (Hgreatest : forall combat,
              NavalSquad.reduceBest weight (List.filter rules_isSelectableCombatant hostiles)
              = Some combat ->
              In combat hostiles /\ rules_isSelectableCombatant combat = true
              /\ greatest combat (fun other => rules_isSelectableCombatant other = true)).
    { intros combat Hpick. rewrite Hpick in Hcombat.
      destruct Hcombat as (Hin & Hpos & Hmax).
      apply filter_In in Hin. destruct Hin as [Hin Hyes].
      split; [exact Hin|]. split; [exact Hyes|]. split; [exact Hpos|].
      intros other Hother Hc. apply Hmax. apply filter_In. split; assumption. }
    destruct (List.find _ _) as [yard|] eqn:Eyard.
    + destruct (NavalSquad.reduceBest weight
                  (List.filter rules_isSelectableCombatant hostiles)) as [combat|] eqn:Er;
        [|discriminate].
      destruct (Hgreatest combat eq_refl) as (Hin & Hyes & Hg).
      destruct (Qleb _ _ && Qltb _ _) eqn:Eover.
      * injection Hbest as <-.
        apply find_some in Eyard. destruct Eyard as [Hyin Htest].
        apply filter_In in Hyin. destruct Hyin as [Hyin Hnot].
        apply negb_true_iff in Hnot. apply andb_true_iff in Htest.
        destruct Htest as [Hclose Hname]. apply andb_true_iff in Eover.
        destruct Eover as [_ Hfar].
        split; [exact Hyin|]. right. left. split; [exact Hnot|].
        split; [apply String.eqb_eq; exact Hname|].
        split; [apply Qleb_le; exact Hclose|].
        exists combat. split; [exact Hin|]. split; [exact Hyes|]. split; [exact Hg|].
        apply Qltb_lt. exact Hfar.
      * injection Hbest as <-. split; [exact Hin|]. left. split; assumption.
    + destruct (Hgreatest best Hbest) as (Hin & Hyes & Hg).
      split; [exact Hin|]. left. split; assumption.
Qed.


End TargetChoice.

Section TargetChoiceRun.
Local Existing Instance Concrete.math.
Local Existing Instance Concrete.map.



(** The weights of those inputs. *)
Lemma picking_weights :
  (exists q, NavalSquad.calculateTargetWeight Concrete.pickingUnit
               (Concrete.unitAt 8 "HTNK" 72 60 Vehicle true OtherZone) false
             = Number.Finite q /\ (q == 8 # 100)%Q)
  /\ (exists q, NavalSquad.calculateTargetWeight Concrete.pickingUnit
                  (Concrete.unitAt 7 "NAPOWR" 61 60 Building false OtherZone) false
                = Number.Finite q /\ (q == 9568 # 10000)%Q)
  /\ (exists q, NavalSquad.calculateTargetWeight Concrete.pickingUnit
                  (Concrete.unitAt 8 "HTNK" 80 60 Vehicle true OtherZone) false
                = Number.Finite q /\ (q == - (12 # 10))%Q).
Proof.
  repeat split; eexists; (split; [vm_compute; reflexivity | reflexivity]).
Qed.

End TargetChoiceRun.

(** ** Clamping of order targets *)

(** [NavalSquad.clampToMapBoundaries] returns a point of the rectangle
    [1 .. width - 2] by [1 .. height - 2], on a map that has one. *)
Lemma squad_clamp_in_map (env : SquadEnv.t) (p : Vector2) :
  3 <= width (SquadEnv.mapSize env) -> 3 <= height (SquadEnv.mapSize env) ->
  exists x y,
    NavalSquad.clampToMapBoundaries env p = {| vx := inject_Z x; vy := inject_Z y |}
    /\ 1 <= x <= width (SquadEnv.mapSize env) - 2
    /\ 1 <= y <= height (SquadEnv.mapSize env) - 2.
Proof.
  intros Hw Hh. unfold NavalSquad.clampToMapBoundaries.
  eexists. eexists. split; [reflexivity|]. lia.
Qed.

(** [NavalMission.clampToMapBoundaries] returns a point of the
    rectangle [2 .. width - 3] by [2 .. height - 3], on a map that has
    one. *)
Lemma mission_clamp_in_map (size : MapSize) (p : Vector2) :
  5 <= width size -> 5 <= height size ->
  exists x y,
    NavalMission.clampToMapBoundaries size p = {| vx := inject_Z x; vy := inject_Z y |}
    /\ 2 <= x <= width size - 3
    /\ 2 <= y <= height size - 3.
Proof.
  intros Hw Hh. unfold NavalMission.clampToMapBoundaries.
  eexists. eexists. split; [reflexivity|]. lia.
Qed.

Section ClampRun.
Local Existing Instance Concrete.math.
Local Existing Instance Concrete.map.

(** The squad's clamp on the map of width 120: the point (135, 60) is
    brought back into the rectangle. *)
Lemma squad_clamp_in_map_witness :
  exists x y,
    NavalSquad.clampToMapBoundaries Concrete.idleEnv (Concrete.point 135 60)
    = {| vx := inject_Z x; vy := inject_Z y |}
    /\ 1 <= x <= width (SquadEnv.mapSize Concrete.idleEnv) - 2
    /\ 1 <= y <= height (SquadEnv.mapSize Concrete.idleEnv) - 2.
Proof.
  apply (squad_clamp_in_map Concrete.idleEnv (Concrete.point 135 60));
    vm_compute; discriminate.
Defined.

(** The mission's clamp on the same map, at the same point. *)
Lemma mission_clamp_in_map_witness :
  exists x y,
    NavalMission.clampToMapBoundaries (SquadEnv.mapSize Concrete.idleEnv)
      (Concrete.point 135 60)
    = {| vx := inject_Z x; vy := inject_Z y |}
    /\ 2 <= x <= width (SquadEnv.mapSize Concrete.idleEnv) - 3
    /\ 2 <= y <= height (SquadEnv.mapSize Concrete.idleEnv) - 3.
Proof.
  apply (mission_clamp_in_map (SquadEnv.mapSize Concrete.idleEnv) (Concrete.point 135 60));
    vm_compute; discriminate.
Defined.

(** C9 (the code at a failing input).  The attacking squad whose idle
    destroyer, unit 360, stands at (110, 60) on the map of width 120:
    the update orders the autonomous search move, whose target is 25
    tiles east of the unit — at x = 135, outside the map — and is
    pushed to the batcher without passing through
    [clampToMapBoundaries]. *)
Theorem combat_search_move_leaves_map :
  NavalSquad.isCommandTick Concrete.idleSquad Concrete.idleEnv = true
  /\ match snd (NavalSquad.onAiUpdate Concrete.idleEnv Concrete.idleSquad []) with
     | [order] =>
         Batcher.unitId order = 360
         /\ Batcher.orderType order = Batcher.Move
         /\ match Batcher.point order with
            | Some target =>
                (vx target == 135)%Q /\ (vy target == 60)%Q
                /\ (inject_Z (width (SquadEnv.mapSize Concrete.idleEnv)) <= vx target)%Q
                /\ ~ (vx target == vx (NavalSquad.clampToMapBoundaries Concrete.idleEnv target))%Q
            | None => False
            end
     | _ => False
     end.
Proof.
  split; [reflexivity|].
  vm_compute. repeat split; try reflexivity; discriminate.
Qed.

End ClampRun.
